(** * Performance monitoring: metric store, threshold alerts, health score

    A shallow embedding of [scripts/performance-monitoring.py]: the
    [PerformanceDatabase] tables, the two collectors, the [AlertManager]
    with its cooldown bookkeeping, and the health computation of
    [PerformanceMonitoringSystem].

    Conventions of the embedding.
    - Python numbers are rationals ([Q]).  Comparisons are those of the
      numbers; NaN and the infinities are left out, and so is the rounding
      error of float arithmetic (the health score only ever subtracts small
      integers from 100, which floats do exactly).  The numbers of an alert
      are those of the sample evaluated, floats, which a REAL column keeps
      as they are; what a REAL column keeps of the numbers of a sample is
      computed ([nearest_double]).
    - A timestamp is the text [datetime.isoformat()] prints; it is
      represented by the instant it denotes, in microseconds ([Z]).  On such
      texts the order SQLite uses for TEXT is the order of the instants.
    - An f-string is kept as the list of its pieces ([Text]); the digits
      Python prints for a float are not computed.
    - The text [json.dumps] writes for a metadata dict is kept as the JSON
      value it denotes ([Json]); the text it writes for a list of str is kept
      as the list, which [json.loads] gives back.
    - [datetime.now()] is an argument of the function that calls it, one
      argument per call, in program order.
    - sqlite3 is taken to be available: an INSERT that binds its values adds
      its row.  The numbers of the embedding do not tell an int from a
      float, so whether sqlite3 binds the numbers of a sample (it raises for
      an int of 2**63 or more) is an answer of the environment, asked where
      the monitoring cycle stores a sample. *)

From Stdlib Require Import QArith Qround Lqa.
From stdpp Require Import gmap strings list fin_maps sorting.

Local Open Scope string_scope.
Local Open Scope list_scope.
Local Open Scope Z_scope.

(** ** Python values *)

(** Truth value of a number in a condition: zero is false. *)
Definition truthy (q : Q) : bool := negb (Qeq_bool q 0).

(** [a >= b] on numbers. *)
Definition py_ge (a b : Q) : bool := Qle_bool b a.

(** [a < b] on numbers. *)
Definition py_lt (a b : Q) : bool := negb (Qle_bool b a).

(** [min(a, b)] and [max(a, b)]: the first argument unless the second is
    strictly smaller (resp. larger). *)
Definition py_min (a b : Q) : Q := if py_lt b a then b else a.
Definition py_max (a b : Q) : Q := if py_lt a b then b else a.

(** Values found in a metadata dict. *)
Inductive PyVal :=
| PyNone
| PyNum (q : Q)
| PyStr (s : string)
| PyStrs (l : list string)      (* a list of str *)
| PyTuple (l : list string).    (* a tuple of str *)

(** [Dict[str, Any]], in insertion order; the keys are str, as annotated. *)
Definition Metadata := list (string * PyVal).

(** Pieces of an f-string. *)
Inductive Piece :=
| Lit (s : string)              (* literal text, or [{s}] for a str *)
| Num (q : Q)                   (* [{x}] for a number *)
| Fixed (digits : nat) (q : Q). (* [{x:.1f}], [{x:.2f}] *)

Definition Text := list Piece.

(** The JSON values [json.dumps] writes for the values of a metadata dict: a
    list and a tuple are both written as an array. *)
Inductive Json :=
| JsonNull
| JsonNumber (q : Q)
| JsonString (s : string)
| JsonArray (l : list string).

Definition json_encode (v : PyVal) : Json :=
  match v with
  | PyNone => JsonNull
  | PyNum q => JsonNumber q
  | PyStr s => JsonString s
  | PyStrs l => JsonArray l
  | PyTuple l => JsonArray l
  end.

(** [json.loads] reads an array as a list. *)
Definition json_decode (j : Json) : PyVal :=
  match j with
  | JsonNull => PyNone
  | JsonNumber q => PyNum q
  | JsonString s => PyStr s
  | JsonArray l => PyStrs l
  end.

(** [json.dumps] and [json.loads] of a metadata dict. *)
Definition json_dumps_dict (d : Metadata) : list (string * Json) :=
  map (fun '(key, v) => (key, json_encode v)) d.

Definition json_loads_dict (object : list (string * Json)) : Metadata :=
  map (fun '(key, j) => (key, json_decode j)) object.

(** The text written by [json.dumps] for a list of str, as the list. *)
Inductive JsonText (A : Type) :=
| json_dumps (a : A).
Arguments json_dumps {A} a.

Definition json_loads {A} (t : JsonText A) : A :=
  match t with
  | json_dumps a => a
  end.

(** ** Data classes *)

Record PerformanceMetric := {
  timestamp : Z;
  metric_name : string;
  value : Q;
  unit_ : string;
  threshold_warning : option Q;
  threshold_critical : option Q;
  metadata : option Metadata
}.

Record PerformanceAlert := {
  alert_timestamp : Z;
  alert_type : string;          (* 'warning', 'critical', 'recovery' *)
  alert_metric_name : string;
  current_value : Q;
  threshold : Q;
  message : Text;
  severity : string;
  resolved : bool;
  resolved_at : option Z
}.

Record SystemHealth := {
  health_timestamp : Z;
  health_score : Q;             (* 0-100 *)
  status : string;
  active_alerts : nat;
  performance_grade : string;   (* A, B, C, D, F *)
  bottlenecks : list Text;
  recommendations : list Text
}.

(** ** PerformanceDatabase *)

(** ** What a REAL column keeps of a number

    sqlite3 binds a float as it is and an int as a 64-bit integer, which the
    REAL columns of [performance_metrics] turn into the nearest double, a tie
    going to the even one.  A float is a double already. *)

(** [2 ** e] for an integer [e]. *)
Definition pow2 (e : Z) : Q :=
  if 0 <=? e then inject_Z (2 ^ e) else (1 / inject_Z (2 ^ (- e)))%Q.

(** The [e] with [2 ** e <= |x| < 2 ** (e + 1)], for [x] other than zero. *)
Definition binary_exponent (x : Q) : Z :=
  let e := Z.log2 (Z.abs (Qnum x)) - Z.log2 (Z.pos (Qden x)) in
  if Qle_bool (pow2 e) (Z.abs (Qnum x) # Qden x) then e else e - 1.

(** The nearest integer, a tie going to the even one. *)
Definition round_half_even (x : Q) : Z :=
  let n := Qfloor x in
  match (x - inject_Z n ?= 1 # 2)%Q with
  | Lt => n
  | Gt => n + 1
  | Eq => if Z.even n then n else n + 1
  end.

(** The double nearest to [x]: 53 significant bits.  (For a float, the
    smallest ones included, that is the float itself.) *)
Definition nearest_double (x : Q) : Q :=
  if Qeq_bool x 0 then 0%Q
  else
    let ulp := pow2 (binary_exponent x - 52) in
    Qred (inject_Z (round_half_even (x / ulp)) * ulp)%Q.

(** A row of [performance_metrics]: the metadata column is JSON text or NULL. *)
Record MetricRow := {
  row_timestamp : Z;
  row_metric_name : string;
  row_value : Q;
  row_unit : string;
  row_threshold_warning : option Q;
  row_threshold_critical : option Q;
  row_metadata : option (list (string * Json))
}.

(** A row of [system_health]. *)
Record HealthRow := {
  hrow_timestamp : Z;
  hrow_health_score : Q;
  hrow_status : string;
  hrow_active_alerts : nat;
  hrow_performance_grade : string;
  hrow_bottlenecks : JsonText (list Text);
  hrow_recommendations : JsonText (list Text)
}.

(** The three tables, each in insertion (rowid) order.  The columns of
    [performance_alerts] are the fields of [PerformanceAlert]. *)
Record PerformanceDatabase := {
  performance_metrics : list MetricRow;
  performance_alerts : list PerformanceAlert;
  system_health : list HealthRow
}.

Definition init_database : PerformanceDatabase :=
  {| performance_metrics := []; performance_alerts := []; system_health := [] |}.

(** Truth value of a dict: the empty dict is false. *)
Definition dict_truthy (d : Metadata) : bool :=
  match d with
  | [] => false
  | _ :: _ => true
  end.

(** The values bound by the INSERT of [store_metric]. *)
Definition metric_row (metric : PerformanceMetric) : MetricRow :=
  {| row_timestamp := timestamp metric;
     row_metric_name := metric_name metric;
     row_value := nearest_double (value metric);
     row_unit := unit_ metric;
     row_threshold_warning := nearest_double <$> threshold_warning metric;
     row_threshold_critical := nearest_double <$> threshold_critical metric;
     row_metadata :=
       match metadata metric with
       | Some d => if dict_truthy d then Some (json_dumps_dict d) else None
       | None => None
       end |}.

Definition store_metric (db : PerformanceDatabase) (metric : PerformanceMetric)
  : PerformanceDatabase :=
  {| performance_metrics := performance_metrics db ++ [metric_row metric];
     performance_alerts := performance_alerts db;
     system_health := system_health db |}.

Definition store_alert (db : PerformanceDatabase) (alert : PerformanceAlert)
  : PerformanceDatabase :=
  {| performance_metrics := performance_metrics db;
     performance_alerts := performance_alerts db ++ [alert];
     system_health := system_health db |}.

Definition store_health_snapshot (db : PerformanceDatabase) (health : SystemHealth)
  : PerformanceDatabase :=
  let row :=
    {| hrow_timestamp := health_timestamp health;
       hrow_health_score := health_score health;
       hrow_status := status health;
       hrow_active_alerts := active_alerts health;
       hrow_performance_grade := performance_grade health;
       hrow_bottlenecks := json_dumps (bottlenecks health);
       hrow_recommendations := json_dumps (recommendations health) |} in
  {| performance_metrics := performance_metrics db;
     performance_alerts := performance_alerts db;
     system_health := system_health db ++ [row] |}.

(** [ORDER BY timestamp DESC] as SQLite's sorter does it: newest first, rows
    of equal timestamps in the order in which they are given. *)
Fixpoint insert_by_desc {A} (key : A -> Z) (row : A) (sorted : list A) : list A :=
  match sorted with
  | [] => [row]
  | row' :: sorted' =>
      if decide (key row' <= key row) then row :: sorted
      else row' :: insert_by_desc key row sorted'
  end.

Definition order_by_desc {A} (key : A -> Z) (rows : list A) : list A :=
  foldr (insert_by_desc key) [] rows.

(** One hour of [timedelta], in microseconds. *)
Definition hour : Z := 3600 * 1000000.

(** The [PerformanceMetric] built from a row read by [get_recent_metrics].
    (A JSON text is never the empty string, so a metadata column that is not
    NULL is always loaded.) *)
Definition row_metric (row : MetricRow) : PerformanceMetric :=
  {| timestamp := row_timestamp row;
     metric_name := row_metric_name row;
     value := row_value row;
     unit_ := row_unit row;
     threshold_warning := row_threshold_warning row;
     threshold_critical := row_threshold_critical row;
     metadata :=
       match row_metadata row with
       | Some t => Some (json_loads_dict t)
       | None => None
       end |}.

(** The rows are found through the index on [metric_name], in rowid order,
    and then sorted: samples of equal timestamps come oldest row first. *)
Definition get_recent_metrics (db : PerformanceDatabase) (name : string)
    (hours : Z) (now : Z) : list PerformanceMetric :=
  let start_time := now - hours * hour in
  let rows :=
    order_by_desc row_timestamp
      (filter (fun r => row_metric_name r = name /\ start_time <= row_timestamp r)
              (performance_metrics db)) in
  map row_metric rows.

(** The rows are read through the index on [timestamp], backwards: alerts of
    equal timestamps come newest row first. *)
Definition get_active_alerts (db : PerformanceDatabase) : list PerformanceAlert :=
  order_by_desc alert_timestamp
    (reverse (filter (fun a => resolved a = false) (performance_alerts db))).

(** ** AlertManager *)

(** The manager's attributes, and [handler_calls]: every call [handler(alert)]
    made so far, oldest first, as (handler, alert).  A handler stands for a
    registered callable; one that raises is caught by [_send_alert], so the
    call is recorded either way. *)
Record AlertManager := {
  db : PerformanceDatabase;
  alert_cooldown : Z;
  recent_alerts : gmap string Z;
  notification_handlers : list string;
  handler_calls : list (string * PerformanceAlert)
}.

(** One minute of [timedelta], in microseconds. *)
Definition minute : Z := 60 * 1000000.

Definition AlertManager_init (d : PerformanceDatabase) : AlertManager :=
  {| db := d;
     alert_cooldown := 15 * minute;
     recent_alerts := ∅;
     notification_handlers := [];
     handler_calls := [] |}.

Definition register_notification_handler (am : AlertManager) (handler : string)
  : AlertManager :=
  {| db := db am;
     alert_cooldown := alert_cooldown am;
     recent_alerts := recent_alerts am;
     notification_handlers := notification_handlers am ++ [handler];
     handler_calls := handler_calls am |}.

(** [t and v >= t] for an optional threshold [t] ([None] and zero are both
    false): the threshold when the condition holds. *)
Definition breached (t : option Q) (v : Q) : option Q :=
  match t with
  | Some q => if truthy q && py_ge v q then Some q else None
  | None => None
  end.

(** [t or 0]. *)
Definition or_zero (t : option Q) : Q :=
  match t with
  | Some q => if truthy q then q else 0%Q
  | None => 0%Q
  end.

Definition _get_recent_alerts_for_metric (am : AlertManager) (name : string)
  : list PerformanceAlert :=
  filter (fun alert => alert_metric_name alert = name) (get_active_alerts (db am)).

(** The three alerts [check_metric_thresholds] can build. *)
Definition critical_alert (m : PerformanceMetric) (tc : Q) : PerformanceAlert :=
  {| alert_timestamp := timestamp m;
     alert_type := "critical";
     alert_metric_name := metric_name m;
     current_value := value m;
     threshold := tc;
     message := [Lit (metric_name m); Lit " is critically high: ";
                 Fixed 2 (value m); Lit " "; Lit (unit_ m);
                 Lit " (threshold: "; Num tc; Lit ")"];
     severity := "critical";
     resolved := false;
     resolved_at := None |}.

Definition warning_alert (m : PerformanceMetric) (tw : Q) : PerformanceAlert :=
  {| alert_timestamp := timestamp m;
     alert_type := "warning";
     alert_metric_name := metric_name m;
     current_value := value m;
     threshold := tw;
     message := [Lit (metric_name m); Lit " is elevated: ";
                 Fixed 2 (value m); Lit " "; Lit (unit_ m);
                 Lit " (threshold: "; Num tw; Lit ")"];
     severity := "warning";
     resolved := false;
     resolved_at := None |}.

Definition recovery_alert (m : PerformanceMetric) : PerformanceAlert :=
  {| alert_timestamp := timestamp m;
     alert_type := "recovery";
     alert_metric_name := metric_name m;
     current_value := value m;
     threshold := or_zero (threshold_warning m);
     message := [Lit (metric_name m); Lit " has recovered: ";
                 Fixed 2 (value m); Lit " "; Lit (unit_ m)];
     severity := "info";
     resolved := true;
     resolved_at := Some (timestamp m) |}.

(** The first half of [check_metric_thresholds]: the value of [alert] when
    the cooldown test is reached. *)
Definition classify (am : AlertManager) (metric : PerformanceMetric)
  : option PerformanceAlert :=
  match breached (threshold_critical metric) (value metric) with
  | Some tc => Some (critical_alert metric tc)
  | None =>
      match breached (threshold_warning metric) (value metric) with
      | Some tw => Some (warning_alert metric tw)
      | None =>
          match _get_recent_alerts_for_metric am (metric_name metric) with
          | _ :: _ => Some (recovery_alert metric)
          | [] => None
          end
      end
  end.

Definition cooldown_key (alert : PerformanceAlert) : string :=
  alert_metric_name alert +:+ "_" +:+ alert_type alert.

Definition set_recent_alert (am : AlertManager) (key : string) (t : Z) : AlertManager :=
  {| db := db am;
     alert_cooldown := alert_cooldown am;
     recent_alerts := <[key := t]> (recent_alerts am);
     notification_handlers := notification_handlers am;
     handler_calls := handler_calls am |}.

(** [now1] is the clock read in the comparison (made only when the key has an
    entry), [now2] the clock read stored in the map. *)
Definition _is_in_cooldown (am : AlertManager) (alert : PerformanceAlert)
    (now1 now2 : Z) : AlertManager * bool :=
  let key := cooldown_key alert in
  match recent_alerts am !! key with
  | Some last_alert_time =>
      let time_since_last := now1 - last_alert_time in
      if bool_decide (time_since_last < alert_cooldown am)
      then (am, true)
      else (set_recent_alert am key now2, false)
  | None => (set_recent_alert am key now2, false)
  end.

Definition _send_alert (am : AlertManager) (alert : PerformanceAlert) : AlertManager :=
  {| db := store_alert (db am) alert;
     alert_cooldown := alert_cooldown am;
     recent_alerts := recent_alerts am;
     notification_handlers := notification_handlers am;
     handler_calls :=
       handler_calls am ++ map (fun handler => (handler, alert)) (notification_handlers am) |}.

Definition check_metric_thresholds (am : AlertManager) (metric : PerformanceMetric)
    (now1 now2 : Z) : AlertManager * option PerformanceAlert :=
  match classify am metric with
  | Some alert =>
      let '(am1, in_cooldown) := _is_in_cooldown am alert now1 now2 in
      if in_cooldown then (am1, None) else (_send_alert am1 alert, Some alert)
  | None => (am, None)
  end.

(** ** PerformanceMonitoringSystem: the health score *)

(** The body of the loop over the metrics, on (health_score, bottlenecks). *)
Definition health_step (acc : Q * list Text) (metric : PerformanceMetric)
  : Q * list Text :=
  let '(health_score, bottlenecks) := acc in
  match breached (threshold_critical metric) (value metric) with
  | Some _ =>
      ((health_score - 20)%Q,
       bottlenecks ++ [[Lit (metric_name metric); Lit " is critical (";
                        Fixed 1 (value metric); Lit " "; Lit (unit_ metric); Lit ")"]])
  | None =>
      match breached (threshold_warning metric) (value metric) with
      | Some _ =>
          ((health_score - 10)%Q,
           bottlenecks ++ [[Lit (metric_name metric); Lit " is elevated (";
                            Fixed 1 (value metric); Lit " "; Lit (unit_ metric); Lit ")"]])
      | None => (health_score, bottlenecks)
      end
  end.

Definition is_nonempty {A} (l : list A) : bool :=
  match l with
  | [] => false
  | _ :: _ => true
  end.

Definition _calculate_system_health (now : Z) (metrics : list PerformanceMetric)
    (alerts : list PerformanceAlert) : SystemHealth :=
  let timestamp := now in
  let '(health_score, bottlenecks) := fold_left health_step metrics (100%Q, []) in
  let critical_alerts := filter (fun a => severity a = "critical") alerts in
  let warning_alerts := filter (fun a => severity a = "warning") alerts in
  let health_score := (health_score - inject_Z (Z.of_nat (length critical_alerts)) * 15)%Q in
  let health_score := (health_score - inject_Z (Z.of_nat (length warning_alerts)) * 5)%Q in
  let health_score := py_max 0 (py_min 100 health_score) in
  let '(status, performance_grade) :=
    if py_ge health_score 90 then ("healthy", "A")
    else if py_ge health_score 75 then ("good", "B")
    else if py_ge health_score 60 then ("degraded", "C")
    else if py_ge health_score 40 then ("poor", "D")
    else ("critical", "F") in
  let recommendations : list Text :=
    (if is_nonempty bottlenecks
     then [[Lit "Address performance bottlenecks identified"]] else [])
    ++ (if is_nonempty critical_alerts
        then [[Lit "Immediately resolve critical performance alerts"]] else [])
    ++ (if py_lt health_score 80
        then [[Lit "Review system capacity and resource allocation"]] else []) in
  {| health_timestamp := timestamp;
     health_score := health_score;
     status := status;
     active_alerts := length alerts;
     performance_grade := performance_grade;
     bottlenecks := bottlenecks;
     recommendations := recommendations |}.

(** ** Collectors *)

(** Exceptions (all of them subclasses of [Exception]). *)
Inductive PyExc :=
| AttributeError
| OSError
| KeyError
| TypeError
| ValueError
| ZeroDivisionError
| RuntimeError
| OverflowError
| IntegrityError.

(** What a call gives: a value, or an exception. *)
Inductive Outcome (A : Type) :=
| Returns (a : A)
| Raises (e : PyExc).
Arguments Returns {A} a.
Arguments Raises {A} e.

Global Instance outcome_ret : MRet Outcome := @Returns.
Global Instance outcome_bind : MBind Outcome :=
  fun A B (k : A -> Outcome B) (o : Outcome A) =>
    match o with
    | Returns a => k a
    | Raises e => Raises e
    end.

(** A piece of [collect_metrics]: it runs on the list [metrics] gathered so
    far, may append to it, and returns or raises.  The list is kept when an
    exception leaves the piece, as the Python list is. *)
Definition Collector (A : Type) : Type :=
  list PerformanceMetric -> Outcome A * list PerformanceMetric.

Definition ret {A} (a : A) : Collector A :=
  fun metrics => (Returns a, metrics).

Definition bind {A B} (c : Collector A) (k : A -> Collector B) : Collector B :=
  fun metrics =>
    match c metrics with
    | (Returns a, metrics1) => k a metrics1
    | (Raises e, metrics1) => (Raises e, metrics1)
    end.

(** A call that does not touch [metrics]. *)
Definition call {A} (o : Outcome A) : Collector A :=
  fun metrics => (o, metrics).

(** [metrics.append(m)] and [metrics.extend(l)]. *)
Definition append (m : PerformanceMetric) : Collector unit :=
  fun metrics => (Returns tt, metrics ++ [m]).

Definition extend (l : list PerformanceMetric) : Collector unit :=
  fun metrics => (Returns tt, metrics ++ l).

(** [try: body except <catches>: pass] (or a handler that only logs). *)
Definition try_except (body : Collector unit) (catches : PyExc -> bool)
  : Collector unit :=
  fun metrics =>
    match body metrics with
    | (Raises e, metrics1) =>
        if catches e then (Returns tt, metrics1) else (Raises e, metrics1)
    | done => done
    end.

Definition except_Exception (e : PyExc) : bool := true.

(** [for x in l: body(x)]. *)
Fixpoint for_each {A} (l : list A) (body : A -> Collector unit) : Collector unit :=
  match l with
  | [] => ret tt
  | x :: l' => bind (body x) (fun _ => for_each l' body)
  end.

Global Instance collector_ret : MRet Collector := @ret.
Global Instance collector_bind : MBind Collector :=
  fun A B (k : A -> Collector B) (c : Collector A) => bind c k.

(** The body of a collector under its [try], then [return metrics]. *)
Definition collected (body : Collector unit) : Outcome (list PerformanceMetric) :=
  match try_except body except_Exception [] with
  | (Returns _, metrics) => Returns metrics
  | (Raises e, _) => Raises e
  end.

(** [a / b] on floats. *)
Definition py_div (a b : Q) : Outcome Q :=
  if Qeq_bool b 0 then Raises ZeroDivisionError else Returns (a / b)%Q.

(** [round(x, 2)]: to the nearest hundredth, a tie going to the even one. *)
Definition py_round2 (x : Q) : Q :=
  let scaled := (x * 100)%Q in
  let low := Qfloor scaled in
  let rest := (scaled - inject_Z low)%Q in
  let nearest :=
    if py_lt rest (1 # 2) then low
    else if py_lt (1 # 2) rest then low + 1
    else if Z.even low then low else low + 1 in
  (nearest # 100)%Q.

Definition sumQ (l : list Q) : Q := fold_right Qplus 0%Q l.

(** [statistics.mean(l)] of a non-empty list. *)
Definition mean (l : list Q) : Q := (sumQ l / inject_Z (Z.of_nat (length l)))%Q.

(** [min(l)] and [max(l)] of a list, [d] standing for the empty case. *)
Definition list_min (d : Q) (l : list Q) : Q :=
  match l with
  | [] => d
  | x :: l' => fold_left py_min l' x
  end.

Definition list_max (d : Q) (l : list Q) : Q :=
  match l with
  | [] => d
  | x :: l' => fold_left py_max l' x
  end.

(** [l[-10:]]. *)
Definition last10 {A} (l : list A) : list A := drop (length l - 10) l.

(** An entry of a [thresholds] table. *)
Record Thresholds := { warning : Q; critical : Q }.

(** [table[name]]. *)
Fixpoint subscript (table : list (string * Thresholds)) (name : string)
  : Outcome Thresholds :=
  match table with
  | [] => Raises KeyError
  | (key, t) :: table' => if String.eqb key name then Returns t else subscript table' name
  end.

Module SystemPerformanceMonitor.

(** What psutil and the sockets answer during one collection. *)
Record MemoryInfo := {
  mem_percent : Q; mem_total : Q; mem_available : Q; mem_used : Q }.
Record DiskUsage := { disk_total : Q; disk_used : Q; disk_free : Q }.
Record DiskIO := {
  read_bytes : Q; write_bytes : Q; read_count : Q; write_count : Q;
  read_time : Q; write_time : Q }.

Record Probes := {
  cpu_percent : Outcome Q;
  cpu_count : Outcome PyVal;
  virtual_memory : Outcome MemoryInfo;
  disk_usage : Outcome DiskUsage;
  disk_io_counters : Outcome (option DiskIO);
  getloadavg : Outcome (Q * Q * Q);
  (** [socket.create_connection((host, port), timeout=5)] and [close]: the
      seconds between the two reads of [time.time()], or the exception. *)
  create_connection : string -> Z -> Outcome Q
}.

Definition thresholds : list (string * Thresholds) :=
  [("cpu_usage", {| warning := 70; critical := 85 |});
   ("memory_usage", {| warning := 75; critical := 90 |});
   ("disk_usage", {| warning := 80; critical := 95 |});
   ("disk_io_latency", {| warning := 100; critical := 500 |});
   ("network_latency", {| warning := 200; critical := 1000 |});
   ("load_average", {| warning := 2; critical := 5 |})].

Definition gib : Q := 1073741824.

Definition _test_network_latency (env : Probes) : option Q :=
  let test_hosts := [("api.linear.app", 443); ("api.github.com", 443); ("8.8.8.8", 53)] in
  let latencies :=
    fold_left
      (fun latencies '(host, port) =>
         match create_connection env host port with
         | Returns seconds => latencies ++ [(seconds * 1000)%Q]
         | Raises _ => latencies
         end)
      test_hosts [] in
  if is_nonempty latencies then Some (mean latencies) else None.

(** The sub-steps of [collect_metrics], named by its comments. *)
Definition cpu_metrics (env : Probes) (timestamp : Z) : Collector unit :=
  cpu_percent ← call (cpu_percent env);
  t ← call (subscript thresholds "cpu_usage");
  cores ← call (cpu_count env);
  append {| timestamp := timestamp; metric_name := "cpu_usage";
            value := cpu_percent; unit_ := "percent";
            threshold_warning := Some (warning t);
            threshold_critical := Some (critical t);
            metadata := Some [("cores", cores)] |}.

Definition memory_metrics (env : Probes) (timestamp : Z) : Collector unit :=
  memory ← call (virtual_memory env);
  t ← call (subscript thresholds "memory_usage");
  append {| timestamp := timestamp; metric_name := "memory_usage";
            value := mem_percent memory; unit_ := "percent";
            threshold_warning := Some (warning t);
            threshold_critical := Some (critical t);
            metadata := Some
              [("total_gb", PyNum (py_round2 (mem_total memory / gib)));
               ("available_gb", PyNum (py_round2 (mem_available memory / gib)));
               ("used_gb", PyNum (py_round2 (mem_used memory / gib)))] |}.

Definition disk_metrics (env : Probes) (timestamp : Z) : Collector unit :=
  disk ← call (disk_usage env);
  ratio ← call (py_div (disk_used disk) (disk_total disk));
  t ← call (subscript thresholds "disk_usage");
  append {| timestamp := timestamp; metric_name := "disk_usage";
            value := (ratio * 100)%Q; unit_ := "percent";
            threshold_warning := Some (warning t);
            threshold_critical := Some (critical t);
            metadata := Some
              [("total_gb", PyNum (py_round2 (disk_total disk / gib)));
               ("used_gb", PyNum (py_round2 (disk_used disk / gib)));
               ("free_gb", PyNum (py_round2 (disk_free disk / gib)))] |}.

Definition disk_io_metrics (env : Probes) (timestamp : Z) : Collector unit :=
  disk_io ← call (disk_io_counters env);
  match disk_io with
  | Some io =>
      io_latency ← call (py_div (read_time io + write_time io)
                                (py_max (read_count io + write_count io) 1));
      t ← call (subscript thresholds "disk_io_latency");
      append {| timestamp := timestamp; metric_name := "disk_io_latency";
                value := io_latency; unit_ := "ms";
                threshold_warning := Some (warning t);
                threshold_critical := Some (critical t);
                metadata := Some
                  [("read_bytes", PyNum (read_bytes io));
                   ("write_bytes", PyNum (write_bytes io));
                   ("read_count", PyNum (read_count io));
                   ("write_count", PyNum (write_count io))] |}
  | None => ret tt
  end.

Definition load_average (env : Probes) (timestamp : Z) : Collector unit :=
  try_except
    (load_avg ← call (getloadavg env);
     t ← call (subscript thresholds "load_average");
     let '(load1, load5, load15) := load_avg in
     append {| timestamp := timestamp; metric_name := "load_average";
               value := load1; unit_ := "ratio";
               threshold_warning := Some (warning t);
               threshold_critical := Some (critical t);
               metadata := Some
                 [("load_1min", PyNum load1);
                  ("load_5min", PyNum load5);
                  ("load_15min", PyNum load15)] |})
    (fun e => match e with AttributeError | OSError => true | _ => false end).

Definition network_latency (env : Probes) (timestamp : Z) : Collector unit :=
  match _test_network_latency env with
  | Some network_latency =>
      t ← call (subscript thresholds "network_latency");
      append {| timestamp := timestamp; metric_name := "network_latency";
                value := network_latency; unit_ := "ms";
                threshold_warning := Some (warning t);
                threshold_critical := Some (critical t);
                metadata := None |}
  | None => ret tt
  end.

Definition collect_metrics (env : Probes) (now : Z) : Outcome (list PerformanceMetric) :=
  let timestamp := now in
  collected
    (cpu_metrics env timestamp;;
     memory_metrics env timestamp;;
     disk_metrics env timestamp;;
     disk_io_metrics env timestamp;;
     load_average env timestamp;;
     network_latency env timestamp).

End SystemPerformanceMonitor.

Module ApplicationPerformanceMonitor.

(** What the log files, the environment, the two APIs and psutil answer
    during one collection. *)
Record ProcessMemory := { pid : Q; rss : Q; vms : Q }.

(** An entry of the error log: [datetime.fromisoformat(error.get('timestamp', ''))]
    and [error.get('type', 'unknown')]. *)
Record ErrorEntry := { error_timestamp : Outcome Z; error_type : string }.

(** The value the performance log has for a script: a list of numbers, or a
    value of another kind on which the body of the loop raises ([times[-10:]]
    of a number or a dict, [statistics.mean] of a str or of a list with an
    item that is no number).  A value that is false (null, 0, an empty str
    or dict) is skipped as the empty list is, and stands as [Times []]. *)
Inductive ScriptTimes :=
| Times (times : list Q)
| Malformed (e : PyExc).

Record ErrorData := {
  errors : list ErrorEntry;
  total_operations_last_hour : option Q
}.

Record Probes := {
  performance_log_exists : Outcome bool;
  (** [json.load] of the performance log, then
      [.get('script_execution_times', {})]: the items of that dict. *)
  performance_log : Outcome (list (string * ScriptTimes));
  LINEAR_API_KEY : option string;
  GITHUB_TOKEN : option string;
  (** A request: the status code and the seconds between the two reads of
      [time.time()] around it, or the exception. *)
  linear_request : string -> Outcome (Z * Q);
  github_request : option string -> Outcome (Z * Q);
  process_memory_info : Outcome ProcessMemory;
  error_log_exists : Outcome bool;
  error_log : Outcome ErrorData
}.

Definition thresholds : list (string * Thresholds) :=
  [("script_execution_time", {| warning := 30; critical := 60 |});
   ("api_response_time", {| warning := 2000; critical := 5000 |});
   ("memory_usage_mb", {| warning := 512; critical := 1024 |});
   ("error_rate", {| warning := 5; critical := 10 |});
   ("queue_size", {| warning := 100; critical := 500 |})].

Definition mib : Q := 1048576.

Definition _get_script_performance_metrics (env : Probes) (timestamp : Z)
  : Outcome (list PerformanceMetric) :=
  exists_ ← performance_log_exists env;
  if negb exists_ then Returns []
  else
    collected
      (script_times ← call (performance_log env);
       for_each script_times
         (fun '(script_name, times) =>
            match times with
            | Malformed e => call (@Raises unit e)
            | Times times =>
                if is_nonempty times then
                  let avg_time := mean (last10 times) in
                  t ← call (subscript thresholds "script_execution_time");
                  append {| timestamp := timestamp;
                            metric_name := "script_execution_time_" +:+ script_name;
                            value := avg_time; unit_ := "seconds";
                            threshold_warning := Some (warning t);
                            threshold_critical := Some (critical t);
                            metadata := Some
                              [("script_name", PyStr script_name);
                               ("recent_executions",
                                PyNum (inject_Z (Z.of_nat (length (last10 times)))));
                               ("min_time", PyNum (list_min 0 (last10 times)));
                               ("max_time", PyNum (list_max 0 (last10 times)))] |}
                else ret tt
            end)).

Definition _test_api_response_time (env : Probes) (api_name : string) : option Q :=
  if String.eqb api_name "linear" then
    match LINEAR_API_KEY env with
    | Some linear_api_key =>
        if String.eqb linear_api_key "" then None
        else
          match linear_request env linear_api_key with
          | Returns (status_code, seconds) =>
              if status_code =? 200 then Some (seconds * 1000)%Q else None
          | Raises _ => None
          end
    | None => None
    end
  else if String.eqb api_name "github" then
    match github_request env (GITHUB_TOKEN env) with
    | Returns (status_code, seconds) =>
        if (status_code =? 200) || (status_code =? 401)
        then Some (seconds * 1000)%Q else None
    | Raises _ => None
    end
  else None.

Definition api_metric (timestamp : Z) (api : string) (response_time : Q)
    (t : Thresholds) : PerformanceMetric :=
  {| timestamp := timestamp;
     metric_name := "api_response_time_" +:+ api;
     value := response_time; unit_ := "ms";
     threshold_warning := Some (warning t);
     threshold_critical := Some (critical t);
     metadata := Some [("api", PyStr api)] |}.

Definition _get_api_performance_metrics (env : Probes) (timestamp : Z)
  : Outcome (list PerformanceMetric) :=
  let body : Collector unit :=
    match _test_api_response_time env "linear" with
    | Some linear_response_time =>
        t ← call (subscript thresholds "api_response_time");
        append (api_metric timestamp "linear" linear_response_time t)
    | None => ret tt
    end;;
    match _test_api_response_time env "github" with
    | Some github_response_time =>
        t ← call (subscript thresholds "api_response_time");
        append (api_metric timestamp "github" github_response_time t)
    | None => ret tt
    end in
  match body [] with
  | (Returns _, metrics) => Returns metrics
  | (Raises e, _) => Raises e
  end.

Definition _get_application_memory_usage (env : Probes) (timestamp : Z)
  : option PerformanceMetric :=
  let tried : Outcome PerformanceMetric :=
    memory_info ← process_memory_info env;
    let memory_mb := (rss memory_info / mib)%Q in
    t ← subscript thresholds "memory_usage_mb";
    Returns {| timestamp := timestamp; metric_name := "memory_usage_mb";
               value := memory_mb; unit_ := "MB";
               threshold_warning := Some (warning t);
               threshold_critical := Some (critical t);
               metadata := Some
                 [("pid", PyNum (pid memory_info));
                  ("rss_mb", PyNum (py_round2 (rss memory_info / mib)));
                  ("vms_mb", PyNum (py_round2 (vms memory_info / mib)))] |} in
  match tried with
  | Returns metric => Some metric
  | Raises _ => None
  end.

(** The list comprehension over the errors of the log: those later than
    [one_hour_ago]; a timestamp that does not parse raises. *)
Fixpoint recent_errors_since (one_hour_ago : Z) (l : list ErrorEntry)
  : Outcome (list ErrorEntry) :=
  match l with
  | [] => Returns []
  | error :: l' =>
      t ← error_timestamp error;
      rest ← recent_errors_since one_hour_ago l';
      Returns (if bool_decide (one_hour_ago < t) then error :: rest else rest)
  end.

(** [now] is the clock read of [_calculate_error_rate].  [list(set(...))]
    is given in the order of first occurrence. *)
Definition _calculate_error_rate (env : Probes) (timestamp : Z) (now : Z)
  : Outcome (option PerformanceMetric) :=
  exists_ ← error_log_exists env;
  if negb exists_ then Returns None
  else
    let tried : Outcome PerformanceMetric :=
      error_data ← error_log env;
      let one_hour_ago := now - hour in
      recent_errors ← recent_errors_since one_hour_ago (errors error_data);
      let total_operations := default 100%Q (total_operations_last_hour error_data) in
      let count := inject_Z (Z.of_nat (length recent_errors)) in
      error_rate ←
        (if py_lt 0 total_operations
         then ratio ← py_div count total_operations; Returns (ratio * 100)%Q
         else Returns 0%Q);
      t ← subscript thresholds "error_rate";
      Returns {| timestamp := timestamp; metric_name := "error_rate";
                 value := error_rate; unit_ := "percent";
                 threshold_warning := Some (warning t);
                 threshold_critical := Some (critical t);
                 metadata := Some
                   [("recent_errors", PyNum count);
                    ("total_operations", PyNum total_operations);
                    ("error_types",
                     PyStrs (remove_dups (map error_type recent_errors)))] |} in
    match tried with
    | Returns metric => Returns (Some metric)
    | Raises _ => Returns None
    end.

(** The sub-steps of [collect_metrics], named by its comments. *)
Definition script_execution_times (env : Probes) (timestamp : Z) : Collector unit :=
  script_metrics ← call (_get_script_performance_metrics env timestamp);
  extend script_metrics.

Definition api_response_times (env : Probes) (timestamp : Z) : Collector unit :=
  api_metrics ← call (_get_api_performance_metrics env timestamp);
  extend api_metrics.

Definition application_memory_usage (env : Probes) (timestamp : Z) : Collector unit :=
  match _get_application_memory_usage env timestamp with
  | Some app_memory => append app_memory
  | None => ret tt
  end.

Definition error_rate (env : Probes) (timestamp : Z) (now1 : Z) : Collector unit :=
  error_rate ← call (_calculate_error_rate env timestamp now1);
  match error_rate with
  | Some metric => append metric
  | None => ret tt
  end.

(** [now] is the clock read of [collect_metrics], [now1] that of
    [_calculate_error_rate]. *)
Definition collect_metrics (env : Probes) (now now1 : Z)
  : Outcome (list PerformanceMetric) :=
  let timestamp := now in
  collected
    (script_execution_times env timestamp;;
     api_response_times env timestamp;;
     application_memory_usage env timestamp;;
     error_rate env timestamp now1).

End ApplicationPerformanceMonitor.
(** ** PerformanceOptimizer *)

(** [sub in s] on strings. *)
Definition is_substring (sub s : string) : bool :=
  match String.index 0 sub s with
  | Some _ => true
  | None => false
  end.

(** [a > b] on numbers. *)
Definition py_gt (a b : Q) : bool := py_lt b a.

Module PerformanceOptimizer.

(** What an action body under [try] ends with: its value, or the text
    [str(e)] of the exception caught. *)
Inductive Tried (A : Type) :=
| Done (a : A)
| Failed (message : string).
Arguments Done {A} a.
Arguments Failed {A} message.

(** What the system answers to the actions: the count of [gc.collect()], the
    call of [nice(10)], and the numbers of log and profile files removed by
    [_cleanup_disk]. *)
Record Probes := {
  gc_collect : Tried Q;
  process_nice : Tried unit;
  remove_old_files : Tried (Q * Q)
}.

Definition _get_optimization_actions (metric : PerformanceMetric) : list string :=
  if String.eqb (metric_name metric) "memory_usage" && py_gt (value metric) 80
  then ["high_memory_usage"]
  else if String.eqb (metric_name metric) "cpu_usage" && py_gt (value metric) 75
  then ["high_cpu_usage"]
  else if is_substring "api_response_time" (metric_name metric)
          && py_gt (value metric) 3000
  then ["slow_api_response"]
  else if String.eqb (metric_name metric) "disk_usage" && py_gt (value metric) 85
  then ["high_disk_usage"]
  else if String.eqb (metric_name metric) "error_rate" && py_gt (value metric) 5
  then ["high_error_rate"]
  else [].

Definition _optimize_memory (env : Probes) (metric : PerformanceMetric) : Text :=
  match gc_collect env with
  | Done collected =>
      [Lit "Forced garbage collection (collected "; Num collected; Lit " objects)"]
  | Failed e => [Lit "Memory optimization failed: "; Lit e]
  end.

Definition _optimize_cpu (env : Probes) (metric : PerformanceMetric) : Text :=
  match process_nice env with
  | Done _ => [Lit "Lowered process priority to reduce CPU impact"]
  | Failed e => [Lit "CPU optimization failed: "; Lit e]
  end.

Definition _optimize_api_calls (env : Probes) (metric : PerformanceMetric) : Text :=
  [Lit "Applied API call optimization (caching, rate limiting)"].

Definition _cleanup_disk (env : Probes) (metric : PerformanceMetric) : Text :=
  match remove_old_files env with
  | Done (log_files_cleaned, profile_files_cleaned) =>
      [Lit "Cleaned "; Num log_files_cleaned; Lit " log files and ";
       Num profile_files_cleaned; Lit " profile files"]
  | Failed e => [Lit "Disk cleanup failed: "; Lit e]
  end.

Definition _investigate_errors (env : Probes) (metric : PerformanceMetric) : Text :=
  [Lit "Error investigation triggered - check error logs for patterns"].

(** The dict [optimization_actions]. *)
Definition optimization_actions
  : list (string * (Probes -> PerformanceMetric -> Text)) :=
  [("high_memory_usage", _optimize_memory);
   ("high_cpu_usage", _optimize_cpu);
   ("slow_api_response", _optimize_api_calls);
   ("high_disk_usage", _cleanup_disk);
   ("high_error_rate", _investigate_errors)].

Fixpoint lookup_action (table : list (string * (Probes -> PerformanceMetric -> Text)))
    (name : string) : option (Probes -> PerformanceMetric -> Text) :=
  match table with
  | [] => None
  | (key, action) :: table' =>
      if String.eqb key name then Some action else lookup_action table' name
  end.

(** Truth value of a string: the empty string is false.  A number always
    prints as some characters. *)
Definition text_truthy (t : Text) : bool :=
  existsb (fun piece => match piece with
                        | Lit s => negb (String.eqb s "")
                        | Num _ | Fixed _ _ => true
                        end) t.

(** No action raises: each catches what its body raises. *)
Definition analyze_and_optimize (env : Probes) (metrics : list PerformanceMetric)
  : list Text :=
  flat_map
    (fun metric =>
       flat_map
         (fun action_name =>
            match lookup_action optimization_actions action_name with
            | Some action =>
                let result := action env metric in
                if text_truthy result
                then [[Lit action_name; Lit ": "] ++ result]
                else []
            | None => []
            end)
         (_get_optimization_actions metric))
    metrics.

End PerformanceOptimizer.

(** ** PerformanceMonitoringSystem: one cycle, and the report *)

(** The loop of [_collect_and_analyze_metrics] over samples that sqlite3
    takes: each is stored, then evaluated, with the clock reads [clock i] for
    the sample at position [i]; the alerts returned are gathered in order. *)
Fixpoint store_and_check (am : AlertManager) (metrics : list PerformanceMetric)
    (clock : nat -> Z * Z) (i : nat) : AlertManager * list PerformanceAlert :=
  match metrics with
  | [] => (am, [])
  | metric :: metrics' =>
      let am1 :=
        {| db := store_metric (db am) metric;
           alert_cooldown := alert_cooldown am;
           recent_alerts := recent_alerts am;
           notification_handlers := notification_handlers am;
           handler_calls := handler_calls am |} in
      let '(am2, alert) :=
        check_metric_thresholds am1 metric (clock i).1 (clock i).2 in
      let '(am3, alerts_generated) := store_and_check am2 metrics' clock (S i) in
      (am3, match alert with
            | Some a => a :: alerts_generated
            | None => alerts_generated
            end)
  end.

(** The loop of [_collect_and_analyze_metrics] as it is: [sqlite metric] is
    what the INSERT of [store_metric] does when it binds the numbers of the
    sample (it raises OverflowError for an int of 2**63 or more, and
    IntegrityError for a NaN value).  An exception leaves the loop, and the
    method; what was stored and dispatched before stays. *)
Fixpoint store_and_check_each (sqlite : PerformanceMetric -> Outcome unit)
    (am : AlertManager) (metrics : list PerformanceMetric) (clock : nat -> Z * Z)
    (i : nat) (alerts_generated : list PerformanceAlert)
  : AlertManager * Outcome (list PerformanceAlert) :=
  match metrics with
  | [] => (am, Returns alerts_generated)
  | metric :: metrics' =>
      match sqlite metric with
      | Raises e => (am, Raises e)
      | Returns _ =>
          let am1 :=
            {| db := store_metric (db am) metric;
               alert_cooldown := alert_cooldown am;
               recent_alerts := recent_alerts am;
               notification_handlers := notification_handlers am;
               handler_calls := handler_calls am |} in
          let '(am2, alert) :=
            check_metric_thresholds am1 metric (clock i).1 (clock i).2 in
          store_and_check_each sqlite am2 metrics' clock (S i)
            match alert with
            | Some a => alerts_generated ++ [a]
            | None => alerts_generated
            end
      end
  end.

(** The clock reads of one cycle. *)
Record CycleClock := {
  now_system : Z;            (* [collect_metrics] of the system monitor *)
  now_application : Z;       (* [collect_metrics] of the application monitor *)
  now_error_rate : Z;        (* [_calculate_error_rate] *)
  now_evaluation : nat -> Z * Z;  (* the evaluation of the sample at a position *)
  now_health : Z             (* [_calculate_system_health] *)
}.

(** The manager stands for the monitoring system: it holds the database.  The
    optimizations act outside of it and are only logged.  The result is the
    manager after the cycle, and how the method ends. *)
Definition _collect_and_analyze_metrics (am : AlertManager)
    (system : SystemPerformanceMonitor.Probes)
    (application : ApplicationPerformanceMonitor.Probes)
    (optimizer : PerformanceOptimizer.Probes)
    (sqlite : PerformanceMetric -> Outcome unit) (clock : CycleClock)
  : AlertManager * Outcome unit :=
  match SystemPerformanceMonitor.collect_metrics system (now_system clock) with
  | Raises e => (am, Raises e)
  | Returns system_metrics =>
      match ApplicationPerformanceMonitor.collect_metrics application
              (now_application clock) (now_error_rate clock) with
      | Raises e => (am, Raises e)
      | Returns app_metrics =>
          let all_metrics := system_metrics ++ app_metrics in
          match store_and_check_each sqlite am all_metrics (now_evaluation clock) 0 [] with
          | (am1, Raises e) => (am1, Raises e)
          | (am1, Returns alerts_generated) =>
              let optimizations :=
                PerformanceOptimizer.analyze_and_optimize optimizer all_metrics in
              let health :=
                _calculate_system_health (now_health clock) all_metrics alerts_generated in
              ({| db := store_health_snapshot (db am1) health;
                  alert_cooldown := alert_cooldown am1;
                  recent_alerts := recent_alerts am1;
                  notification_handlers := notification_handlers am1;
                  handler_calls := handler_calls am1 |}, Returns tt)
          end
      end
  end.

(** An entry of [metrics_summary]. *)
Record MetricSummary := {
  summary_current : Q;
  summary_average : Q;
  summary_min : Q;
  summary_max : Q;
  summary_trend : string;
  summary_data_points : nat
}.

(** The [system_health] entry of the report. *)
Record HealthSummary := {
  summary_health_score : Q;
  summary_status : string;
  summary_performance_grade : string;
  summary_bottlenecks : list Text;
  summary_recommendations : list Text
}.

Record PerformanceReport := {
  report_start : Z;
  report_end : Z;
  report_duration_hours : Z;
  metrics_summary : list (string * MetricSummary);
  report_active_alerts : nat;
  report_system_health : option HealthSummary;
  report_recommendations : list Text
}.

Definition key_metrics : list string :=
  ["cpu_usage"; "memory_usage"; "disk_usage"; "api_response_time_linear";
   "api_response_time_github"].

(** The summary of the samples of one key metric, newest first; no entry
    when there is none. *)
Definition summarize (recent_metrics : list PerformanceMetric) : option MetricSummary :=
  if is_nonempty recent_metrics then
    let values := map value recent_metrics in
    Some {| summary_current := default 0%Q (head values);
            summary_average := mean values;
            summary_min := list_min 0 values;
            summary_max := list_max 0 values;
            summary_trend :=
              if (1 <? length values)%nat
                 && py_lt (default 0%Q (head values)) (default 0%Q (last values))
              then "improving" else "stable";
            summary_data_points := length values |}
  else None.

(** [ORDER BY timestamp DESC LIMIT 1] on the health snapshots, read through
    the index on [timestamp], backwards: of snapshots of equal timestamps the
    newest row comes first. *)
Definition latest_health_row (d : PerformanceDatabase) : option HealthRow :=
  head (order_by_desc hrow_timestamp (reverse (system_health d))).

(** [now] is the clock read of the report, [now_of name] that of the
    [get_recent_metrics] called for a key metric. *)
Definition get_performance_report (am : AlertManager) (hours : Z) (now : Z)
    (now_of : string -> Z) : PerformanceReport :=
  let end_time := now in
  let start_time := end_time - hours * hour in
  {| report_start := start_time;
     report_end := end_time;
     report_duration_hours := hours;
     metrics_summary :=
       flat_map
         (fun name =>
            match summarize (get_recent_metrics (db am) name hours (now_of name)) with
            | Some summary => [(name, summary)]
            | None => []
            end)
         key_metrics;
     report_active_alerts := length (get_active_alerts (db am));
     report_system_health :=
       match latest_health_row (db am) with
       | Some row =>
           Some {| summary_health_score := hrow_health_score row;
                   summary_status := hrow_status row;
                   summary_performance_grade := hrow_performance_grade row;
                   summary_bottlenecks := json_loads (hrow_bottlenecks row);
                   summary_recommendations := json_loads (hrow_recommendations row) |}
       | None => None
       end;
     report_recommendations := [] |}.

(** ** Notions used to state the properties *)

(** The same sample with a threshold left out. *)
Definition without_critical (m : PerformanceMetric) : PerformanceMetric :=
  {| timestamp := timestamp m; metric_name := metric_name m; value := value m;
     unit_ := unit_ m; threshold_warning := threshold_warning m;
     threshold_critical := None; metadata := metadata m |}.

Definition without_warning (m : PerformanceMetric) : PerformanceMetric :=
  {| timestamp := timestamp m; metric_name := metric_name m; value := value m;
     unit_ := unit_ m; threshold_warning := None;
     threshold_critical := threshold_critical m; metadata := metadata m |}.

(** The key of [alert] has an entry less than the cooldown before [now]. *)
Definition suppressed (am : AlertManager) (alert : PerformanceAlert) (now : Z) : Prop :=
  exists last_alert_time,
    recent_alerts am !! cooldown_key alert = Some last_alert_time /\
    now - last_alert_time < alert_cooldown am.

(** The operations on a manager and its store: the three writes of the store,
    and an evaluation with its two clock reads. *)
Inductive Operation :=
| StoreMetric (metric : PerformanceMetric)
| StoreAlert (alert : PerformanceAlert)
| StoreHealth (health : SystemHealth)
| Evaluate (metric : PerformanceMetric) (now1 now2 : Z).

Definition with_db (am : AlertManager) (d : PerformanceDatabase) : AlertManager :=
  {| db := d;
     alert_cooldown := alert_cooldown am;
     recent_alerts := recent_alerts am;
     notification_handlers := notification_handlers am;
     handler_calls := handler_calls am |}.

Definition perform (am : AlertManager) (op : Operation)
  : AlertManager * option PerformanceAlert :=
  match op with
  | StoreMetric metric => (with_db am (store_metric (db am) metric), None)
  | StoreAlert alert => (with_db am (store_alert (db am) alert), None)
  | StoreHealth health => (with_db am (store_health_snapshot (db am) health), None)
  | Evaluate metric now1 now2 => check_metric_thresholds am metric now1 now2
  end.

(** A sequence of operations: the final manager and, oldest first, the alerts
    the evaluations returned. *)
Fixpoint perform_all (am : AlertManager) (ops : list Operation)
  : AlertManager * list PerformanceAlert :=
  match ops with
  | [] => (am, [])
  | op :: ops' =>
      let '(am1, r) := perform am op in
      let '(am2, rs) := perform_all am1 ops' in
      (am2, match r with Some alert => alert :: rs | None => rs end)
  end.

(** No write to the alerts table other than by an evaluation. *)
Definition is_monitoring_step (op : Operation) : Prop :=
  match op with
  | StoreAlert _ => False
  | _ => True
  end.

(** Every clock read of [op] falls in a window shorter than [cooldown]
    starting at [start]. *)
Definition in_window (start cooldown : Z) (op : Operation) : Prop :=
  match op with
  | Evaluate _ now1 now2 => start <= now2 /\ now1 < start + cooldown
  | _ => True
  end.

(** The alerts of one kind for one metric. *)
Definition alerts_for (name type : string) (alerts : list PerformanceAlert)
  : list PerformanceAlert :=
  filter (fun a => alert_metric_name a = name /\ alert_type a = type) alerts.

(** What the handlers are sent for a list of dispatched alerts. *)
Definition notifications (handlers : list string) (alerts : list PerformanceAlert)
  : list (string * PerformanceAlert) :=
  flat_map (fun alert => map (fun handler => (handler, alert)) handlers) alerts.

(** The value is below the threshold, if there is one. *)
Definition below (t : option Q) (v : Q) : Prop :=
  forall q, t = Some q -> (v < q)%Q.

(** A sample in its normal range: it meets neither threshold. *)
Definition in_range (m : PerformanceMetric) : Prop :=
  below (threshold_warning m) (value m) /\ below (threshold_critical m) (value m).

(** The store holds an unresolved alert for the metric name. *)
Definition has_active_alert (am : AlertManager) (name : string) : Prop :=
  exists a, a ∈ performance_alerts (db am) /\ resolved a = false /\
            alert_metric_name a = name.

(** The value reaches a threshold that is set. *)
Definition exceeds (t : option Q) (v : Q) : bool :=
  match t with
  | Some q => py_ge v q
  | None => false
  end.

(** The value reaches a threshold that is set and is not zero. *)
Definition reaches (t : option Q) (v : Q) : bool :=
  match t with
  | Some q => truthy q && py_ge v q
  | None => false
  end.

(** How many elements of a list satisfy a test, as a number. *)
Definition count_of {A} (test : A -> bool) (l : list A) : Q :=
  inject_Z (Z.of_nat (length (filter (fun x => test x = true) l))).

Definition clamp (x lo hi : Q) : Q :=
  if Qlt_le_dec x lo then lo else if Qlt_le_dec hi x then hi else x.

(** The score of the specification, for a given reading [hit] of "the sample
    exceeds its threshold": 100, less 20 per sample over its critical
    threshold, 10 per remaining sample over its warning threshold, 15 per
    critical alert and 5 per warning alert, clamped to 0..100. *)
Definition score_formula (hit : option Q -> Q -> bool)
    (metrics : list PerformanceMetric) (alerts : list PerformanceAlert) : Q :=
  clamp (100
         - 20 * count_of (fun m => hit (threshold_critical m) (value m)) metrics
         - 10 * count_of (fun m => negb (hit (threshold_critical m) (value m))
                                   && hit (threshold_warning m) (value m)) metrics
         - 15 * count_of (fun a => bool_decide (severity a = "critical")) alerts
         - 5 * count_of (fun a => bool_decide (severity a = "warning")) alerts)%Q
        0 100.

(** A sub-step of a collector run on its own: how it ends, and the samples
    it appends. *)
Definition alone (step : Collector unit) : Outcome unit * list PerformanceMetric :=
  step [].

(** The samples of the sub-steps that succeed, whatever the others do. *)
Definition samples_of_succeeded (steps : list (Outcome unit * list PerformanceMetric))
  : list PerformanceMetric :=
  flat_map (fun step => match step.1 with
                        | Returns _ => step.2
                        | Raises _ => []
                        end) steps.

(** The samples gathered, in order, up to the first sub-step that raises:
    what that sub-step appended before raising is kept, the sub-steps after it
    are not run. *)
Fixpoint gathered_until_failure (steps : list (Outcome unit * list PerformanceMetric))
  : list PerformanceMetric :=
  match steps with
  | [] => []
  | (Returns _, samples) :: steps' => samples ++ gathered_until_failure steps'
  | (Raises _, samples) :: _ => samples
  end.

Definition system_steps (env : SystemPerformanceMonitor.Probes) (now : Z)
  : list (Outcome unit * list PerformanceMetric) :=
  [alone (SystemPerformanceMonitor.cpu_metrics env now);
   alone (SystemPerformanceMonitor.memory_metrics env now);
   alone (SystemPerformanceMonitor.disk_metrics env now);
   alone (SystemPerformanceMonitor.disk_io_metrics env now);
   alone (SystemPerformanceMonitor.load_average env now);
   alone (SystemPerformanceMonitor.network_latency env now)].

Definition application_steps (env : ApplicationPerformanceMonitor.Probes)
    (now now1 : Z) : list (Outcome unit * list PerformanceMetric) :=
  [alone (ApplicationPerformanceMonitor.script_execution_times env now);
   alone (ApplicationPerformanceMonitor.api_response_times env now);
   alone (ApplicationPerformanceMonitor.application_memory_usage env now);
   alone (ApplicationPerformanceMonitor.error_rate env now now1)].

(** A piece of a collector only ever appends to the list it is given: on any
    list it ends as it does on the empty list, having appended the same
    samples. *)
Definition appends {A} (c : Collector A) : Prop :=
  forall metrics, c metrics = ((c []).1, metrics ++ (c []).2).






(** Two optional numbers are both absent, or equal as numbers. *)
Definition same_number (a b : option Q) : Prop :=
  match a, b with
  | Some x, Some y => (x == y)%Q
  | None, None => True
  | _, _ => False
  end.

(** Two samples are equal in every field, numbers compared as numbers. *)
Definition same_sample (a b : PerformanceMetric) : Prop :=
  timestamp a = timestamp b /\ metric_name a = metric_name b /\
  (value a == value b)%Q /\ unit_ a = unit_ b /\
  same_number (threshold_warning a) (threshold_warning b) /\
  same_number (threshold_critical a) (threshold_critical b) /\
  metadata a = metadata b.

(** The sample reaches one of its thresholds (set and not zero). *)
Definition breaching (m : PerformanceMetric) : bool :=
  reaches (threshold_critical m) (value m) || reaches (threshold_warning m) (value m).

(** The first piece of a text. *)
Definition first_piece (t : Text) : option Piece := head t.

(** The shape of the alerts an evaluation writes: a critical or warning alert
    is unresolved and its value is at least its non-zero threshold; a recovery
    alert is resolved at its own timestamp and informational. *)
Definition well_formed_alert (a : PerformanceAlert) : Prop :=
  (alert_type a = "critical" /\ severity a = "critical" /\
   resolved a = false /\ resolved_at a = None /\
   ~ (threshold a == 0)%Q /\ (threshold a <= current_value a)%Q) \/
  (alert_type a = "warning" /\ severity a = "warning" /\
   resolved a = false /\ resolved_at a = None /\
   ~ (threshold a == 0)%Q /\ (threshold a <= current_value a)%Q) \/
  (alert_type a = "recovery" /\ severity a = "info" /\
   resolved a = true /\ resolved_at a = Some (alert_timestamp a)).

(** Newest first. *)
Definition newest_first {A} (key : A -> Z) : relation A :=
  fun a b => key b <= key a.

(** A sample as the collectors make them: both thresholds set, positive, the
    warning one below the critical one, stamped with the time of the
    collection. *)
Definition calibrated (now : Z) (m : PerformanceMetric) : Prop :=
  timestamp m = now /\
  exists w c, threshold_warning m = Some w /\ threshold_critical m = Some c /\
              (0 < w)%Q /\ (w < c)%Q.

(** A piece of a collector appends only samples that satisfy [P]. *)
Definition emits {A} (P : PerformanceMetric -> Prop) (c : Collector A) : Prop :=
  forall metrics, Forall P metrics -> Forall P (c metrics).2.

(** The metric names of the system collector, in the order of its sub-steps. *)
Definition system_metric_names : list string :=
  ["cpu_usage"; "memory_usage"; "disk_usage"; "disk_io_latency"; "load_average";
   "network_latency"].

(** What relates a sample of [_get_script_performance_metrics] to the entry
    (script name, execution times) of the log it is made from. *)
Definition script_sample_of (m : PerformanceMetric) (entry : string * list Q) : Prop :=
  metric_name m = "script_execution_time_" +:+ entry.1 /\
  value m = mean (last10 entry.2) /\
  (list_min 0 (last10 entry.2) <= value m <= list_max 0 (last10 entry.2))%Q /\
  (length (last10 entry.2) <= 10)%nat.

(** The body of the loop of [_get_script_performance_metrics]. *)
Definition script_loop_body (now : Z)
  : string * ApplicationPerformanceMonitor.ScriptTimes -> Collector unit :=
  fun '(script_name, times) =>
    match times with
    | ApplicationPerformanceMonitor.Malformed e => call (@Raises unit e)
    | ApplicationPerformanceMonitor.Times times =>
        if is_nonempty times then
          let avg_time := mean (last10 times) in
          t ← call (subscript ApplicationPerformanceMonitor.thresholds
                      "script_execution_time");
          append {| timestamp := now;
                    metric_name := "script_execution_time_" +:+ script_name;
                    value := avg_time; unit_ := "seconds";
                    threshold_warning := Some (warning t);
                    threshold_critical := Some (critical t);
                    metadata := Some
                      [("script_name", PyStr script_name);
                       ("recent_executions",
                        PyNum (inject_Z (Z.of_nat (length (last10 times)))));
                       ("min_time", PyNum (list_min 0 (last10 times)));
                       ("max_time", PyNum (list_max 0 (last10 times)))] |}
        else ret tt
    end.

(** The entries of the log that the loop reaches: those before the first one
    on which its body raises. *)
Fixpoint entries_read
    (script_times : list (string * ApplicationPerformanceMonitor.ScriptTimes))
  : list (string * list Q) :=
  match script_times with
  | [] => []
  | (script_name, ApplicationPerformanceMonitor.Times times) :: script_times' =>
      (script_name, times) :: entries_read script_times'
  | (_, ApplicationPerformanceMonitor.Malformed _) :: _ => []
  end.



(** The optimizer picks an action for the sample only if the sample reaches
    one of its thresholds. *)
Definition acts_on_breach (m : PerformanceMetric) : Prop :=
  PerformanceOptimizer._get_optimization_actions m <> [] -> breaching m = true.

(** What holds of every sample the collectors make. *)
Definition as_collected (now : Z) (m : PerformanceMetric) : Prop :=
  calibrated now m /\ acts_on_breach m.

(** The loop of a monitoring cycle, as operations: each sample is stored and
    then evaluated, with the clock reads of its position. *)
Fixpoint cycle_operations (metrics : list PerformanceMetric) (clock : nat -> Z * Z)
    (i : nat) : list Operation :=
  match metrics with
  | [] => []
  | metric :: metrics' =>
      StoreMetric metric :: Evaluate metric (clock i).1 (clock i).2
        :: cycle_operations metrics' clock (S i)
  end.

(** Every sample of the batch either yields no alert, or one whose key is in
    cooldown at the clock read of its evaluation. *)
Fixpoint all_suppressed (am : AlertManager) (metrics : list PerformanceMetric)
    (clock : nat -> Z * Z) (i : nat) : Prop :=
  match metrics with
  | [] => True
  | metric :: metrics' =>
      match classify am metric with
      | Some alert => suppressed am alert (clock i).1
      | None => True
      end /\ all_suppressed am metrics' clock (S i)
  end.

(** What the report shows of a snapshot. *)
Definition health_summary_of (health : SystemHealth) : HealthSummary :=
  {| summary_health_score := health_score health;
     summary_status := status health;
     summary_performance_grade := performance_grade health;
     summary_bottlenecks := bottlenecks health;
     summary_recommendations := recommendations health |}.

(** The alerts that are not recovery alerts. *)
Definition breach_alerts (alerts : list PerformanceAlert) : list PerformanceAlert :=
  filter (fun a => alert_type a <> "recovery") alerts.

(** sqlite3 takes the sample. *)
Definition accepted (sqlite : PerformanceMetric -> Outcome unit)
    (m : PerformanceMetric) : Prop :=
  sqlite m = Returns tt.

(** The action the optimizer has under each name. *)
Definition action_named (name : string)
  : PerformanceOptimizer.Probes -> PerformanceMetric -> Text :=
  if String.eqb name "high_memory_usage" then PerformanceOptimizer._optimize_memory
  else if String.eqb name "high_cpu_usage" then PerformanceOptimizer._optimize_cpu
  else if String.eqb name "slow_api_response" then PerformanceOptimizer._optimize_api_calls
  else if String.eqb name "high_disk_usage" then PerformanceOptimizer._cleanup_disk
  else if String.eqb name "high_error_rate" then PerformanceOptimizer._investigate_errors
  else fun _ _ => [].

(** The report of an action applied to a sample: its name, a colon, and what
    the action returned. *)
Definition action_report (env : PerformanceOptimizer.Probes) (m : PerformanceMetric)
    (name : string) : Text :=
  Lit name :: Lit ": " :: action_named name env m.

(** The latencies in milliseconds of the hosts that can be connected to, in
    the order in which the probe tries them. *)
Definition reachable_latencies (env : SystemPerformanceMonitor.Probes) : list Q :=
  flat_map
    (fun '(host, port) =>
       match SystemPerformanceMonitor.create_connection env host port with
       | Returns seconds => [(seconds * 1000)%Q]
       | Raises _ => []
       end)
    [("api.linear.app", 443); ("api.github.com", 443); ("8.8.8.8", 53)].
(** ** Sample inputs *)

(** A sample with a warning threshold of zero. *)
Definition zero_warning_sample : PerformanceMetric :=
  {| timestamp := 0; metric_name := "queue_size"; value := 5; unit_ := "items";
     threshold_warning := Some 0%Q; threshold_critical := Some 10%Q;
     metadata := None |}.

(** The sample of the specification's scenario, and the same reading five
    minutes later. *)
Definition cpu92 : PerformanceMetric :=
  {| timestamp := 0; metric_name := "cpu_usage"; value := 92; unit_ := "percent";
     threshold_warning := Some 70%Q; threshold_critical := Some 85%Q;
     metadata := None |}.

Definition cpu92_later : PerformanceMetric :=
  {| timestamp := 5 * minute; metric_name := "cpu_usage"; value := 92;
     unit_ := "percent";
     threshold_warning := Some 70%Q; threshold_critical := Some 85%Q;
     metadata := None |}.

(** A manager with the two handlers the monitoring system registers. *)
Definition fresh_manager : AlertManager :=
  register_notification_handler
    (register_notification_handler (AlertManager_init init_database) "_log_alert")
    "_email_alert".

(** Two monitoring cycles five minutes apart, each storing and evaluating a
    CPU reading of 92. *)
Definition two_cycles : list Operation :=
  [StoreMetric cpu92; Evaluate cpu92 0 0;
   StoreMetric cpu92_later; Evaluate cpu92_later (5 * minute) (5 * minute)].

(** A CPU reading back in range, the same reading five minutes later, and a
    manager whose store holds the unresolved critical alert of [cpu92]. *)
Definition cpu40 : PerformanceMetric :=
  {| timestamp := 20 * minute; metric_name := "cpu_usage"; value := 40;
     unit_ := "percent";
     threshold_warning := Some 70%Q; threshold_critical := Some 85%Q;
     metadata := None |}.

Definition cpu40_later : PerformanceMetric :=
  {| timestamp := 25 * minute; metric_name := "cpu_usage"; value := 40;
     unit_ := "percent";
     threshold_warning := Some 70%Q; threshold_critical := Some 85%Q;
     metadata := None |}.

Definition alerted_manager : AlertManager :=
  (check_metric_thresholds fresh_manager cpu92 0 0).1.

(** A sample with a critical threshold of zero. *)
Definition zero_critical_sample : PerformanceMetric :=
  {| timestamp := 0; metric_name := "error_rate"; value := 5; unit_ := "percent";
     threshold_warning := None; threshold_critical := Some 0%Q;
     metadata := None |}.



(** A machine on which [psutil.disk_usage('/')] fails while every other probe
    answers; one of the three hosts is unreachable. *)
Definition disk_probe_failing : SystemPerformanceMonitor.Probes :=
  {| SystemPerformanceMonitor.cpu_percent := Returns 12.5%Q;
     SystemPerformanceMonitor.cpu_count := Returns (PyNum 8);
     SystemPerformanceMonitor.virtual_memory :=
       Returns {| SystemPerformanceMonitor.mem_percent := 40;
                  SystemPerformanceMonitor.mem_total := 17179869184;
                  SystemPerformanceMonitor.mem_available := 10307921511;
                  SystemPerformanceMonitor.mem_used := 6871947673 |};
     SystemPerformanceMonitor.disk_usage := Raises OSError;
     SystemPerformanceMonitor.disk_io_counters :=
       Returns (Some {| SystemPerformanceMonitor.read_bytes := 4096;
                        SystemPerformanceMonitor.write_bytes := 8192;
                        SystemPerformanceMonitor.read_count := 10;
                        SystemPerformanceMonitor.write_count := 30;
                        SystemPerformanceMonitor.read_time := 50;
                        SystemPerformanceMonitor.write_time := 70 |});
     SystemPerformanceMonitor.getloadavg := Returns (0.5, 0.4, 0.3)%Q;
     SystemPerformanceMonitor.create_connection :=
       fun host port =>
         if String.eqb host "api.linear.app" then Raises OSError
         else Returns 0.02%Q |}.

(** Three samples within their ranges. *)
Definition quiet_batch : list PerformanceMetric :=
  [{| timestamp := 0; metric_name := "cpu_usage"; value := 12.5; unit_ := "percent";
      threshold_warning := Some 70%Q; threshold_critical := Some 85%Q;
      metadata := None |};
   {| timestamp := 0; metric_name := "memory_usage"; value := 40; unit_ := "percent";
      threshold_warning := Some 75%Q; threshold_critical := Some 90%Q;
      metadata := None |};
   {| timestamp := 0; metric_name := "disk_usage"; value := 55; unit_ := "percent";
      threshold_warning := Some 80%Q; threshold_critical := Some 95%Q;
      metadata := None |}].

(** A CPU reading at warning level. *)
Definition cpu75 : PerformanceMetric :=
  {| timestamp := 0; metric_name := "cpu_usage"; value := 75; unit_ := "percent";
     threshold_warning := Some 70%Q; threshold_critical := Some 85%Q;
     metadata := None |}.


(** The clock of an evaluation five minutes after that of [cpu92]. *)
Definition five_minutes_later : nat -> Z * Z :=
  fun _ => (5 * minute, 5 * minute).

(** The snapshot of a quiet cycle: no bottleneck and no recommendation. *)
Definition quiet_health : SystemHealth :=
  _calculate_system_health 0 quiet_batch [].

(** A cycle twenty minutes after the alert of [cpu92], with the CPU back in
    range. *)
Definition recovery_cycle : list Operation :=
  [StoreMetric cpu40; Evaluate cpu40 (20 * minute) (20 * minute)].

(** A sample whose value is an int no double holds, and one whose metadata
    has a tuple. *)
Definition big_int_sample : PerformanceMetric :=
  {| timestamp := 0; metric_name := "queue_size"; value := 9007199254740993;
     unit_ := "items"; threshold_warning := None; threshold_critical := None;
     metadata := None |}.

Definition tuple_metadata_sample : PerformanceMetric :=
  {| timestamp := 0; metric_name := "disk_usage"; value := 55; unit_ := "percent";
     threshold_warning := Some 80%Q; threshold_critical := Some 95%Q;
     metadata := Some [("mounts", PyTuple ["/"; "/home"])] |}.

(** A manager whose store holds the snapshot of a quiet cycle, and the
    snapshot of a cycle five minutes later in which the CPU is at 92. *)
Definition reported_manager : AlertManager :=
  {| db := store_health_snapshot (db fresh_manager) quiet_health;
     alert_cooldown := alert_cooldown fresh_manager;
     recent_alerts := recent_alerts fresh_manager;
     notification_handlers := notification_handlers fresh_manager;
     handler_calls := handler_calls fresh_manager |}.

Definition later_health : SystemHealth :=
  _calculate_system_health (5 * minute) [cpu92_later]
    [critical_alert cpu92_later 85].
(** * Properties *)

(** ** Numbers and thresholds *)

Lemma truthy_true (q : Q) : truthy q = true <-> ~ (q == 0)%Q.
Proof.
  unfold truthy. rewrite negb_true_iff, <- not_true_iff_false, Qeq_bool_iff.
  reflexivity.
Qed.

Lemma truthy_false (q : Q) : truthy q = false <-> (q == 0)%Q.
Proof.
  unfold truthy. rewrite negb_false_iff. apply Qeq_bool_iff.
Qed.

Lemma py_ge_true (a b : Q) : py_ge a b = true <-> (b <= a)%Q.
Proof. apply Qle_bool_iff. Qed.

Lemma py_ge_false (a b : Q) : py_ge a b = false <-> (a < b)%Q.
Proof.
  unfold py_ge. rewrite <- not_true_iff_false, Qle_bool_iff.
  split; [apply Qnot_le_lt | apply Qlt_not_le].
Qed.

Lemma py_lt_true (a b : Q) : py_lt a b = true <-> (a < b)%Q.
Proof. unfold py_lt. rewrite negb_true_iff. apply py_ge_false. Qed.

Lemma py_lt_false (a b : Q) : py_lt a b = false <-> (b <= a)%Q.
Proof. unfold py_lt. rewrite negb_false_iff. apply py_ge_true. Qed.

Lemma breached_Some (t : option Q) (v q : Q) :
  breached t v = Some q <-> t = Some q /\ ~ (q == 0)%Q /\ (q <= v)%Q.
Proof.
  unfold breached. destruct t as [q'|].
  - destruct (truthy q') eqn:Ht, (py_ge v q') eqn:Hge; simpl; split;
      try discriminate.
    + intros [= <-]. split; [reflexivity|].
      split; [by apply truthy_true | by apply py_ge_true].
    + by intros [-> _].
    + intros [[= <-] [_ Hle]]. apply py_ge_true in Hle. congruence.
    + intros [[= <-] [Hnz _]]. apply truthy_true in Hnz. congruence.
    + intros [[= <-] [Hnz _]]. apply truthy_true in Hnz. congruence.
  - split; [discriminate | by intros [? _]].
Qed.

Lemma breached_None (t : option Q) (v : Q) :
  breached t v = None <->
  (forall q, t = Some q -> (q == 0)%Q \/ (v < q)%Q).
Proof.
  unfold breached. destruct t as [q'|].
  - destruct (truthy q') eqn:Ht, (py_ge v q') eqn:Hge; simpl; split;
      try discriminate; try reflexivity.
    + intros H. destruct (H q' eq_refl) as [Hz | Hlt].
      * apply truthy_false in Hz. congruence.
      * apply py_ge_false in Hlt. congruence.
    + intros _ q [= <-]. right. by apply py_ge_false.
    + intros _ q [= <-]. left. by apply truthy_false.
    + intros _ q [= <-]. left. by apply truthy_false.
  - split; [discriminate | reflexivity].
Qed.

(** ** The store *)

Lemma insert_by_desc_Permutation {A} (key : A -> Z) (row : A) (sorted : list A) :
  insert_by_desc key row sorted ≡ₚ row :: sorted.
Proof.
  induction sorted as [|row' sorted IH]; simpl; [done|].
  destruct (decide (key row' <= key row)); [done|].
  by rewrite IH, Permutation_swap.
Qed.

Lemma order_by_desc_Permutation {A} (key : A -> Z) (rows : list A) :
  order_by_desc key rows ≡ₚ rows.
Proof.
  unfold order_by_desc. induction rows as [|row rows IH]; simpl; [done|].
  by rewrite insert_by_desc_Permutation, IH.
Qed.

Lemma elem_of_order_by_desc {A} (key : A -> Z) (rows : list A) (x : A) :
  x ∈ order_by_desc key rows <-> x ∈ rows.
Proof. by rewrite order_by_desc_Permutation. Qed.

Lemma elem_of_get_active_alerts (d : PerformanceDatabase) (a : PerformanceAlert) :
  a ∈ get_active_alerts d <-> a ∈ performance_alerts d /\ resolved a = false.
Proof.
  unfold get_active_alerts.
  rewrite elem_of_order_by_desc, elem_of_reverse, list_elem_of_filter. tauto.
Qed.

Lemma elem_of_recent_alerts_for_metric (am : AlertManager) (name : string)
    (a : PerformanceAlert) :
  a ∈ _get_recent_alerts_for_metric am name <->
  a ∈ performance_alerts (db am) /\ resolved a = false /\ alert_metric_name a = name.
Proof.
  unfold _get_recent_alerts_for_metric.
  rewrite list_elem_of_filter, elem_of_get_active_alerts. tauto.
Qed.

(** ** Classification *)

Lemma classify_critical (am : AlertManager) (m : PerformanceMetric) (tc : Q) :
  breached (threshold_critical m) (value m) = Some tc ->
  classify am m = Some (critical_alert m tc).
Proof. intros H. unfold classify. by rewrite H. Qed.

Lemma classify_warning (am : AlertManager) (m : PerformanceMetric) (tw : Q) :
  breached (threshold_critical m) (value m) = None ->
  breached (threshold_warning m) (value m) = Some tw ->
  classify am m = Some (warning_alert m tw).
Proof. intros Hc Hw. unfold classify. by rewrite Hc, Hw. Qed.

Lemma classify_in_range (am : AlertManager) (m : PerformanceMetric) :
  breached (threshold_critical m) (value m) = None ->
  breached (threshold_warning m) (value m) = None ->
  classify am m =
    match _get_recent_alerts_for_metric am (metric_name m) with
    | _ :: _ => Some (recovery_alert m)
    | [] => None
    end.
Proof. intros Hc Hw. unfold classify. by rewrite Hc, Hw. Qed.

(** What [check_metric_thresholds] returns is the alert it built, or nothing. *)
Lemma check_returns_classification (am : AlertManager) (m : PerformanceMetric)
    (now1 now2 : Z) (r : PerformanceAlert) :
  (check_metric_thresholds am m now1 now2).2 = Some r -> classify am m = Some r.
Proof.
  unfold check_metric_thresholds. destruct (classify am m) as [a|]; [|done].
  destruct (_is_in_cooldown am a now1 now2) as [am1 []]; simpl; congruence.
Qed.

Example cpu92_is_critical :
  (check_metric_thresholds fresh_manager cpu92 0 0).2 = Some (critical_alert cpu92 85).
Proof. reflexivity. Qed.

(** C1, as amended: a critical threshold that is set, not zero and reached
    makes the alert critical, and then no warning alert is ever returned;
    otherwise a warning threshold that is set, not zero and reached makes it
    a warning alert; in particular a value from a non-zero warning threshold
    up to, but below, the critical threshold is a warning. *)
Theorem classify_by_thresholds (am : AlertManager) (m : PerformanceMetric) :
  (forall tc, threshold_critical m = Some tc -> ~ (tc == 0)%Q -> (tc <= value m)%Q ->
     classify am m = Some (critical_alert m tc) /\
     forall now1 now2 r,
       (check_metric_thresholds am m now1 now2).2 = Some r ->
       alert_type r = "critical" /\ alert_type r <> "warning") /\
  (forall tw,
     (forall tc, threshold_critical m = Some tc -> (tc == 0)%Q \/ (value m < tc)%Q) ->
     threshold_warning m = Some tw -> ~ (tw == 0)%Q -> (tw <= value m)%Q ->
     classify am m = Some (warning_alert m tw)) /\
  (forall tw tc,
     threshold_warning m = Some tw -> threshold_critical m = Some tc ->
     ~ (tw == 0)%Q -> (tw <= value m)%Q -> (value m < tc)%Q ->
     classify am m = Some (warning_alert m tw)).
Proof.
  split; [|split].
  - intros tc Htc Hnz Hle.
    assert (Hb : breached (threshold_critical m) (value m) = Some tc)
      by (by apply breached_Some).
    split; [by apply classify_critical|].
    intros now1 now2 r Hr. apply check_returns_classification in Hr.
    rewrite (classify_critical am m tc Hb) in Hr. by injection Hr as <-.
  - intros tw Hc Htw Hnz Hle. apply classify_warning.
    + by apply breached_None.
    + by apply breached_Some.
  - intros tw tc Htw Htc Hnz Hle Hlt. apply classify_warning.
    + apply breached_None. intros q Hq. right. congruence.
    + by apply breached_Some.
Qed.

(** C1, as stated, fails: this sample has thresholdWarning <= value <
    thresholdCritical, and nothing is built for it. *)
Lemma zero_warning_not_classified :
  threshold_warning zero_warning_sample = Some 0%Q /\
  threshold_critical zero_warning_sample = Some 10%Q /\
  (0 <= value zero_warning_sample)%Q /\
  (value zero_warning_sample < 10)%Q /\
  classify (AlertManager_init init_database) zero_warning_sample = None.
Proof. repeat split; try reflexivity; by compute. Qed.

(** ** A threshold of zero *)

Lemma breached_zero (q v : Q) : (q == 0)%Q -> breached (Some q) v = None.
Proof. intros Hz. apply breached_None. intros ? [= <-]. by left. Qed.

Lemma or_zero_zero (q : Q) : (q == 0)%Q -> or_zero (Some q) = 0%Q.
Proof. intros Hz. simpl. apply truthy_false in Hz. by rewrite Hz. Qed.

Lemma classify_without_critical (am : AlertManager) (m : PerformanceMetric) (tc : Q) :
  threshold_critical m = Some tc -> (tc == 0)%Q ->
  classify am m = classify am (without_critical m).
Proof.
  intros Htc Hz. unfold classify. simpl. rewrite Htc.
  by rewrite (breached_zero tc (value m) Hz).
Qed.

Lemma classify_without_warning (am : AlertManager) (m : PerformanceMetric) (tw : Q) :
  threshold_warning m = Some tw -> (tw == 0)%Q ->
  classify am m = classify am (without_warning m).
Proof.
  intros Htw Hz. unfold classify, recovery_alert. simpl. rewrite Htw.
  by rewrite (breached_zero tw (value m) Hz), (or_zero_zero tw Hz).
Qed.

Lemma check_same_classification (am : AlertManager) (m m' : PerformanceMetric)
    (now1 now2 : Z) :
  classify am m = classify am m' ->
  check_metric_thresholds am m now1 now2 = check_metric_thresholds am m' now1 now2.
Proof. intros H. unfold check_metric_thresholds. by rewrite H. Qed.

Lemma health_step_without_critical (acc : Q * list Text) (m : PerformanceMetric) (tc : Q) :
  threshold_critical m = Some tc -> (tc == 0)%Q ->
  health_step acc m = health_step acc (without_critical m).
Proof.
  intros Htc Hz. unfold health_step. destruct acc as [s b]. simpl. rewrite Htc.
  by rewrite (breached_zero tc (value m) Hz).
Qed.

Lemma health_step_without_warning (acc : Q * list Text) (m : PerformanceMetric) (tw : Q) :
  threshold_warning m = Some tw -> (tw == 0)%Q ->
  health_step acc m = health_step acc (without_warning m).
Proof.
  intros Htw Hz. unfold health_step. destruct acc as [s b]. simpl. rewrite Htw.
  by rewrite (breached_zero tw (value m) Hz).
Qed.

Lemma health_same_step (now : Z) (pre post : list PerformanceMetric)
    (m m' : PerformanceMetric) (alerts : list PerformanceAlert) :
  (forall acc, health_step acc m = health_step acc m') ->
  _calculate_system_health now (pre ++ m :: post) alerts =
  _calculate_system_health now (pre ++ m' :: post) alerts.
Proof.
  intros H. unfold _calculate_system_health.
  rewrite !fold_left_app. simpl. by rewrite H.
Qed.

(** C9: a threshold of zero counts as no threshold.  With a critical
    threshold of zero the sample is never classified critical and never costs
    the 20 points, whatever its value: the evaluator and the health
    computation give what they give for the sample without that threshold.
    The same holds for a warning threshold of zero, the warning alert and the
    10 points. *)
Theorem zero_threshold_is_absent (am : AlertManager) (m : PerformanceMetric) :
  (forall tc, threshold_critical m = Some tc -> (tc == 0)%Q ->
     (forall a, classify am m = Some a -> alert_type a <> "critical") /\
     (forall now1 now2,
        check_metric_thresholds am m now1 now2 =
        check_metric_thresholds am (without_critical m) now1 now2) /\
     (forall s b, (health_step (s, b) m).1 = s \/
                  (health_step (s, b) m).1 = (s - 10)%Q) /\
     (forall now pre post alerts,
        _calculate_system_health now (pre ++ m :: post) alerts =
        _calculate_system_health now (pre ++ without_critical m :: post) alerts)) /\
  (forall tw, threshold_warning m = Some tw -> (tw == 0)%Q ->
     (forall a, classify am m = Some a -> alert_type a <> "warning") /\
     (forall now1 now2,
        check_metric_thresholds am m now1 now2 =
        check_metric_thresholds am (without_warning m) now1 now2) /\
     (forall s b, (health_step (s, b) m).1 = s \/
                  (health_step (s, b) m).1 = (s - 20)%Q) /\
     (forall now pre post alerts,
        _calculate_system_health now (pre ++ m :: post) alerts =
        _calculate_system_health now (pre ++ without_warning m :: post) alerts)).
Proof.
  split.
  - intros tc Htc Hz. pose proof (breached_zero tc (value m) Hz) as Hb.
    split; [|split; [|split]].
    + intros a. unfold classify. rewrite Htc, Hb.
      destruct (breached (threshold_warning m) (value m)).
      * by intros [= <-].
      * destruct (_get_recent_alerts_for_metric am (metric_name m));
          [done | by intros [= <-]].
    + intros now1 now2. apply check_same_classification.
      by apply (classify_without_critical am m tc).
    + intros s b. unfold health_step. rewrite Htc, Hb.
      destruct (breached (threshold_warning m) (value m)); simpl; auto.
    + intros now pre post alerts. apply health_same_step.
      intros acc. by apply (health_step_without_critical acc m tc).
  - intros tw Htw Hz. pose proof (breached_zero tw (value m) Hz) as Hb.
    split; [|split; [|split]].
    + intros a. unfold classify. rewrite Htw, Hb.
      destruct (breached (threshold_critical m) (value m)).
      * by intros [= <-].
      * destruct (_get_recent_alerts_for_metric am (metric_name m));
          [done | by intros [= <-]].
    + intros now1 now2. apply check_same_classification.
      by apply (classify_without_warning am m tw).
    + intros s b. unfold health_step. rewrite Htw, Hb.
      destruct (breached (threshold_critical m) (value m)); simpl; auto.
    + intros now pre post alerts. apply health_same_step.
      intros acc. by apply (health_step_without_warning acc m tw).
Qed.

(** ** The cooldown *)

Lemma AlertManager_init_cooldown (d : PerformanceDatabase) :
  alert_cooldown (AlertManager_init d) = 15 * minute /\
  recent_alerts (AlertManager_init d) = ∅.
Proof. done. Qed.

Lemma suppressed_dec (am : AlertManager) (alert : PerformanceAlert) (now : Z) :
  {suppressed am alert now} + {~ suppressed am alert now}.
Proof.
  unfold suppressed.
  destruct (recent_alerts am !! cooldown_key alert) as [last|] eqn:Hk.
  - destruct (decide (now - last < alert_cooldown am)) as [Hlt|Hge].
    + left. by exists last.
    + right. intros (l & [= <-] & Hlt). contradiction.
  - right. by intros (l & [=] & _).
Qed.

Lemma is_in_cooldown_suppressed (am : AlertManager) (alert : PerformanceAlert)
    (now1 now2 : Z) :
  suppressed am alert now1 -> _is_in_cooldown am alert now1 now2 = (am, true).
Proof.
  intros (last & Hk & Hlt). unfold _is_in_cooldown. rewrite Hk.
  by rewrite bool_decide_eq_true_2.
Qed.

Lemma is_in_cooldown_open (am : AlertManager) (alert : PerformanceAlert)
    (now1 now2 : Z) :
  ~ suppressed am alert now1 ->
  _is_in_cooldown am alert now1 now2 =
    (set_recent_alert am (cooldown_key alert) now2, false).
Proof.
  intros Hns. unfold _is_in_cooldown.
  destruct (recent_alerts am !! cooldown_key alert) as [last|] eqn:Hk; [|done].
  rewrite bool_decide_eq_false_2; [done|].
  intros Hlt. apply Hns. by exists last.
Qed.

Lemma check_suppressed (am : AlertManager) (m : PerformanceMetric)
    (a : PerformanceAlert) (now1 now2 : Z) :
  classify am m = Some a -> suppressed am a now1 ->
  check_metric_thresholds am m now1 now2 = (am, None).
Proof.
  intros Hc Hs. unfold check_metric_thresholds.
  by rewrite Hc, (is_in_cooldown_suppressed am a now1 now2 Hs).
Qed.

Lemma check_dispatched (am : AlertManager) (m : PerformanceMetric)
    (a : PerformanceAlert) (now1 now2 : Z) :
  classify am m = Some a -> ~ suppressed am a now1 ->
  check_metric_thresholds am m now1 now2 =
    (_send_alert (set_recent_alert am (cooldown_key a) now2) a, Some a).
Proof.
  intros Hc Hs. unfold check_metric_thresholds.
  by rewrite Hc, (is_in_cooldown_open am a now1 now2 Hs).
Qed.

Lemma check_no_alert (am : AlertManager) (m : PerformanceMetric) (now1 now2 : Z) :
  classify am m = None -> check_metric_thresholds am m now1 now2 = (am, None).
Proof. intros Hc. unfold check_metric_thresholds. by rewrite Hc. Qed.

(** C3, as amended: an evaluation that reaches the cooldown test writes the
    current time under the alert's key only when the alert is dispatched (the
    key has no entry, or one at least the cooldown old); a suppressed
    evaluation returns nothing and leaves the manager, its bookkeeping
    included, as it was. *)
Theorem cooldown_entry_written_on_dispatch_only (am : AlertManager)
    (m : PerformanceMetric) (a : PerformanceAlert) (now1 now2 : Z) :
  classify am m = Some a ->
  (suppressed am a now1 ->
     check_metric_thresholds am m now1 now2 = (am, None)) /\
  (~ suppressed am a now1 ->
     (check_metric_thresholds am m now1 now2).2 = Some a /\
     recent_alerts (check_metric_thresholds am m now1 now2).1 =
       <[cooldown_key a := now2]> (recent_alerts am)).
Proof.
  intros Hc. split.
  - by apply check_suppressed.
  - intros Hs. by rewrite (check_dispatched am m a now1 now2 Hc Hs).
Qed.

Lemma cooldown_entry_written_on_dispatch_only_witness :
  classify fresh_manager cpu92 = Some (critical_alert cpu92 85) /\
  (check_metric_thresholds fresh_manager cpu92 0 0).2 = Some (critical_alert cpu92 85) /\
  recent_alerts (check_metric_thresholds fresh_manager cpu92 0 0).1
    = <[cooldown_key (critical_alert cpu92 85) := 0]> (recent_alerts fresh_manager).
Proof.
  split; [reflexivity|].
  apply (cooldown_entry_written_on_dispatch_only fresh_manager cpu92
           (critical_alert cpu92 85) 0 0); [reflexivity|].
  intros (last & Hk & _). vm_compute in Hk. discriminate.
Defined.

(** C3, as stated, fails: the second of two breaching samples five minutes
    apart is suppressed, and the entry of its key still holds the time of the
    first evaluation, not the current time. *)
Lemma suppressed_evaluation_keeps_entry :
  let am1 := (check_metric_thresholds fresh_manager cpu92 0 0).1 in
  let now := 5 * minute in
  classify am1 cpu92_later = Some (critical_alert cpu92_later 85) /\
  (check_metric_thresholds am1 cpu92_later now now).2 = None /\
  recent_alerts (check_metric_thresholds am1 cpu92_later now now).1
    !! "cpu_usage_critical" = Some 0 /\
  recent_alerts (check_metric_thresholds am1 cpu92_later now now).1
    !! "cpu_usage_critical" <> Some now.
Proof. vm_compute. repeat split; congruence. Qed.

Lemma check_preserves_settings (am : AlertManager) (m : PerformanceMetric)
    (now1 now2 : Z) :
  alert_cooldown (check_metric_thresholds am m now1 now2).1 = alert_cooldown am /\
  notification_handlers (check_metric_thresholds am m now1 now2).1
    = notification_handlers am.
Proof.
  unfold check_metric_thresholds, _is_in_cooldown.
  destruct (classify am m) as [a|]; [|done].
  destruct (recent_alerts am !! cooldown_key a) as [last|]; [|done].
  by destruct (bool_decide (now1 - last < alert_cooldown am)).
Qed.

Lemma perform_preserves_settings (am : AlertManager) (op : Operation) :
  alert_cooldown (perform am op).1 = alert_cooldown am /\
  notification_handlers (perform am op).1 = notification_handlers am.
Proof. destruct op; try done. apply check_preserves_settings. Qed.

(** An evaluation returns nothing, and then neither persists nor notifies, or
    returns an alert that is the one row it adds and the one alert it sends. *)
Lemma check_effects (am : AlertManager) (m : PerformanceMetric) (now1 now2 : Z) :
  match (check_metric_thresholds am m now1 now2).2 with
  | None =>
      db (check_metric_thresholds am m now1 now2).1 = db am /\
      handler_calls (check_metric_thresholds am m now1 now2).1 = handler_calls am
  | Some a =>
      db (check_metric_thresholds am m now1 now2).1 = store_alert (db am) a /\
      handler_calls (check_metric_thresholds am m now1 now2).1
        = handler_calls am ++ notifications (notification_handlers am) [a]
  end.
Proof.
  unfold check_metric_thresholds, _is_in_cooldown, notifications.
  destruct (classify am m) as [a|]; [|done].
  destruct (recent_alerts am !! cooldown_key a) as [last|]; simpl.
  - destruct (bool_decide (now1 - last < alert_cooldown am)); simpl; [done|].
    by rewrite app_nil_r.
  - by rewrite app_nil_r.
Qed.

(** While the key [k] has an entry inside the window, no evaluation of the
    window dispatches an alert with that key, and the entry stays. *)
Lemma window_blocks_key (ops : list Operation) (am : AlertManager) (k : string)
    (start t : Z) :
  Forall (in_window start (alert_cooldown am)) ops ->
  recent_alerts am !! k = Some t -> start <= t ->
  Forall (fun a => cooldown_key a <> k) (perform_all am ops).2.
Proof.
  revert am. induction ops as [|op ops IH]; intros am Hw Hk Ht; simpl; [done|].
  apply Forall_cons in Hw as [Hop Hw].
  destruct (perform am op) as [am1 r] eqn:Hp.
  destruct (perform_all am1 ops) as [am2 rs] eqn:Hrun.
  assert (Hcd : alert_cooldown am1 = alert_cooldown am)
    by (pose proof (perform_preserves_settings am op) as [H _]; by rewrite Hp in H).
  assert (Hrest : recent_alerts am1 !! k = Some t /\
                  match r with Some a => cooldown_key a <> k | None => True end).
  { destruct op as [m0|a0|h0|m now1 now2]; simpl in Hp;
      try (injection Hp as <- <-; by split).
    destruct Hop as [Hlo Hhi].
    unfold check_metric_thresholds in Hp.
    destruct (classify am m) as [a|]; [|injection Hp as <- <-; by split].
    destruct (decide (cooldown_key a = k)) as [Hkey | Hne].
    - rewrite (is_in_cooldown_suppressed am a now1 now2) in Hp.
      + injection Hp as <- <-. by split.
      + exists t. rewrite Hkey. split; [done | lia].
    - destruct (suppressed_dec am a now1) as [Hs | Hs].
      + rewrite (is_in_cooldown_suppressed am a now1 now2 Hs) in Hp.
        injection Hp as <- <-. by split.
      + rewrite (is_in_cooldown_open am a now1 now2 Hs) in Hp.
        injection Hp as <- <-. simpl. by rewrite lookup_insert_ne. }
  destruct Hrest as [Hk1 Hr].
  specialize (IH am1). rewrite Hcd, Hrun in IH. specialize (IH Hw Hk1 Ht).
  simpl in *. destruct r; [by apply Forall_cons | done].
Qed.

(** A dispatched alert leaves its time under its key. *)
Lemma check_records_dispatch (am : AlertManager) (m : PerformanceMetric)
    (now1 now2 : Z) (a : PerformanceAlert) :
  (check_metric_thresholds am m now1 now2).2 = Some a ->
  recent_alerts (check_metric_thresholds am m now1 now2).1 !! cooldown_key a
    = Some now2.
Proof.
  unfold check_metric_thresholds, _is_in_cooldown.
  destruct (classify am m) as [a'|]; [|done].
  destruct (recent_alerts am !! cooldown_key a') as [last|]; simpl.
  - destruct (bool_decide (now1 - last < alert_cooldown am)); simpl; [done|].
    intros [= <-]. by rewrite lookup_insert_eq.
  - intros [= <-]. by rewrite lookup_insert_eq.
Qed.

Lemma window_one_per_key (ops : list Operation) (am : AlertManager) (k : string)
    (start : Z) :
  Forall (in_window start (alert_cooldown am)) ops ->
  (length (filter (fun a => cooldown_key a = k) (perform_all am ops).2) <= 1)%nat.
Proof.
  revert am. induction ops as [|op ops IH]; intros am Hw; simpl; [lia|].
  apply Forall_cons in Hw as [Hop Hw].
  destruct (perform am op) as [am1 r] eqn:Hp.
  destruct (perform_all am1 ops) as [am2 rs] eqn:Hrun.
  assert (Hcd : alert_cooldown am1 = alert_cooldown am)
    by (pose proof (perform_preserves_settings am op) as [H _]; by rewrite Hp in H).
  pose proof (IH am1) as IH1. rewrite Hcd, Hrun in IH1. specialize (IH1 Hw).
  simpl in *. destruct r as [a|]; [|done].
  destruct (decide (cooldown_key a = k)) as [Hk | Hne].
  - rewrite filter_cons_True by done.
    destruct op as [m0|a0|h0|m now1 now2]; simpl in Hp; try discriminate.
    destruct Hop as [Hlo Hhi].
    pose proof (check_records_dispatch am m now1 now2 a) as Hrec.
    rewrite Hp in Hrec. simpl in Hrec. specialize (Hrec eq_refl).
    rewrite Hk in Hrec.
    pose proof (window_blocks_key ops am1 k start now2) as Hblock.
    rewrite Hcd, Hrun in Hblock. specialize (Hblock Hw Hrec Hlo). simpl in Hblock.
    assert (Hnil : filter (fun a => cooldown_key a = k) rs = []).
    { clear -Hblock. induction rs as [|x rs IHrs]; [done|].
      apply Forall_cons in Hblock as [Hx Hrs].
      rewrite filter_cons_False by done. by apply IHrs. }
    rewrite Hnil. simpl. lia.
  - by rewrite filter_cons_False.
Qed.

Lemma filter_length_impl {A} (P Q : A -> Prop)
    `{forall x, Decision (P x)} `{forall x, Decision (Q x)} (l : list A) :
  (forall x, P x -> Q x) -> (length (filter P l) <= length (filter Q l))%nat.
Proof.
  intros HPQ. induction l as [|x l IH]; [done|].
  destruct (decide (P x)) as [HP | HP].
  - rewrite (filter_cons_True P) by done.
    rewrite (filter_cons_True Q) by auto. simpl. lia.
  - rewrite (filter_cons_False P) by done.
    destruct (decide (Q x)).
    + rewrite (filter_cons_True Q) by done. simpl. lia.
    + by rewrite (filter_cons_False Q).
Qed.

(** Without direct writes to the alerts table, the rows added and the calls
    made are those of the alerts the evaluations returned. *)
Lemma perform_all_effects (ops : list Operation) (am : AlertManager) :
  Forall is_monitoring_step ops ->
  performance_alerts (db (perform_all am ops).1)
    = performance_alerts (db am) ++ (perform_all am ops).2 /\
  handler_calls (perform_all am ops).1
    = handler_calls am ++ notifications (notification_handlers am) (perform_all am ops).2.
Proof.
  revert am. induction ops as [|op ops IH]; intros am Hm; simpl.
  - unfold notifications. simpl. by rewrite !app_nil_r.
  - apply Forall_cons in Hm as [Hop Hm].
    pose proof (perform_preserves_settings am op) as [_ Hh].
    assert (Hstep :
      match (perform am op).2 with
      | None => performance_alerts (db (perform am op).1) = performance_alerts (db am) /\
                handler_calls (perform am op).1 = handler_calls am
      | Some a => performance_alerts (db (perform am op).1)
                    = performance_alerts (db am) ++ [a] /\
                  handler_calls (perform am op).1
                    = handler_calls am ++ notifications (notification_handlers am) [a]
      end).
    { destruct op as [m0|a0|h0|m now1 now2]; simpl; try done.
      pose proof (check_effects am m now1 now2) as He.
      destruct ((check_metric_thresholds am m now1 now2).2);
        destruct He as [-> ->]; done. }
    destruct (perform am op) as [am1 r]. simpl in *.
    specialize (IH am1 Hm). rewrite Hh in IH.
    destruct (perform_all am1 ops) as [am2 rs]. simpl in *.
    destruct IH as [-> ->].
    destruct r as [a|]; destruct Hstep as [-> ->].
    + unfold notifications. simpl. rewrite app_nil_r, <- !app_assoc. done.
    + done.
Qed.

(** C4: within a window shorter than the cooldown, the evaluations of a
    monitoring run return at most one critical alert for a given metric name;
    the returned alerts are exactly the rows added to the store and the alerts
    sent to the handlers; and a suppressed evaluation, which returns nothing,
    neither persists nor notifies. *)
Theorem cooldown_at_most_one_dispatch (am : AlertManager) (ops : list Operation)
    (name : string) (start : Z) :
  Forall (in_window start (alert_cooldown am)) ops ->
  Forall is_monitoring_step ops ->
  (length (alerts_for name "critical" (perform_all am ops).2) <= 1)%nat /\
  performance_alerts (db (perform_all am ops).1)
    = performance_alerts (db am) ++ (perform_all am ops).2 /\
  handler_calls (perform_all am ops).1
    = handler_calls am ++ notifications (notification_handlers am) (perform_all am ops).2 /\
  (forall m a now1 now2,
     classify am m = Some a -> suppressed am a now1 ->
     (check_metric_thresholds am m now1 now2).2 = None /\
     db (check_metric_thresholds am m now1 now2).1 = db am /\
     handler_calls (check_metric_thresholds am m now1 now2).1 = handler_calls am).
Proof.
  intros Hw Hm. split; [|split; [|split]].
  - etransitivity; [|apply (window_one_per_key ops am (name +:+ "_critical") start Hw)].
    unfold alerts_for. apply filter_length_impl.
    intros a [Hn Ht]. unfold cooldown_key. by rewrite Hn, Ht.
  - by apply perform_all_effects.
  - by apply perform_all_effects.
  - intros m a now1 now2 Hc Hs.
    by rewrite (check_suppressed am m a now1 now2 Hc Hs).
Qed.

Lemma cooldown_at_most_one_dispatch_witness :
  (perform_all fresh_manager two_cycles).2 = [critical_alert cpu92 85] /\
  performance_alerts (db (perform_all fresh_manager two_cycles).1)
    = [critical_alert cpu92 85] /\
  (length (alerts_for "cpu_usage" "critical" (perform_all fresh_manager two_cycles).2)
     <= 1)%nat.
Proof.
  split; [reflexivity|]. split; [reflexivity|].
  apply (cooldown_at_most_one_dispatch fresh_manager two_cycles "cpu_usage" 0).
  - repeat constructor; vm_compute; congruence.
  - repeat constructor.
Defined.

(** ** Recovery *)

Lemma below_not_breached (t : option Q) (v : Q) : below t v -> breached t v = None.
Proof. intros Hb. apply breached_None. intros q Hq. right. by apply Hb. Qed.

Lemma has_active_alert_recent (am : AlertManager) (name : string) :
  has_active_alert am name <-> _get_recent_alerts_for_metric am name <> [].
Proof.
  split.
  - intros (a & Ha) Hnil.
    apply elem_of_recent_alerts_for_metric in Ha. rewrite Hnil in Ha.
    by apply not_elem_of_nil in Ha.
  - intros Hne. destruct (_get_recent_alerts_for_metric am name) as [|a l] eqn:Hl;
      [done|].
    exists a. apply elem_of_recent_alerts_for_metric. rewrite Hl. by left.
Qed.

Lemma classify_recovery (am : AlertManager) (m : PerformanceMetric) :
  in_range m -> has_active_alert am (metric_name m) ->
  classify am m = Some (recovery_alert m).
Proof.
  intros [Hw Hc] Ha.
  rewrite classify_in_range by by apply below_not_breached.
  apply has_active_alert_recent in Ha.
  by destruct (_get_recent_alerts_for_metric am (metric_name m)).
Qed.

Lemma classify_nothing (am : AlertManager) (m : PerformanceMetric) :
  in_range m -> ~ has_active_alert am (metric_name m) -> classify am m = None.
Proof.
  intros [Hw Hc] Ha.
  rewrite classify_in_range by by apply below_not_breached.
  destruct (_get_recent_alerts_for_metric am (metric_name m)) eqn:Hl; [done|].
  exfalso. apply Ha, has_active_alert_recent. by rewrite Hl.
Qed.

(** C5, as amended: for a sample in range (below each threshold it has), an
    unresolved alert of the same metric name in the store makes the
    evaluation build a recovery alert for that name, resolved, with
    resolved_at set to the sample's timestamp.  When the key of that alert
    is not in cooldown the alert is returned and added to the store as a new
    row; when it is, the evaluation returns nothing and changes nothing.
    With no unresolved alert of that name the evaluation returns nothing
    and changes nothing. *)
Theorem recovery_for_active_alert (am : AlertManager) (m : PerformanceMetric)
    (now1 now2 : Z) :
  in_range m ->
  (has_active_alert am (metric_name m) ->
     classify am m = Some (recovery_alert m) /\
     alert_type (recovery_alert m) = "recovery" /\
     alert_metric_name (recovery_alert m) = metric_name m /\
     resolved (recovery_alert m) = true /\
     resolved_at (recovery_alert m) = Some (timestamp m) /\
     (~ suppressed am (recovery_alert m) now1 ->
        (check_metric_thresholds am m now1 now2).2 = Some (recovery_alert m) /\
        performance_alerts (db (check_metric_thresholds am m now1 now2).1)
          = performance_alerts (db am) ++ [recovery_alert m]) /\
     (suppressed am (recovery_alert m) now1 ->
        check_metric_thresholds am m now1 now2 = (am, None))) /\
  (~ has_active_alert am (metric_name m) ->
     check_metric_thresholds am m now1 now2 = (am, None)).
Proof.
  intros Hr. split.
  - intros Ha. pose proof (classify_recovery am m Hr Ha) as Hc.
    repeat (split; [done|]). split.
    + intros Hs. by rewrite (check_dispatched am m _ now1 now2 Hc Hs).
    + intros Hs. by apply (check_suppressed am m (recovery_alert m)).
  - intros Ha. apply check_no_alert. by apply classify_nothing.
Qed.

Lemma recovery_for_active_alert_witness :
  in_range cpu40 /\
  has_active_alert alerted_manager "cpu_usage" /\
  (check_metric_thresholds alerted_manager cpu40 (20 * minute) (20 * minute)).2
    = Some (recovery_alert cpu40) /\
  check_metric_thresholds fresh_manager cpu40 (20 * minute) (20 * minute)
    = (fresh_manager, None).
Proof.
  assert (Hr : in_range cpu40).
  { split; intros q [= <-]; by compute. }
  assert (Ha : has_active_alert alerted_manager "cpu_usage").
  { exists (critical_alert cpu92 85). split; [|done]. vm_compute. by left. }
  split; [exact Hr|]. split; [exact Ha|].
  pose proof (recovery_for_active_alert alerted_manager cpu40
                (20 * minute) (20 * minute) Hr) as [Hyes _].
  pose proof (recovery_for_active_alert fresh_manager cpu40
                (20 * minute) (20 * minute) Hr) as [_ Hno].
  split.
  - apply Hyes; [exact Ha|].
    intros (last & Hk & _). vm_compute in Hk. discriminate.
  - apply Hno. intros (a & Hin & _). vm_compute in Hin. by apply not_elem_of_nil in Hin.
Defined.

(** C5, as stated, fails: five minutes after a recovery alert was dispatched
    for the metric, an in-range sample of the metric, which still has its
    unresolved alert, yields no alert: the evaluation returns nothing and
    adds no row. *)
Lemma recovery_suppressed_in_cooldown :
  let am := (check_metric_thresholds alerted_manager cpu40 (20 * minute) (20 * minute)).1 in
  in_range cpu40_later /\
  has_active_alert am (metric_name cpu40_later) /\
  (check_metric_thresholds am cpu40_later (25 * minute) (25 * minute)).2 = None /\
  performance_alerts (db (check_metric_thresholds am cpu40_later (25 * minute)
                            (25 * minute)).1)
    = performance_alerts (db am).
Proof.
  intros am.
  assert (Hr : in_range cpu40_later).
  { split; intros q [= <-]; by compute. }
  assert (Ha : has_active_alert am (metric_name cpu40_later)).
  { exists (critical_alert cpu92 85). split; [|done]. vm_compute. by left. }
  split; [exact Hr|]. split; [exact Ha|].
  assert (Hs : suppressed am (recovery_alert cpu40_later) (25 * minute)).
  { exists (20 * minute). split; [reflexivity|]. by vm_compute. }
  by rewrite (check_suppressed am cpu40_later (recovery_alert cpu40_later)
                (25 * minute) (25 * minute) (classify_recovery am _ Hr Ha) Hs).
Qed.

(** ** Alert rows are only ever added *)

Lemma perform_appends (am : AlertManager) (op : Operation) :
  exists added,
    performance_alerts (db (perform am op).1) = performance_alerts (db am) ++ added.
Proof.
  destruct op as [m0|a0|h0|m now1 now2]; simpl.
  - exists []. by rewrite app_nil_r.
  - by exists [a0].
  - exists []. by rewrite app_nil_r.
  - pose proof (check_effects am m now1 now2) as He.
    destruct ((check_metric_thresholds am m now1 now2).2) as [a|];
      destruct He as [-> _].
    + by exists [a].
    + exists []. by rewrite app_nil_r.
Qed.

Lemma perform_all_appends (ops : list Operation) (am : AlertManager) :
  exists added,
    performance_alerts (db (perform_all am ops).1) = performance_alerts (db am) ++ added.
Proof.
  revert am. induction ops as [|op ops IH]; intros am; simpl.
  - exists []. by rewrite app_nil_r.
  - destruct (perform_appends am op) as [added1 H1].
    destruct (perform am op) as [am1 r]. simpl in H1.
    destruct (IH am1) as [added2 H2].
    destruct (perform_all am1 ops) as [am2 rs]. simpl in *.
    exists (added1 ++ added2). by rewrite H2, H1, app_assoc.
Qed.

(** C10: no operation changes or removes a row of the alerts table, it only
    adds rows after the existing ones.  So every alert that activeAlerts()
    returns is still returned after any sequence of store writes and
    evaluations; a dispatched recovery alert is a new row with resolved set,
    and a later sample in range for a metric that had an unresolved alert is
    classified recovery again. *)
Theorem alert_rows_only_added (am : AlertManager) (ops : list Operation) :
  (exists added,
     performance_alerts (db (perform_all am ops).1)
       = performance_alerts (db am) ++ added) /\
  (forall a, a ∈ get_active_alerts (db am) ->
             a ∈ get_active_alerts (db (perform_all am ops).1)) /\
  (forall m now1 now2 r,
     (check_metric_thresholds am m now1 now2).2 = Some r ->
     alert_type r = "recovery" ->
     resolved r = true /\
     performance_alerts (db (check_metric_thresholds am m now1 now2).1)
       = performance_alerts (db am) ++ [r] /\
     forall a, a ∈ get_active_alerts (db am) <->
               a ∈ get_active_alerts (db (check_metric_thresholds am m now1 now2).1)) /\
  (forall m, in_range m -> has_active_alert am (metric_name m) ->
             classify (perform_all am ops).1 m = Some (recovery_alert m)).
Proof.
  destruct (perform_all_appends ops am) as [added Hadd].
  split; [by exists added|]. split; [|split].
  - intros a. rewrite !elem_of_get_active_alerts, Hadd, elem_of_app. tauto.
  - intros m now1 now2 r Hr Ht.
    pose proof (check_returns_classification am m now1 now2 r Hr) as Hc.
    assert (Hres : resolved r = true).
    { unfold classify in Hc.
      destruct (breached (threshold_critical m) (value m));
        [injection Hc as <-; discriminate|].
      destruct (breached (threshold_warning m) (value m));
        [injection Hc as <-; discriminate|].
      destruct (_get_recent_alerts_for_metric am (metric_name m)); [done|].
      by injection Hc as <-. }
    pose proof (check_effects am m now1 now2) as He. rewrite Hr in He.
    destruct He as [Hdb _]. rewrite Hdb. simpl.
    split; [done|]. split; [done|].
    intros a. rewrite !elem_of_get_active_alerts. simpl.
    rewrite elem_of_app, list_elem_of_singleton.
    split; [tauto|]. intros [[Hin | ->] Hf]; [done | congruence].
  - intros m Hr (a & Hin & Hf & Hn). apply classify_recovery; [done|].
    exists a. rewrite Hadd, elem_of_app. tauto.
Qed.

(** ** The health score *)

Lemma breached_reaches (t : option Q) (v : Q) :
  breached t v = if reaches t v then t else None.
Proof.
  destruct t as [q|]; [|done]. simpl. by destruct (truthy q && py_ge v q).
Qed.

Lemma count_of_nil {A} (test : A -> bool) : count_of test [] = 0%Q.
Proof. reflexivity. Qed.

Lemma count_of_cons {A} (test : A -> bool) (x : A) (l : list A) :
  (count_of test (x :: l) == (if test x then 1 else 0) + count_of test l)%Q.
Proof.
  unfold count_of. destruct (test x) eqn:Hx.
  - rewrite filter_cons_True by done. cbn [length].
    rewrite Nat2Z.inj_succ, <- Z.add_1_l, inject_Z_plus. reflexivity.
  - rewrite filter_cons_False by (rewrite Hx; discriminate). lra.
Qed.

Lemma health_fold_score (ms : list PerformanceMetric) (s : Q) (b : list Text) :
  ((fold_left health_step ms (s, b)).1 ==
   s - 20 * count_of (fun m => reaches (threshold_critical m) (value m)) ms
     - 10 * count_of (fun m => negb (reaches (threshold_critical m) (value m))
                               && reaches (threshold_warning m) (value m)) ms)%Q.
Proof.
  revert s b. induction ms as [|m ms IH]; intros s b.
  - simpl. rewrite !count_of_nil. lra.
  - cbn [fold_left]. rewrite !count_of_cons. unfold health_step at 2.
    rewrite !breached_reaches.
    destruct (reaches (threshold_critical m) (value m)) eqn:Hc.
    + destruct (threshold_critical m) as [tc|]; [|discriminate].
      rewrite IH. simpl. lra.
    + assert (Hnone : (if false then threshold_critical m else None) = None) by done.
      destruct (reaches (threshold_warning m) (value m)) eqn:Hw.
      * destruct (threshold_warning m) as [tw|]; [|discriminate].
        rewrite IH. simpl. lra.
      * rewrite IH. simpl. lra.
Qed.

Lemma clamp_0_100 (x y : Q) :
  (x == y)%Q -> (py_max 0 (py_min 100 x) == clamp y 0 100)%Q.
Proof.
  intros Hxy. unfold py_max, py_min, clamp.
  destruct (py_lt x 100) eqn:H100.
  - apply py_lt_true in H100.
    destruct (py_lt 0 x) eqn:H0.
    + apply py_lt_true in H0.
      destruct (Qlt_le_dec y 0); [lra|].
      destruct (Qlt_le_dec 100 y); lra.
    + apply py_lt_false in H0.
      destruct (Qlt_le_dec y 0); [lra|].
      destruct (Qlt_le_dec 100 y); lra.
  - apply py_lt_false in H100.
    destruct (py_lt 0 100) eqn:H0; [|by compute in H0].
    destruct (Qlt_le_dec y 0); [lra|].
    destruct (Qlt_le_dec 100 y); lra.
Qed.

Lemma count_of_severity (alerts : list PerformanceAlert) (s : string) :
  inject_Z (Z.of_nat (length (filter (fun a => severity a = s) alerts)))
  = count_of (fun a => bool_decide (severity a = s)) alerts.
Proof.
  unfold count_of. do 3 f_equal.
  apply list_filter_iff. intros a. by rewrite bool_decide_eq_true.
Qed.

(** The score is the clamped formula, for thresholds that are set and not zero. *)
Lemma health_score_formula (now : Z) (ms : list PerformanceMetric)
    (alerts : list PerformanceAlert) :
  (health_score (_calculate_system_health now ms alerts)
   == score_formula reaches ms alerts)%Q.
Proof.
  unfold _calculate_system_health, score_formula.
  pose proof (health_fold_score ms 100 []) as Hfold.
  destruct (fold_left health_step ms (100%Q, [])) as [s b]. simpl in Hfold.
  rewrite !count_of_severity.
  match goal with
  | |- (health_score (let '(_, _) := ?c in _) == _)%Q => destruct c
  end.
  simpl. apply clamp_0_100. rewrite Hfold. lra.
Qed.

(** Status and grade follow the score by the five breakpoints. *)
Lemma health_breakpoints (now : Z) (ms : list PerformanceMetric)
    (alerts : list PerformanceAlert) :
  let h := _calculate_system_health now ms alerts in
  ((90 <= health_score h)%Q -> status h = "healthy" /\ performance_grade h = "A") /\
  ((75 <= health_score h)%Q -> (health_score h < 90)%Q ->
     status h = "good" /\ performance_grade h = "B") /\
  ((60 <= health_score h)%Q -> (health_score h < 75)%Q ->
     status h = "degraded" /\ performance_grade h = "C") /\
  ((40 <= health_score h)%Q -> (health_score h < 60)%Q ->
     status h = "poor" /\ performance_grade h = "D") /\
  ((health_score h < 40)%Q -> status h = "critical" /\ performance_grade h = "F").
Proof.
  unfold _calculate_system_health.
  destruct (fold_left health_step ms (100%Q, [])) as [s b].
  set (hs := py_max 0 (py_min 100 _)).
  destruct (py_ge hs 90) eqn:H90; [apply py_ge_true in H90 | apply py_ge_false in H90];
    [simpl; repeat split; (done || (intros; lra))|].
  destruct (py_ge hs 75) eqn:H75; [apply py_ge_true in H75 | apply py_ge_false in H75];
    [simpl; repeat split; (done || (intros; lra))|].
  destruct (py_ge hs 60) eqn:H60; [apply py_ge_true in H60 | apply py_ge_false in H60];
    [simpl; repeat split; (done || (intros; lra))|].
  destruct (py_ge hs 40) eqn:H40; [apply py_ge_true in H40 | apply py_ge_false in H40];
    simpl; repeat split; (done || (intros; lra)).
Qed.

Example quiet_batch_is_healthy :
  let h := _calculate_system_health 0 quiet_batch [] in
  health_score h = 100%Q /\ status h = "healthy" /\ performance_grade h = "A" /\
  bottlenecks h = [] /\ recommendations h = [].
Proof. repeat split. Qed.

(** C2, as amended: the health score is 100, less 20 for every sample that
    reaches its critical threshold, 10 for every other sample that reaches its
    warning threshold, 15 for every alert of critical severity and 5 for every
    alert of warning severity, clamped to 0..100, where a threshold counts
    when it is set and not zero; status and grade follow the score by the
    breakpoints 90, 75, 60 and 40; for the CPU sample of 92 with its critical
    alert the result is 65, degraded, C. *)
Theorem health_score_and_grade (now : Z) (ms : list PerformanceMetric)
    (alerts : list PerformanceAlert) :
  let h := _calculate_system_health now ms alerts in
  let scenario := _calculate_system_health now [cpu92] [critical_alert cpu92 85] in
  (health_score h == score_formula reaches ms alerts)%Q /\
  ((90 <= health_score h)%Q -> status h = "healthy" /\ performance_grade h = "A") /\
  ((75 <= health_score h)%Q -> (health_score h < 90)%Q ->
     status h = "good" /\ performance_grade h = "B") /\
  ((60 <= health_score h)%Q -> (health_score h < 75)%Q ->
     status h = "degraded" /\ performance_grade h = "C") /\
  ((40 <= health_score h)%Q -> (health_score h < 60)%Q ->
     status h = "poor" /\ performance_grade h = "D") /\
  ((health_score h < 40)%Q -> status h = "critical" /\ performance_grade h = "F") /\
  health_score scenario = 65%Q /\ status scenario = "degraded" /\
  performance_grade scenario = "C".
Proof.
  split; [apply health_score_formula|].
  pose proof (health_breakpoints now ms alerts) as (H90 & H75 & H60 & H40 & H0).
  repeat (split; [assumption|]). repeat split; reflexivity.
Qed.

(** C2, as stated, fails: a sample at or over a critical threshold of zero
    costs nothing, where the formula of the claim takes 20 points. *)
Lemma zero_critical_threshold_not_deducted :
  threshold_critical zero_critical_sample = Some 0%Q /\
  (0 <= value zero_critical_sample)%Q /\
  health_score (_calculate_system_health 0 [zero_critical_sample] []) = 100%Q /\
  score_formula exceeds [zero_critical_sample] [] = 80%Q.
Proof. repeat split; try reflexivity. by compute. Qed.

(** C6, as amended: the health computation reads the clock, and nothing else
    from outside its arguments: the snapshot's timestamp is the clock read,
    and two invocations on the same samples and alerts agree in every other
    field. *)
Theorem health_depends_on_clock_by_timestamp_only (now1 now2 : Z)
    (ms : list PerformanceMetric) (alerts : list PerformanceAlert) :
  let h1 := _calculate_system_health now1 ms alerts in
  let h2 := _calculate_system_health now2 ms alerts in
  health_timestamp h1 = now1 /\ health_timestamp h2 = now2 /\
  health_score h1 = health_score h2 /\
  status h1 = status h2 /\
  active_alerts h1 = active_alerts h2 /\
  performance_grade h1 = performance_grade h2 /\
  bottlenecks h1 = bottlenecks h2 /\
  recommendations h1 = recommendations h2.
Proof.
  unfold _calculate_system_health.
  destruct (fold_left health_step ms (100%Q, [])) as [s b].
  match goal with
  | |- context [if ?c then ("healthy", "A") else _] =>
      destruct (if c then ("healthy", "A") else _)
  end.
  repeat split.
Qed.

(** C6, as stated, fails: two invocations on the same sample and no alerts,
    thirty seconds apart, give snapshots that differ (in their timestamp). *)
Lemma health_snapshots_differ_in_time :
  _calculate_system_health 0 [cpu92] [] <>
  _calculate_system_health (30 * 1000000) [cpu92] [].
Proof. intros H. apply (f_equal health_timestamp) in H. discriminate H. Qed.

(** ** Writing a sample and reading it back *)








(** The conditions of the amended claim are needed: an int that no double
    holds is read back as the nearest double, and a tuple as a list. *)
Example big_int_read_back_rounded :
  value (row_metric (metric_row big_int_sample)) = 9007199254740992%Q /\
  ~ same_sample (row_metric (metric_row big_int_sample)) big_int_sample.
Proof.
  split; [by vm_compute|]. intros (_ & _ & Hv & _). by vm_compute in Hv.
Qed.

Example tuple_read_back_as_list :
  metadata (row_metric (metric_row tuple_metadata_sample))
    = Some [("mounts", PyStrs ["/"; "/home"])] /\
  ~ same_sample (row_metric (metric_row tuple_metadata_sample)) tuple_metadata_sample.
Proof.
  split; [reflexivity|]. intros (_ & _ & _ & _ & _ & _ & Hmd). discriminate Hmd.
Qed.

(** ** Collectors *)

Lemma appends_ret {A} (a : A) : appends (ret a).
Proof. intros ms. unfold ret. simpl. by rewrite app_nil_r. Qed.

Lemma appends_call {A} (o : Outcome A) : appends (call o).
Proof. intros ms. unfold call. simpl. by rewrite app_nil_r. Qed.

Lemma appends_append (m : PerformanceMetric) : appends (append m).
Proof. intros ms. reflexivity. Qed.

Lemma appends_extend (l : list PerformanceMetric) : appends (extend l).
Proof. intros ms. reflexivity. Qed.

Lemma appends_bind {A B} (c : Collector A) (k : A -> Collector B) :
  appends c -> (forall a, appends (k a)) -> appends (bind c k).
Proof.
  intros Hc Hk ms. unfold bind. rewrite (Hc ms).
  destruct (c []) as [[a|e] s1]; simpl; [|done].
  rewrite (Hk a (ms ++ s1)), (Hk a s1). simpl. by rewrite app_assoc.
Qed.

Lemma appends_mbind {A B} (c : Collector A) (k : A -> Collector B) :
  appends c -> (forall a, appends (k a)) -> appends (c ≫= k).
Proof. apply appends_bind. Qed.

Lemma appends_try_except (body : Collector unit) (catches : PyExc -> bool) :
  appends body -> appends (try_except body catches).
Proof.
  intros Hb ms. unfold try_except. rewrite (Hb ms).
  destruct (body []) as [[[]|e] s1]; simpl; [done|].
  by destruct (catches e).
Qed.

Lemma appends_for_each {A} (l : list A) (body : A -> Collector unit) :
  (forall x, appends (body x)) -> appends (for_each l body).
Proof.
  intros Hb. induction l as [|x l IH]; simpl.
  - apply appends_ret.
  - apply appends_bind; [apply Hb | intros _; apply IH].
Qed.

(** The pieces built from calls, appends and matches on what was read. *)
Ltac solve_appends :=
  repeat first
    [ apply appends_ret | apply appends_call | apply appends_append
    | apply appends_extend | apply appends_try_except
    | apply appends_for_each; intros
    | apply appends_mbind; [|intros]
    | match goal with
      | |- appends (match ?x with _ => _ end) => destruct x
      | |- appends (if ?b then _ else _) => destruct b
      | |- appends (let (_, _) := ?x in _) => destruct x
      end ].

(** Running a piece that only appends, then the rest. *)
Lemma run_then (step rest : Collector unit) (ms : list PerformanceMetric) :
  appends step ->
  (step;; rest) ms =
    match alone step with
    | (Returns _, samples) => rest (ms ++ samples)
    | (Raises e, samples) => (Raises e, ms ++ samples)
    end.
Proof.
  intros Hs. unfold mbind, collector_bind, bind, alone. rewrite (Hs ms).
  by destruct (step []) as [[[]|e] s1].
Qed.

Lemma run_last (step : Collector unit) (ms : list PerformanceMetric) :
  appends step -> step ms = ((alone step).1, ms ++ (alone step).2).
Proof. intros Hs. apply Hs. Qed.

Lemma system_steps_append (env : SystemPerformanceMonitor.Probes) (now : Z) :
  appends (SystemPerformanceMonitor.cpu_metrics env now) /\
  appends (SystemPerformanceMonitor.memory_metrics env now) /\
  appends (SystemPerformanceMonitor.disk_metrics env now) /\
  appends (SystemPerformanceMonitor.disk_io_metrics env now) /\
  appends (SystemPerformanceMonitor.load_average env now) /\
  appends (SystemPerformanceMonitor.network_latency env now).
Proof.
  repeat split.
  - unfold SystemPerformanceMonitor.cpu_metrics. solve_appends.
  - unfold SystemPerformanceMonitor.memory_metrics. solve_appends.
  - unfold SystemPerformanceMonitor.disk_metrics. solve_appends.
  - unfold SystemPerformanceMonitor.disk_io_metrics. solve_appends.
  - unfold SystemPerformanceMonitor.load_average. solve_appends.
  - unfold SystemPerformanceMonitor.network_latency. solve_appends.
Qed.

Lemma application_steps_append (env : ApplicationPerformanceMonitor.Probes)
    (now now1 : Z) :
  appends (ApplicationPerformanceMonitor.script_execution_times env now) /\
  appends (ApplicationPerformanceMonitor.api_response_times env now) /\
  appends (ApplicationPerformanceMonitor.application_memory_usage env now) /\
  appends (ApplicationPerformanceMonitor.error_rate env now now1).
Proof.
  repeat split.
  - unfold ApplicationPerformanceMonitor.script_execution_times. solve_appends.
  - unfold ApplicationPerformanceMonitor.api_response_times. solve_appends.
  - unfold ApplicationPerformanceMonitor.application_memory_usage. solve_appends.
  - unfold ApplicationPerformanceMonitor.error_rate. solve_appends.
Qed.

Lemma system_collect_until_failure (env : SystemPerformanceMonitor.Probes) (now : Z) :
  SystemPerformanceMonitor.collect_metrics env now
  = Returns (gathered_until_failure (system_steps env now)).
Proof.
  destruct (system_steps_append env now) as (H1 & H2 & H3 & H4 & H5 & H6).
  unfold SystemPerformanceMonitor.collect_metrics, collected, try_except, system_steps.
  rewrite (run_then _ _ [] H1). simpl.
  destruct (alone (SystemPerformanceMonitor.cpu_metrics env now)) as [[[]|e1] s1];
    simpl; [|done].
  rewrite (run_then _ _ s1 H2).
  destruct (alone (SystemPerformanceMonitor.memory_metrics env now)) as [[[]|e2] s2];
    simpl; [|done].
  rewrite (run_then _ _ _ H3).
  destruct (alone (SystemPerformanceMonitor.disk_metrics env now)) as [[[]|e3] s3];
    simpl; [|by rewrite <- !app_assoc].
  rewrite (run_then _ _ _ H4).
  destruct (alone (SystemPerformanceMonitor.disk_io_metrics env now)) as [[[]|e4] s4];
    simpl; [|by rewrite <- !app_assoc].
  rewrite (run_then _ _ _ H5).
  destruct (alone (SystemPerformanceMonitor.load_average env now)) as [[[]|e5] s5];
    simpl; [|by rewrite <- !app_assoc].
  rewrite (run_last _ _ H6).
  destruct (alone (SystemPerformanceMonitor.network_latency env now)) as [[[]|e6] s6];
    simpl; by rewrite ?app_nil_r, <- !app_assoc.
Qed.

Lemma application_collect_until_failure
    (env : ApplicationPerformanceMonitor.Probes) (now now1 : Z) :
  ApplicationPerformanceMonitor.collect_metrics env now now1
  = Returns (gathered_until_failure (application_steps env now now1)).
Proof.
  destruct (application_steps_append env now now1) as (H1 & H2 & H3 & H4).
  unfold ApplicationPerformanceMonitor.collect_metrics, collected, try_except,
    application_steps.
  rewrite (run_then _ _ [] H1). simpl.
  destruct (alone (ApplicationPerformanceMonitor.script_execution_times env now))
    as [[[]|e1] s1]; simpl; [|done].
  rewrite (run_then _ _ s1 H2).
  destruct (alone (ApplicationPerformanceMonitor.api_response_times env now))
    as [[[]|e2] s2]; simpl; [|done].
  rewrite (run_then _ _ _ H3).
  destruct (alone (ApplicationPerformanceMonitor.application_memory_usage env now))
    as [[[]|e3] s3]; simpl; [|by rewrite <- !app_assoc].
  rewrite (run_last _ _ H4).
  destruct (alone (ApplicationPerformanceMonitor.error_rate env now now1))
    as [[[]|e4] s4]; simpl; by rewrite ?app_nil_r, <- !app_assoc.
Qed.

Lemma collected_returns (body : Collector unit) :
  exists metrics, collected body = Returns metrics.
Proof.
  unfold collected, try_except, except_Exception.
  destruct (body []) as [[[]|e] ms]; by exists ms.
Qed.

Lemma gathered_all_succeed (steps : list (Outcome unit * list PerformanceMetric)) :
  Forall (fun step => step.1 = Returns tt) steps ->
  gathered_until_failure steps = samples_of_succeeded steps.
Proof.
  induction 1 as [|[o samples] steps Ho _ IH]; [done|].
  simpl in *. subst o. simpl. by rewrite IH.
Qed.

Lemma load_average_recovered (env : SystemPerformanceMonitor.Probes) (now : Z)
    (e : PyExc) :
  SystemPerformanceMonitor.getloadavg env = Raises e ->
  e = AttributeError \/ e = OSError ->
  alone (SystemPerformanceMonitor.load_average env now) = (Returns tt, []).
Proof.
  intros He Hkind.
  unfold alone, SystemPerformanceMonitor.load_average, try_except,
    mbind, collector_bind, bind, call.
  rewrite He. by destruct Hkind as [-> | ->].
Qed.

Lemma network_latency_returns (env : SystemPerformanceMonitor.Probes) (now : Z) :
  (alone (SystemPerformanceMonitor.network_latency env now)).1 = Returns tt.
Proof.
  unfold alone, SystemPerformanceMonitor.network_latency.
  by destruct (SystemPerformanceMonitor._test_network_latency env).
Qed.

Lemma application_steps_return (env : ApplicationPerformanceMonitor.Probes)
    (now now1 : Z) (b1 b2 : bool) :
  ApplicationPerformanceMonitor.performance_log_exists env = Returns b1 ->
  ApplicationPerformanceMonitor.error_log_exists env = Returns b2 ->
  Forall (fun step => step.1 = Returns tt) (application_steps env now now1).
Proof.
  intros Hp He. unfold application_steps, alone. repeat constructor.
  - unfold ApplicationPerformanceMonitor.script_execution_times,
      ApplicationPerformanceMonitor._get_script_performance_metrics.
    rewrite Hp. cbn [mbind outcome_bind]. destruct b1; simpl; [|done].
    match goal with
    | |- context [collected ?b] => destruct (collected_returns b) as [ms ->]
    end.
    done.
  - unfold ApplicationPerformanceMonitor.api_response_times,
      ApplicationPerformanceMonitor._get_api_performance_metrics.
    destruct (ApplicationPerformanceMonitor._test_api_response_time env "linear");
      destruct (ApplicationPerformanceMonitor._test_api_response_time env "github");
      done.
  - unfold ApplicationPerformanceMonitor.application_memory_usage.
    by destruct (ApplicationPerformanceMonitor._get_application_memory_usage env now).
  - unfold ApplicationPerformanceMonitor.error_rate,
      ApplicationPerformanceMonitor._calculate_error_rate.
    rewrite He. cbn [mbind outcome_bind]. destruct b2; simpl; [|done].
    match goal with
    | |- context [match ?t with Returns _ => _ | Raises _ => _ end] =>
        destruct t as [[]|]
    end; done.
Qed.

(** C8, as amended: [collect_metrics] never propagates the exception of a
    sub-step, and returns the samples gathered up to the first sub-step whose
    exception reaches its handler; the sub-steps after that one are not run.
    A failure caught inside its sub-step loses that sample only: a missing
    load average (AttributeError, OSError), an unreachable host of the latency
    probe, and, in the application collector, everything but the two checks
    that a log file exists. *)
Theorem collectors_gather_until_first_failure :
  (forall env now,
     SystemPerformanceMonitor.collect_metrics env now
     = Returns (gathered_until_failure (system_steps env now))) /\
  (forall env now now1,
     ApplicationPerformanceMonitor.collect_metrics env now now1
     = Returns (gathered_until_failure (application_steps env now now1))) /\
  (forall env now e,
     SystemPerformanceMonitor.getloadavg env = Raises e ->
     e = AttributeError \/ e = OSError ->
     alone (SystemPerformanceMonitor.load_average env now) = (Returns tt, [])) /\
  (forall env now,
     (alone (SystemPerformanceMonitor.network_latency env now)).1 = Returns tt) /\
  (forall env now now1 b1 b2,
     ApplicationPerformanceMonitor.performance_log_exists env = Returns b1 ->
     ApplicationPerformanceMonitor.error_log_exists env = Returns b2 ->
     ApplicationPerformanceMonitor.collect_metrics env now now1
     = Returns (samples_of_succeeded (application_steps env now now1))).
Proof.
  split; [exact system_collect_until_failure|].
  split; [exact application_collect_until_failure|].
  split; [exact load_average_recovered|].
  split; [exact network_latency_returns|].
  intros env now now1 b1 b2 Hp He.
  rewrite application_collect_until_failure. f_equal.
  apply gathered_all_succeed. by apply (application_steps_return env now now1 b1 b2).
Qed.

(** C8, as stated, fails: when the disk usage probe raises, the disk I/O,
    load average and network latency sub-steps would each give a sample, and
    none of the three is returned. *)
Lemma failed_disk_probe_drops_later_samples :
  map metric_name (samples_of_succeeded (system_steps disk_probe_failing 0))
  = ["cpu_usage"; "memory_usage"; "disk_io_latency"; "load_average";
     "network_latency"] /\
  SystemPerformanceMonitor.collect_metrics disk_probe_failing 0
  = Returns (take 2 (samples_of_succeeded (system_steps disk_probe_failing 0))) /\
  SystemPerformanceMonitor.collect_metrics disk_probe_failing 0
  <> Returns (samples_of_succeeded (system_steps disk_probe_failing 0)).
Proof.
  split; [reflexivity|]. split; [reflexivity|].
  intros H. apply (f_equal (fun o => match o with
                                     | Returns l => length l
                                     | Raises _ => 0%nat
                                     end)) in H.
  vm_compute in H. discriminate H.
Qed.

(** * Further properties of the code *)

(** ** Cooldown keys *)

Lemma string_app_nil_l (s : string) : "" +:+ s = s.
Proof. reflexivity. Qed.

Lemma string_app_cons (c : Ascii.ascii) (a s : string) :
  String c a +:+ s = String c (a +:+ s).
Proof. reflexivity. Qed.

Lemma string_app_nil_r (s : string) : s +:+ "" = s.
Proof.
  induction s as [|c s IH]; [done|]. by rewrite string_app_cons, IH.
Qed.

Lemma string_length_app (a b : string) :
  String.length (a +:+ b) = (String.length a + String.length b)%nat.
Proof.
  induction a as [|c a IH]; [done|].
  rewrite string_app_cons. cbn [String.length]. by rewrite IH.
Qed.

(** Two concatenations that agree: the shorter tail is a suffix of the
    longer one. *)
Lemma string_app_tails (a b t1 t2 : string) :
  a +:+ t1 = b +:+ t2 -> (String.length t1 <= String.length t2)%nat ->
  exists p, t2 = p +:+ t1 /\ b +:+ p = a.
Proof.
  revert b. induction a as [|c a IH]; intros b Heq Hlen.
  - rewrite string_app_nil_l in Heq. destruct b as [|c' b].
    + exists "". by rewrite Heq.
    + apply (f_equal String.length) in Heq.
      rewrite string_length_app in Heq. cbn [String.length] in Heq. lia.
  - destruct b as [|c' b].
    + exists (String c a). split; [by rewrite Heq | done].
    + rewrite !string_app_cons in Heq. injection Heq as <- Heq.
      destruct (IH b Heq Hlen) as (p & -> & <-). by exists p.
Qed.

Lemma string_app_inv_tail (a b t : string) : a +:+ t = b +:+ t -> a = b.
Proof.
  intros Heq. destruct (string_app_tails a b t t Heq) as (p & Hp & <-); [done|].
  apply (f_equal String.length) in Hp. rewrite string_length_app in Hp.
  destruct p; cbn [String.length] in Hp; [|lia].
  by rewrite string_app_nil_r.
Qed.

Lemma string_app_inv_head (a t1 t2 : string) : a +:+ t1 = a +:+ t2 -> t1 = t2.
Proof.
  induction a as [|c a IH]; [done|].
  rewrite !string_app_cons. intros [= Heq]. by apply IH.
Qed.

(** The kind of an alert built by an evaluation is one of three. *)
Lemma classify_kind (am : AlertManager) (m : PerformanceMetric) (a : PerformanceAlert) :
  classify am m = Some a ->
  alert_metric_name a = metric_name m /\
  (alert_type a = "warning" \/ alert_type a = "critical" \/ alert_type a = "recovery").
Proof.
  unfold classify.
  destruct (breached (threshold_critical m) (value m));
    [intros [= <-]; simpl; auto|].
  destruct (breached (threshold_warning m) (value m));
    [intros [= <-]; simpl; auto|].
  destruct (_get_recent_alerts_for_metric am (metric_name m));
    [done | intros [= <-]; simpl; auto].
Qed.

Lemma cooldown_key_kinds (n1 n2 t1 t2 : string) :
  (t1 = "warning" \/ t1 = "critical" \/ t1 = "recovery") ->
  (t2 = "warning" \/ t2 = "critical" \/ t2 = "recovery") ->
  n1 +:+ "_" +:+ t1 = n2 +:+ "_" +:+ t2 -> n1 = n2 /\ t1 = t2.
Proof.
  intros H1 H2 Heq.
  assert (Hsuffix : forall a b s1 s2,
            a +:+ s1 = b +:+ s2 -> (String.length s1 <= String.length s2)%nat ->
            (String.length s2 <= S (String.length s1))%nat ->
            s2 = s1 \/ exists c, s2 = String c s1).
  { intros a b s1 s2 He Hle Hle'.
    destruct (string_app_tails a b s1 s2 He Hle) as (p & Hp & _).
    pose proof (f_equal String.length Hp) as Hl.
    rewrite string_length_app in Hl.
    destruct p as [|c [|c' p]]; cbn [String.length] in Hl.
    - left. by rewrite Hp.
    - right. exists c. by rewrite Hp.
    - lia. }
  assert (Ht : t1 = t2).
  { destruct H1 as [-> | [-> | ->]], H2 as [-> | [-> | ->]]; try done; exfalso;
      first [ destruct (Hsuffix _ _ _ _ Heq) as [Hs | [c Hs]];
                [vm_compute; lia | vm_compute; lia | discriminate Hs | discriminate Hs]
            | symmetry in Heq;
              destruct (Hsuffix _ _ _ _ Heq) as [Hs | [c Hs]];
                [vm_compute; lia | vm_compute; lia | discriminate Hs | discriminate Hs] ]. }
  subst t2. split; [|done]. by apply (string_app_inv_tail n1 n2 ("_" +:+ t1)).
Qed.

(** X1: the cooldown key, the metric name and the alert type joined by an
    underscore, tells apart the alerts that evaluations build: two such alerts
    with the same key are for the same metric name and of the same type. *)
Theorem cooldown_key_injective (am1 am2 : AlertManager) (m1 m2 : PerformanceMetric)
    (a1 a2 : PerformanceAlert) :
  classify am1 m1 = Some a1 -> classify am2 m2 = Some a2 ->
  cooldown_key a1 = cooldown_key a2 ->
  alert_metric_name a1 = alert_metric_name a2 /\ alert_type a1 = alert_type a2.
Proof.
  intros H1 H2 Hk.
  destruct (classify_kind am1 m1 a1 H1) as [_ Hk1].
  destruct (classify_kind am2 m2 a2 H2) as [_ Hk2].
  by apply cooldown_key_kinds.
Qed.

Lemma cooldown_key_injective_witness :
  alert_metric_name (critical_alert cpu92 85)
    = alert_metric_name (critical_alert cpu92_later 85) /\
  alert_type (critical_alert cpu92 85) = alert_type (critical_alert cpu92_later 85).
Proof.
  apply (cooldown_key_injective fresh_manager alerted_manager cpu92 cpu92_later);
    reflexivity.
Defined.

(** An evaluation writes at most the entry of the key of the alert it built. *)
Lemma check_other_entries (am : AlertManager) (m : PerformanceMetric)
    (now1 now2 : Z) (k : string) :
  (forall a, classify am m = Some a -> cooldown_key a <> k) ->
  recent_alerts (check_metric_thresholds am m now1 now2).1 !! k = recent_alerts am !! k.
Proof.
  intros Hk. unfold check_metric_thresholds, _is_in_cooldown.
  destruct (classify am m) as [a|]; [|done]. specialize (Hk a eq_refl).
  destruct (recent_alerts am !! cooldown_key a) as [last|]; simpl.
  - destruct (bool_decide (now1 - last < alert_cooldown am)); simpl; [done|].
    by rewrite lookup_insert_ne.
  - by rewrite lookup_insert_ne.
Qed.

(** X2: evaluating a sample does not touch the cooldown of any other metric
    name or alert type: whether an alert of another name or type is in
    cooldown at a time [t] is the same before and after the evaluation.  In
    particular a warning alert never delays the critical alert of the same
    metric. *)
Theorem evaluation_keeps_other_cooldowns (am am' : AlertManager)
    (m m' : PerformanceMetric) (a a' : PerformanceAlert) (now1 now2 t : Z) :
  classify am m = Some a -> classify am' m' = Some a' ->
  alert_metric_name a <> alert_metric_name a' \/ alert_type a <> alert_type a' ->
  suppressed (check_metric_thresholds am m now1 now2).1 a' t <-> suppressed am a' t.
Proof.
  intros Hc Hc' Hdiff. unfold suppressed.
  destruct (check_preserves_settings am m now1 now2) as [-> _].
  rewrite (check_other_entries am m now1 now2 (cooldown_key a')); [done|].
  intros b Hb Hkey. rewrite Hc in Hb. injection Hb as <-.
  destruct (classify_kind am m a Hc) as [_ Hk].
  destruct (classify_kind am' m' a' Hc') as [_ Hk'].
  destruct (cooldown_key_kinds _ _ _ _ Hk Hk' Hkey) as [Hn Ht].
  by destruct Hdiff.
Qed.

Lemma evaluation_keeps_other_cooldowns_witness :
  (check_metric_thresholds fresh_manager cpu75 0 0).2 = Some (warning_alert cpu75 70) /\
  ~ suppressed (check_metric_thresholds fresh_manager cpu75 0 0).1
      (critical_alert cpu92 85) minute.
Proof.
  split; [reflexivity|]. intros Hs.
  apply (evaluation_keeps_other_cooldowns fresh_manager fresh_manager cpu75 cpu92
           (warning_alert cpu75 70) (critical_alert cpu92 85) 0 0 minute) in Hs.
  - destruct Hs as (last & Hk & _). vm_compute in Hk. discriminate Hk.
  - reflexivity.
  - reflexivity.
  - right. discriminate.
Defined.

(** During the window after the entry [t] of a key, the entry stays. *)
Lemma window_keeps_entry (ops : list Operation) (am : AlertManager) (k : string)
    (t : Z) :
  Forall (in_window t (alert_cooldown am)) ops ->
  recent_alerts am !! k = Some t ->
  recent_alerts (perform_all am ops).1 !! k = Some t /\
  alert_cooldown (perform_all am ops).1 = alert_cooldown am.
Proof.
  revert am. induction ops as [|op ops IH]; intros am Hw Hk; simpl; [done|].
  apply Forall_cons in Hw as [Hop Hw].
  pose proof (perform_preserves_settings am op) as [Hcd _].
  assert (Hk1 : recent_alerts (perform am op).1 !! k = Some t).
  { destruct op as [m0|a0|h0|m now1 now2]; simpl; try done.
    destruct Hop as [Hlo Hhi].
    destruct (classify am m) as [a|] eqn:Hc;
      [|by rewrite (check_no_alert am m now1 now2 Hc)].
    destruct (decide (cooldown_key a = k)) as [Hkey | Hne].
    - rewrite (check_suppressed am m a now1 now2 Hc); [done|].
      exists t. rewrite Hkey. split; [done | lia].
    - rewrite check_other_entries; [done|].
      intros b Hb. rewrite Hc in Hb. by injection Hb as <-. }
  destruct (perform am op) as [am1 r]. simpl in *.
  specialize (IH am1). rewrite Hcd in IH. specialize (IH Hw Hk1).
  destruct (perform_all am1 ops) as [am2 rs]. simpl in *.
  destruct IH as [-> ->]. done.
Qed.

(** X3: the cooldown runs from the last dispatched alert of a key and is not
    extended by the evaluations suppressed meanwhile: after any operations
    made during the cooldown that follows the entry [t], the first evaluation
    of that key at [t] plus the cooldown or later is dispatched. *)
Theorem cooldown_ends_after_last_dispatch (am : AlertManager) (ops : list Operation)
    (m : PerformanceMetric) (a : PerformanceAlert) (t now1 now2 : Z) :
  recent_alerts am !! cooldown_key a = Some t ->
  Forall (in_window t (alert_cooldown am)) ops ->
  classify (perform_all am ops).1 m = Some a ->
  t + alert_cooldown am <= now1 ->
  (check_metric_thresholds (perform_all am ops).1 m now1 now2).2 = Some a /\
  recent_alerts (check_metric_thresholds (perform_all am ops).1 m now1 now2).1
    !! cooldown_key a = Some now2.
Proof.
  intros Hk Hw Hc Hlate.
  destruct (window_keeps_entry ops am (cooldown_key a) t Hw Hk) as [Hk' Hcd].
  assert (Hns : ~ suppressed (perform_all am ops).1 a now1).
  { intros (last & Hl & Hlt). rewrite Hk' in Hl. injection Hl as <-.
    rewrite Hcd in Hlt. lia. }
  rewrite (check_dispatched _ m a now1 now2 Hc Hns). simpl.
  split; [done|]. by rewrite lookup_insert_eq.
Qed.

Lemma cooldown_ends_after_last_dispatch_witness :
  (check_metric_thresholds
     (perform_all alerted_manager
        [StoreMetric cpu92_later; Evaluate cpu92_later (5 * minute) (5 * minute)]).1
     cpu92 (15 * minute) (15 * minute)).2
  = Some (critical_alert cpu92 85).
Proof.
  apply (cooldown_ends_after_last_dispatch alerted_manager
           [StoreMetric cpu92_later; Evaluate cpu92_later (5 * minute) (5 * minute)]
           cpu92 (critical_alert cpu92 85) 0 (15 * minute) (15 * minute)).
  - reflexivity.
  - repeat constructor; vm_compute; congruence.
  - reflexivity.
  - vm_compute. discriminate.
Defined.

(** ** The health snapshot *)


Lemma count_of_sublist {A} (test : A -> bool) (l1 l2 : list A) :
  l1 `sublist_of` l2 -> (count_of test l1 <= count_of test l2)%Q.
Proof.
  induction 1 as [|x l1 l2 _ IH|x l1 l2 _ IH].
  - lra.
  - rewrite !count_of_cons. lra.
  - rewrite count_of_cons. destruct (test x); lra.
Qed.

Lemma clamp_bounds (x : Q) : (0 <= clamp x 0 100 <= 100)%Q.
Proof.
  unfold clamp. destruct (Qlt_le_dec x 0); [lra|].
  destruct (Qlt_le_dec 100 x); lra.
Qed.

Lemma clamp_monotone (x y : Q) : (x <= y)%Q -> (clamp x 0 100 <= clamp y 0 100)%Q.
Proof.
  intros Hxy. unfold clamp.
  destruct (Qlt_le_dec x 0), (Qlt_le_dec y 0); try lra;
    destruct (Qlt_le_dec 100 x), (Qlt_le_dec 100 y); lra.
Qed.

(** X4: the health score always lies between 0 and 100, and it can only go
    down when samples or alerts are added: the score of a batch and alert
    list is at most the score of any sub-batch and sub-list of them. *)
Theorem health_score_bounded_and_monotone (now now' : Z)
    (ms ms' : list PerformanceMetric) (alerts alerts' : list PerformanceAlert) :
  ms `sublist_of` ms' -> alerts `sublist_of` alerts' ->
  (0 <= health_score (_calculate_system_health now ms alerts) <= 100)%Q /\
  (health_score (_calculate_system_health now' ms' alerts')
   <= health_score (_calculate_system_health now ms alerts))%Q.
Proof.
  intros Hms Hal. rewrite !health_score_formula. unfold score_formula.
  split; [apply clamp_bounds|]. apply clamp_monotone.
  pose proof (count_of_sublist
    (fun m => reaches (threshold_critical m) (value m)) ms ms' Hms).
  pose proof (count_of_sublist
    (fun m => negb (reaches (threshold_critical m) (value m))
              && reaches (threshold_warning m) (value m)) ms ms' Hms).
  pose proof (count_of_sublist
    (fun a => bool_decide (severity a = "critical")) alerts alerts' Hal).
  pose proof (count_of_sublist
    (fun a => bool_decide (severity a = "warning")) alerts alerts' Hal).
  lra.
Qed.

Lemma health_score_bounded_and_monotone_witness :
  (health_score (_calculate_system_health 0 (quiet_batch ++ [cpu92])
                   [critical_alert cpu92 85])
   <= health_score (_calculate_system_health 0 quiet_batch []))%Q.
Proof.
  apply (health_score_bounded_and_monotone 0 0 quiet_batch (quiet_batch ++ [cpu92])
           [] [critical_alert cpu92 85]).
  - by apply sublist_inserts_r.
  - apply sublist_nil_l.
Defined.

Lemma health_step_bottleneck (s : Q) (b : list Text) (m : PerformanceMetric) :
  exists s' added,
    health_step (s, b) m = (s', b ++ added) /\
    map first_piece added = if breaching m then [Some (Lit (metric_name m))] else [].
Proof.
  unfold health_step, breaching, breached, reaches.
  destruct (threshold_critical m) as [tc|], (threshold_warning m) as [tw|];
    repeat match goal with
           | |- context [truthy ?q && py_ge ?v ?q] =>
               destruct (truthy q && py_ge v q)
           end;
    simpl; first [ by eexists _, [_] | exists s, []; by rewrite app_nil_r ].
Qed.

Lemma health_fold_bottlenecks (ms : list PerformanceMetric) (s : Q) (b : list Text) :
  exists added,
    (fold_left health_step ms (s, b)).2 = b ++ added /\
    map first_piece added = map (fun m => Some (Lit (metric_name m))) (filter breaching ms).
Proof.
  revert s b. induction ms as [|m ms IH]; intros s b.
  - exists []. simpl. by rewrite app_nil_r.
  - cbn [fold_left].
    destruct (health_step_bottleneck s b m) as (s' & added1 & -> & H1).
    destruct (IH s' (b ++ added1)) as (added & -> & Hadd).
    exists (added1 ++ added). rewrite app_assoc. split; [done|].
    rewrite map_app, H1, Hadd, filter_cons.
    by destruct (breaching m).
Qed.

(** X5: the snapshot has one bottleneck for each sample that reaches a
    threshold (set and not zero), in the order of the samples, each starting
    with the sample's name; it has no recommendation exactly when no sample
    reaches a threshold, no alert is of critical severity, and the score is at
    least 80. *)
Theorem health_bottlenecks_and_recommendations (now : Z)
    (ms : list PerformanceMetric) (alerts : list PerformanceAlert) :
  let h := _calculate_system_health now ms alerts in
  map first_piece (bottlenecks h)
    = map (fun m => Some (Lit (metric_name m))) (filter breaching ms) /\
  (recommendations h = [] <->
   filter breaching ms = [] /\
   filter (fun a => severity a = "critical") alerts = [] /\
   (80 <= health_score h)%Q).
Proof.
  unfold _calculate_system_health.
  destruct (health_fold_bottlenecks ms 100 []) as (added & Hb & Hadd).
  destruct (fold_left health_step ms (100%Q, [])) as [s b]. simpl in Hb. subst b.
  set (hs := py_max 0 (py_min 100 _)).
  destruct (if py_ge hs 90 then _ else _) as [st gr]. simpl.
  split; [done|].
  assert (Hnil : added = [] <-> filter breaching ms = []).
  { split; intros H; rewrite H in Hadd; simpl in Hadd.
    - symmetry in Hadd. by apply fmap_nil_inv in Hadd.
    - by apply fmap_nil_inv in Hadd. }
  rewrite <- Hnil. clear Hnil Hadd.
  destruct (py_lt hs 80) eqn:H80;
    [apply py_lt_true in H80 | apply py_lt_false in H80];
    destruct added, (filter (fun a => severity a = "critical") alerts); simpl;
    (split;
     [ intros Hr; try discriminate Hr; repeat split; (done || lra)
     | intros (H1 & H2 & H3); try discriminate; try lra; done ]).
Qed.

(** ** The alerts written by evaluations *)

Lemma classify_well_formed (am : AlertManager) (m : PerformanceMetric)
    (a : PerformanceAlert) :
  classify am m = Some a -> well_formed_alert a.
Proof.
  unfold classify, well_formed_alert.
  destruct (breached (threshold_critical m) (value m)) as [tc|] eqn:Hc.
  { intros [= <-]. apply breached_Some in Hc as (_ & Hnz & Hle). left. by simpl. }
  destruct (breached (threshold_warning m) (value m)) as [tw|] eqn:Hw.
  { intros [= <-]. apply breached_Some in Hw as (_ & Hnz & Hle).
    right. left. by simpl. }
  destruct (_get_recent_alerts_for_metric am (metric_name m)); [done|].
  intros [= <-]. right. right. by simpl.
Qed.

(** X6: every row that evaluations add to the alerts table is well formed: a
    critical or warning row is unresolved, has no resolved_at, and its value
    is at least its non-zero threshold; a recovery row is informational,
    resolved, and resolved at its own timestamp.  So a table of such rows
    stays one over any run of operations in which alert rows are written by
    evaluations only: storing samples, storing snapshots and evaluating, with
    no direct call of [store_alert] (which inserts any row it is given). *)
Theorem alert_rows_well_formed (am : AlertManager) (ops : list Operation) :
  Forall well_formed_alert (performance_alerts (db am)) ->
  Forall is_monitoring_step ops ->
  Forall well_formed_alert (performance_alerts (db (perform_all am ops).1)).
Proof.
  revert am. induction ops as [|op ops IH]; intros am Hwf Hm; simpl; [done|].
  apply Forall_cons in Hm as [Hop Hm].
  assert (Hwf1 : Forall well_formed_alert (performance_alerts (db (perform am op).1))).
  { destruct op as [m0|a0|h0|m now1 now2]; simpl; try done.
    pose proof (check_effects am m now1 now2) as He.
    destruct ((check_metric_thresholds am m now1 now2).2) as [a|] eqn:Hr.
    - destruct He as [-> _]. simpl. apply Forall_app. split; [done|].
      apply Forall_singleton. apply (classify_well_formed am m).
      by apply (check_returns_classification am m now1 now2).
    - by destruct He as [-> _]. }
  destruct (perform am op) as [am1 r]. simpl in *.
  specialize (IH am1 Hwf1 Hm).
  by destruct (perform_all am1 ops) as [am2 rs].
Qed.

Lemma alert_rows_well_formed_witness :
  Forall well_formed_alert
    (performance_alerts (db (perform_all fresh_manager two_cycles).1)).
Proof.
  apply (alert_rows_well_formed fresh_manager two_cycles).
  - constructor.
  - repeat constructor.
Defined.

(** ** Reading the store *)

Lemma newest_first_sorted {A} (key : A -> Z) (rows : list A) :
  StronglySorted (newest_first key) (order_by_desc key rows).
Proof.
  unfold order_by_desc. induction rows as [|row rows IH]; simpl; [constructor|].
  induction IH as [|row' sorted Hsorted IH Hrow']; simpl; [by repeat constructor|].
  destruct (decide (key row' <= key row)) as [Hle|Hgt].
  - constructor; [by constructor|]. constructor; [done|].
    eapply Forall_impl; [exact Hrow'|]. unfold newest_first. intros x Hx. lia.
  - constructor; [done|].
    rewrite insert_by_desc_Permutation. constructor; [|done].
    unfold newest_first. lia.
Qed.

Lemma StronglySorted_map {A B} (R : relation A) (S : relation B) (f : A -> B)
    (l : list A) :
  (forall a b, R a b -> S (f a) (f b)) ->
  StronglySorted R l -> StronglySorted S (map f l).
Proof.
  intros Hf. induction 1 as [|x l _ IH Hx]; simpl; constructor; [done|].
  apply Forall_fmap. eapply Forall_impl; [exact Hx|]. intros b. apply Hf.
Qed.

(** X7: [get_recent_metrics] returns exactly the stored samples of the given
    name whose timestamp is at or after [now] less [hours] hours, newest
    first; it is empty when no stored sample has that name. *)
Theorem recent_metrics_are_the_matching_rows (d : PerformanceDatabase)
    (name : string) (hours now : Z) :
  get_recent_metrics d name hours now
    ≡ₚ map row_metric
         (filter (fun r => row_metric_name r = name /\ now - hours * hour <= row_timestamp r)
                 (performance_metrics d)) /\
  Forall (fun m => metric_name m = name /\ now - hours * hour <= timestamp m)
         (get_recent_metrics d name hours now) /\
  StronglySorted (newest_first timestamp) (get_recent_metrics d name hours now) /\
  (Forall (fun r => row_metric_name r <> name) (performance_metrics d) ->
   get_recent_metrics d name hours now = []).
Proof.
  unfold get_recent_metrics. split; [|split; [|split]].
  - by rewrite order_by_desc_Permutation.
  - apply Forall_fmap, Forall_forall. intros r Hr.
    apply elem_of_order_by_desc, list_elem_of_filter in Hr as [Hr _]. exact Hr.
  - apply (StronglySorted_map (newest_first row_timestamp)); [done|].
    apply newest_first_sorted.
  - intros Hnone.
    assert (Hnil : filter (fun r => row_metric_name r = name /\
                                    now - hours * hour <= row_timestamp r)
                          (performance_metrics d) = []).
    { induction Hnone as [|r l Hr _ IH]; [done|].
      rewrite filter_cons_False by tauto. exact IH. }
    by rewrite Hnil.
Qed.

(** ** What the collectors return *)

Lemma emits_ret {A} P (a : A) : emits P (ret a).
Proof. by intros ms Hms. Qed.

Lemma emits_call {A} P (o : Outcome A) : emits P (call o).
Proof. by intros ms Hms. Qed.

Lemma emits_append P (m : PerformanceMetric) : P m -> emits P (append m).
Proof. intros Hm ms Hms. simpl. apply Forall_app. by split; [|apply Forall_singleton]. Qed.

Lemma emits_extend P (l : list PerformanceMetric) : Forall P l -> emits P (extend l).
Proof. intros Hl ms Hms. simpl. by apply Forall_app. Qed.

Lemma emits_bind {A B} P (c : Collector A) (k : A -> Collector B) :
  emits P c -> (forall a, emits P (k a)) -> emits P (c ≫= k).
Proof.
  intros Hc Hk ms Hms. unfold mbind, collector_bind, bind.
  specialize (Hc ms Hms). destruct (c ms) as [[a|e] ms1]; simpl in *; [|done].
  by apply Hk.
Qed.

Lemma emits_call_bind {A B} P (o : Outcome A) (k : A -> Collector B) :
  (forall a, o = Returns a -> emits P (k a)) -> emits P (call o ≫= k).
Proof.
  intros Hk ms Hms. unfold mbind, collector_bind, bind, call.
  destruct o as [a|e]; simpl; [|done]. by apply Hk.
Qed.

Lemma emits_try_except P (body : Collector unit) (catches : PyExc -> bool) :
  emits P body -> emits P (try_except body catches).
Proof.
  intros Hb ms Hms. unfold try_except. specialize (Hb ms Hms).
  destruct (body ms) as [[[]|e] ms1]; simpl in *; [done|].
  by destruct (catches e).
Qed.

Lemma emits_for_each {A} P (l : list A) (body : A -> Collector unit) :
  (forall x, emits P (body x)) -> emits P (for_each l body).
Proof.
  intros Hb. induction l as [|x l IH]; simpl; [apply emits_ret|].
  intros ms Hms. unfold bind. specialize (Hb x ms Hms).
  destruct (body x ms) as [[[]|e] ms1]; simpl in *; [|done]. by apply IH.
Qed.

Lemma emits_collected P (body : Collector unit) (l : list PerformanceMetric) :
  emits P body -> collected body = Returns l -> Forall P l.
Proof.
  intros Hb. unfold collected.
  pose proof (emits_try_except P body except_Exception Hb [] (Forall_nil_2 P)) as H.
  destruct (try_except body except_Exception []) as [[[]|e] ms]; [|done].
  by intros [= <-].
Qed.

(** Reading an entry of a [thresholds] table that is there. *)
Ltac read_thresholds H :=
  vm_compute in H; injection H as <-.

Lemma calibrated_intro (now : Z) (n u : string) (v w c : Q) (md : option Metadata) :
  (0 < w)%Q -> (w < c)%Q ->
  calibrated now {| timestamp := now; metric_name := n; value := v; unit_ := u;
                    threshold_warning := Some w; threshold_critical := Some c;
                    metadata := md |}.
Proof. intros Hw Hc. split; [done|]. by exists w, c. Qed.

Lemma breaching_above (now : Z) (n u : string) (v w c bound : Q)
    (md : option Metadata) :
  (0 < w)%Q -> (w <= bound)%Q -> py_gt v bound = true ->
  breaching {| timestamp := now; metric_name := n; value := v; unit_ := u;
               threshold_warning := Some w; threshold_critical := Some c;
               metadata := md |} = true.
Proof.
  intros Hw Hb Hv. apply py_lt_true in Hv. unfold breaching. simpl.
  apply orb_true_iff. right. apply andb_true_iff. split.
  - apply truthy_true. lra.
  - apply py_ge_true. lra.
Qed.

(** The warning threshold of a sample is positive, below the critical one,
    and not above the value from which the optimizer acts on a sample of that
    name. *)
Lemma as_collected_intro (now : Z) (n u : string) (v w c : Q) (md : option Metadata) :
  (0 < w)%Q -> (w < c)%Q ->
  (n = "memory_usage" -> (w <= 80)%Q) ->
  (n = "cpu_usage" -> (w <= 75)%Q) ->
  (is_substring "api_response_time" n = true -> (w <= 3000)%Q) ->
  (n = "disk_usage" -> (w <= 85)%Q) ->
  (n = "error_rate" -> (w <= 5)%Q) ->
  as_collected now {| timestamp := now; metric_name := n; value := v; unit_ := u;
                      threshold_warning := Some w; threshold_critical := Some c;
                      metadata := md |}.
Proof.
  intros Hw Hc H1 H2 H3 H4 H5. split; [by apply calibrated_intro|].
  unfold acts_on_breach, PerformanceOptimizer._get_optimization_actions.
  cbn [metric_name value].
  repeat match goal with
         | |- context [String.eqb n ?s] => destruct (String.eqb_spec n s)
         | |- context [is_substring ?s n] => destruct (is_substring s n) eqn:?
         | |- context [py_gt v ?b] => destruct (py_gt v b) eqn:?
         end;
    cbn [andb]; intros Hact; try done;
    first [ eapply breaching_above; [exact Hw | apply H1; done | eassumption]
          | eapply breaching_above; [exact Hw | apply H2; done | eassumption]
          | eapply breaching_above; [exact Hw | apply H3; done | eassumption]
          | eapply breaching_above; [exact Hw | apply H4; done | eassumption]
          | eapply breaching_above; [exact Hw | apply H5; done | eassumption] ].
Qed.

(** The facts [as_collected_intro] asks of a sample with its name and
    thresholds given. *)
Ltac table_facts :=
  first [ let H := fresh in intros H; first [ by compute | by vm_compute in H ]
        | by compute ].

Lemma system_steps_as_collected (env : SystemPerformanceMonitor.Probes) (now : Z) :
  emits (as_collected now) (SystemPerformanceMonitor.cpu_metrics env now) /\
  emits (as_collected now) (SystemPerformanceMonitor.memory_metrics env now) /\
  emits (as_collected now) (SystemPerformanceMonitor.disk_metrics env now) /\
  emits (as_collected now) (SystemPerformanceMonitor.disk_io_metrics env now) /\
  emits (as_collected now) (SystemPerformanceMonitor.load_average env now) /\
  emits (as_collected now) (SystemPerformanceMonitor.network_latency env now).
Proof.
  repeat split.
  - unfold SystemPerformanceMonitor.cpu_metrics.
    apply emits_call_bind; intros v _. apply emits_call_bind; intros t Ht.
    apply emits_call_bind; intros cores _. read_thresholds Ht.
    apply emits_append, as_collected_intro; table_facts.
  - unfold SystemPerformanceMonitor.memory_metrics.
    apply emits_call_bind; intros v _. apply emits_call_bind; intros t Ht.
    read_thresholds Ht. apply emits_append, as_collected_intro; table_facts.
  - unfold SystemPerformanceMonitor.disk_metrics.
    apply emits_call_bind; intros v _. apply emits_call_bind; intros r _.
    apply emits_call_bind; intros t Ht.
    read_thresholds Ht. apply emits_append, as_collected_intro; table_facts.
  - unfold SystemPerformanceMonitor.disk_io_metrics.
    apply emits_call_bind; intros [io|] _; [|apply emits_ret].
    apply emits_call_bind; intros r _. apply emits_call_bind; intros t Ht.
    read_thresholds Ht. apply emits_append, as_collected_intro; table_facts.
  - unfold SystemPerformanceMonitor.load_average. apply emits_try_except.
    apply emits_call_bind; intros [[l1 l5] l15] _.
    apply emits_call_bind; intros t Ht.
    read_thresholds Ht. apply emits_append, as_collected_intro; table_facts.
  - unfold SystemPerformanceMonitor.network_latency.
    destruct (SystemPerformanceMonitor._test_network_latency env); [|apply emits_ret].
    apply emits_call_bind; intros t Ht.
    read_thresholds Ht. apply emits_append, as_collected_intro; table_facts.
Qed.

Lemma script_metrics_as_collected (env : ApplicationPerformanceMonitor.Probes)
    (now : Z) (l : list PerformanceMetric) :
  ApplicationPerformanceMonitor._get_script_performance_metrics env now = Returns l ->
  Forall (as_collected now) l.
Proof.
  unfold ApplicationPerformanceMonitor._get_script_performance_metrics.
  destruct (ApplicationPerformanceMonitor.performance_log_exists env) as [[|]|e];
    cbn [mbind outcome_bind negb]; [|by intros [= <-]|done].
  apply emits_collected.
  apply emits_call_bind; intros script_times _.
  apply emits_for_each. intros [script_name [times|e]]; [|apply emits_call].
  destruct (is_nonempty times); [|apply emits_ret].
  apply emits_call_bind; intros t Ht. read_thresholds Ht.
  apply emits_append, as_collected_intro; table_facts.
Qed.

Lemma api_metrics_as_collected (env : ApplicationPerformanceMonitor.Probes)
    (now : Z) (l : list PerformanceMetric) :
  ApplicationPerformanceMonitor._get_api_performance_metrics env now = Returns l ->
  Forall (as_collected now) l.
Proof.
  unfold ApplicationPerformanceMonitor._get_api_performance_metrics.
  match goal with
  | |- match ?body [] with _ => _ end = _ -> _ =>
      assert (Hb : emits (as_collected now) body)
  end.
  { apply emits_bind; [|intros _];
      match goal with
      | |- emits _ (match ?x with _ => _ end) => destruct x; [|apply emits_ret]
      end;
      apply emits_call_bind; intros t Ht; read_thresholds Ht;
      apply emits_append, as_collected_intro; table_facts. }
  specialize (Hb [] (Forall_nil_2 _)).
  match goal with
  | |- match ?r with _ => _ end = _ -> _ => destruct r as [[[]|e] ms]
  end; [by intros [= <-] | done].
Qed.

Lemma memory_metric_as_collected (env : ApplicationPerformanceMonitor.Probes)
    (now : Z) (m : PerformanceMetric) :
  ApplicationPerformanceMonitor._get_application_memory_usage env now = Some m ->
  as_collected now m.
Proof.
  unfold ApplicationPerformanceMonitor._get_application_memory_usage.
  destruct (ApplicationPerformanceMonitor.process_memory_info env) as [mi|e];
    cbn [mbind outcome_bind]; [|done].
  change (subscript ApplicationPerformanceMonitor.thresholds "memory_usage_mb")
    with (Returns {| warning := 512; critical := 1024 |}).
  cbn [mbind outcome_bind]. intros [= <-]. apply as_collected_intro; table_facts.
Qed.

Lemma error_rate_metric_as_collected (env : ApplicationPerformanceMonitor.Probes)
    (now now1 : Z) (m : PerformanceMetric) :
  ApplicationPerformanceMonitor._calculate_error_rate env now now1 = Returns (Some m) ->
  as_collected now m.
Proof.
  unfold ApplicationPerformanceMonitor._calculate_error_rate.
  destruct (ApplicationPerformanceMonitor.error_log_exists env) as [[|]|e];
    cbn [mbind outcome_bind negb]; [|done|done].
  destruct (ApplicationPerformanceMonitor.error_log env) as [data|e];
    cbn [mbind outcome_bind]; [|done].
  destruct (ApplicationPerformanceMonitor.recent_errors_since _ _) as [recent|e];
    cbn [mbind outcome_bind]; [|done].
  change (subscript ApplicationPerformanceMonitor.thresholds "error_rate")
    with (Returns {| warning := 5; critical := 10 |}).
  destruct (py_lt 0 _); cbn [mbind outcome_bind];
    [destruct (py_div _ _); cbn [mbind outcome_bind]; [|done]|];
    intros [= <-]; apply as_collected_intro; table_facts.
Qed.

Lemma application_steps_as_collected (env : ApplicationPerformanceMonitor.Probes)
    (now now1 : Z) :
  emits (as_collected now) (ApplicationPerformanceMonitor.script_execution_times env now) /\
  emits (as_collected now) (ApplicationPerformanceMonitor.api_response_times env now) /\
  emits (as_collected now) (ApplicationPerformanceMonitor.application_memory_usage env now) /\
  emits (as_collected now) (ApplicationPerformanceMonitor.error_rate env now now1).
Proof.
  repeat split.
  - apply emits_call_bind. intros l Hl.
    by apply emits_extend, (script_metrics_as_collected env).
  - apply emits_call_bind. intros l Hl.
    by apply emits_extend, (api_metrics_as_collected env).
  - unfold ApplicationPerformanceMonitor.application_memory_usage.
    destruct (ApplicationPerformanceMonitor._get_application_memory_usage env now)
      as [m|] eqn:Hm; [|apply emits_ret].
    by apply emits_append, (memory_metric_as_collected env).
  - apply emits_call_bind. intros [m|] Hm; [|apply emits_ret].
    by apply emits_append, (error_rate_metric_as_collected env now now1).
Qed.

Lemma calibrated_reaches (now : Z) (m : PerformanceMetric) :
  calibrated now m ->
  reaches (threshold_critical m) (value m) = exceeds (threshold_critical m) (value m) /\
  reaches (threshold_warning m) (value m) = exceeds (threshold_warning m) (value m).
Proof.
  intros (_ & w & c & -> & -> & Hw & Hc). simpl.
  assert (Hwt : truthy w = true) by (apply truthy_true; lra).
  assert (Hct : truthy c = true) by (apply truthy_true; lra).
  by rewrite Hwt, Hct.
Qed.

Lemma system_collect_as_collected (env : SystemPerformanceMonitor.Probes) (now : Z)
    (l : list PerformanceMetric) :
  SystemPerformanceMonitor.collect_metrics env now = Returns l ->
  Forall (as_collected now) l.
Proof.
  intros Hl.
  destruct (system_steps_as_collected env now) as (H1 & H2 & H3 & H4 & H5 & H6).
  refine (emits_collected (as_collected now) _ l _ Hl).
  repeat (apply emits_bind; [done | intros _]). done.
Qed.

Lemma application_collect_as_collected (env : ApplicationPerformanceMonitor.Probes)
    (now now1 : Z) (l : list PerformanceMetric) :
  ApplicationPerformanceMonitor.collect_metrics env now now1 = Returns l ->
  Forall (as_collected now) l.
Proof.
  intros Hl.
  destruct (application_steps_as_collected env now now1) as (H1 & H2 & H3 & H4).
  refine (emits_collected (as_collected now) _ l _ Hl).
  repeat (apply emits_bind; [done | intros _]). done.
Qed.

(** X8: every sample a collector returns carries the time of the collection
    and both thresholds, positive, the warning one below the critical one.  So
    for the samples of the collectors a threshold is reached exactly when the
    value is at least the threshold: the case of a zero threshold does not
    arise. *)
Theorem collected_samples_are_calibrated :
  (forall env now,
     exists l, SystemPerformanceMonitor.collect_metrics env now = Returns l /\
               Forall (calibrated now) l) /\
  (forall env now now1,
     exists l, ApplicationPerformanceMonitor.collect_metrics env now now1 = Returns l /\
               Forall (calibrated now) l) /\
  (forall now m, calibrated now m ->
     reaches (threshold_critical m) (value m) = exceeds (threshold_critical m) (value m) /\
     reaches (threshold_warning m) (value m) = exceeds (threshold_warning m) (value m)).
Proof.
  split; [|split].
  - intros env now.
    destruct (collected_returns
                (SystemPerformanceMonitor.cpu_metrics env now;;
                 SystemPerformanceMonitor.memory_metrics env now;;
                 SystemPerformanceMonitor.disk_metrics env now;;
                 SystemPerformanceMonitor.disk_io_metrics env now;;
                 SystemPerformanceMonitor.load_average env now;;
                 SystemPerformanceMonitor.network_latency env now)) as [l Hl].
    exists l. split; [exact Hl|].
    by apply (system_collect_as_collected env now), Forall_and in Hl as [Hl _].
  - intros env now now1.
    destruct (collected_returns
                (ApplicationPerformanceMonitor.script_execution_times env now;;
                 ApplicationPerformanceMonitor.api_response_times env now;;
                 ApplicationPerformanceMonitor.application_memory_usage env now;;
                 ApplicationPerformanceMonitor.error_rate env now now1)) as [l Hl].
    exists l. split; [exact Hl|].
    by apply (application_collect_as_collected env now now1), Forall_and in Hl as [Hl _].
  - exact calibrated_reaches.
Qed.

Lemma gathered_names (steps : list (Outcome unit * list PerformanceMetric))
    (names : list (list string)) :
  Forall2 (fun step ns => map metric_name step.2 `sublist_of` ns) steps names ->
  map metric_name (gathered_until_failure steps) `sublist_of` concat names.
Proof.
  induction 1 as [|[[[]|e] samples] ns steps names Hs _ IH]; simpl in *.
  - done.
  - rewrite map_app. by apply sublist_app.
  - by apply sublist_inserts_r.
Qed.

Ltac unfold_step :=
  unfold alone, mbind, collector_bind, bind, call, append, ret, try_except;
  repeat (simpl;
          match goal with
          | |- context [match ?f ?e with _ => _ end] => is_var e; destruct (f e)
          | |- context [match py_div ?a ?b with _ => _ end] => destruct (py_div a b)
          | |- context [match ?e with _ => _ end] => is_var e; destruct e
          end);
  simpl; first [ apply sublist_nil_l | reflexivity ].

Lemma system_step_names (env : SystemPerformanceMonitor.Probes) (now : Z) :
  Forall2 (fun step ns => map metric_name step.2 `sublist_of` ns)
    (system_steps env now) (map (fun n => [n]) system_metric_names).
Proof.
  unfold system_steps, system_metric_names. simpl.
  repeat match goal with |- Forall2 _ _ _ => constructor end.
  - unfold SystemPerformanceMonitor.cpu_metrics. unfold_step.
  - unfold SystemPerformanceMonitor.memory_metrics. unfold_step.
  - unfold SystemPerformanceMonitor.disk_metrics. unfold_step.
  - unfold SystemPerformanceMonitor.disk_io_metrics. unfold_step.
  - unfold SystemPerformanceMonitor.load_average. unfold_step.
  - unfold SystemPerformanceMonitor.network_latency. unfold_step.
Qed.

(** X9: the system collector returns at most one sample per metric, in the
    fixed order cpu_usage, memory_usage, disk_usage, disk_io_latency,
    load_average, network_latency: the names of its samples are a
    subsequence of that list. *)
Theorem system_samples_in_fixed_order (env : SystemPerformanceMonitor.Probes) (now : Z) :
  exists l,
    SystemPerformanceMonitor.collect_metrics env now = Returns l /\
    map metric_name l `sublist_of` system_metric_names /\
    NoDup (map metric_name l) /\
    (length l <= 6)%nat.
Proof.
  exists (gathered_until_failure (system_steps env now)).
  split; [apply system_collect_until_failure|].
  pose proof (gathered_names _ _ (system_step_names env now)) as Hsub.
  change (concat (map (fun n => [n]) system_metric_names))
    with system_metric_names in Hsub.
  split; [exact Hsub|]. split.
  - apply (sublist_NoDup _ system_metric_names); [|exact Hsub].
    apply (bool_decide_unpack (NoDup system_metric_names)). by vm_compute.
  - apply sublist_length in Hsub. by rewrite length_map in Hsub.
Qed.

(** ** Means, minima and maxima *)

Lemma inject_Z_succ (n : nat) :
  (inject_Z (Z.of_nat (S n)) == inject_Z (Z.of_nat n) + 1)%Q.
Proof. by rewrite Nat2Z.inj_succ, <- Z.add_1_r, inject_Z_plus. Qed.

Lemma sumQ_bounds (l : list Q) (lo hi : Q) :
  Forall (fun x => (lo <= x <= hi)%Q) l ->
  (inject_Z (Z.of_nat (length l)) * lo <= sumQ l
   <= inject_Z (Z.of_nat (length l)) * hi)%Q.
Proof.
  induction 1 as [|x l [Hlo Hhi] _ IH].
  - change (inject_Z (Z.of_nat (length (@nil Q)))) with 0%Q.
    change (sumQ []) with 0%Q. lra.
  - cbn [length sumQ fold_right]. fold (sumQ l). rewrite inject_Z_succ.
    set (n := inject_Z (Z.of_nat (length l))) in *.
    assert (Elo : ((n + 1) * lo == n * lo + lo)%Q) by ring.
    assert (Ehi : ((n + 1) * hi == n * hi + hi)%Q) by ring.
    rewrite Elo, Ehi. clear Elo Ehi.
    set (a := (n * lo)%Q) in *. set (b := (n * hi)%Q) in *. lra.
Qed.

Lemma mean_bounds (l : list Q) (lo hi : Q) :
  l <> [] -> Forall (fun x => (lo <= x <= hi)%Q) l -> (lo <= mean l <= hi)%Q.
Proof.
  intros Hne Hl. destruct (sumQ_bounds l lo hi Hl) as [Hlo Hhi].
  assert (Hpos : (0 < inject_Z (Z.of_nat (length l)))%Q).
  { change 0%Q with (inject_Z 0). rewrite <- Zlt_Qlt.
    destruct l; [done | simpl; lia]. }
  unfold mean. split.
  - apply Qle_shift_div_l; [done|]. lra.
  - apply Qle_shift_div_r; [done|]. lra.
Qed.

Lemma py_min_le (a b : Q) : (py_min a b <= a)%Q /\ (py_min a b <= b)%Q.
Proof.
  unfold py_min. destruct (py_lt b a) eqn:H;
    [apply py_lt_true in H | apply py_lt_false in H]; lra.
Qed.

Lemma py_max_ge (a b : Q) : (a <= py_max a b)%Q /\ (b <= py_max a b)%Q.
Proof.
  unfold py_max. destruct (py_lt a b) eqn:H;
    [apply py_lt_true in H | apply py_lt_false in H]; lra.
Qed.

Lemma fold_min_le (l : list Q) (acc : Q) :
  (fold_left py_min l acc <= acc)%Q /\
  Forall (fun x => (fold_left py_min l acc <= x)%Q) l.
Proof.
  revert acc. induction l as [|x l IH]; intros acc; simpl.
  - split; [lra | constructor].
  - destruct (IH (py_min acc x)) as [Hacc Hl].
    destruct (py_min_le acc x) as [Ha Hx].
    split; [lra|]. constructor; [lra | done].
Qed.

Lemma fold_max_ge (l : list Q) (acc : Q) :
  (acc <= fold_left py_max l acc)%Q /\
  Forall (fun x => (x <= fold_left py_max l acc)%Q) l.
Proof.
  revert acc. induction l as [|x l IH]; intros acc; simpl.
  - split; [lra | constructor].
  - destruct (IH (py_max acc x)) as [Hacc Hl].
    destruct (py_max_ge acc x) as [Ha Hx].
    split; [lra|]. constructor; [lra | done].
Qed.

Lemma list_min_max_bounds (d : Q) (l : list Q) :
  Forall (fun x => (list_min d l <= x <= list_max d l)%Q) l.
Proof.
  destruct l as [|x l]; [constructor|]. simpl.
  destruct (fold_min_le l x) as [Hmin Hmins].
  destruct (fold_max_ge l x) as [Hmax Hmaxs].
  constructor; [lra|].
  apply Forall_forall. intros y Hy.
  rewrite Forall_forall in Hmins, Hmaxs. split; auto.
Qed.

Lemma mean_between_min_max (d : Q) (l : list Q) :
  l <> [] -> (list_min d l <= mean l <= list_max d l)%Q.
Proof. intros Hne. apply mean_bounds; [done | apply list_min_max_bounds]. Qed.

(** X10: the network latency probe gives no value exactly when none of its
    three hosts can be reached; otherwise its value is the mean of the
    latencies, in milliseconds, of the connections that succeeded, so it lies
    within any bounds that hold for each of them. *)
Theorem network_latency_of_reachable_hosts (env : SystemPerformanceMonitor.Probes) :
  (SystemPerformanceMonitor._test_network_latency env = None <->
   (exists e, SystemPerformanceMonitor.create_connection env "api.linear.app" 443 = Raises e) /\
   (exists e, SystemPerformanceMonitor.create_connection env "api.github.com" 443 = Raises e) /\
   (exists e, SystemPerformanceMonitor.create_connection env "8.8.8.8" 53 = Raises e)) /\
  (forall v,
     SystemPerformanceMonitor._test_network_latency env = Some v ->
     reachable_latencies env <> [] /\ v = mean (reachable_latencies env)) /\
  (forall lo hi v,
     (forall host port s,
        SystemPerformanceMonitor.create_connection env host port = Returns s ->
        (lo <= s <= hi)%Q) ->
     SystemPerformanceMonitor._test_network_latency env = Some v ->
     (lo * 1000 <= v <= hi * 1000)%Q).
Proof.
  unfold SystemPerformanceMonitor._test_network_latency, reachable_latencies. simpl.
  destruct (SystemPerformanceMonitor.create_connection env "api.linear.app" 443)
    as [s1|e1] eqn:H1;
  destruct (SystemPerformanceMonitor.create_connection env "api.github.com" 443)
    as [s2|e2] eqn:H2;
  destruct (SystemPerformanceMonitor.create_connection env "8.8.8.8" 53)
    as [s3|e3] eqn:H3;
  simpl; (split; [|split];
    [ split;
      [ try discriminate; intros _; repeat split; eexists; reflexivity
      | intros ([? ?] & [? ?] & [? ?]); try discriminate; done ]
    | intros v; try discriminate; intros [= <-]; (split; [discriminate | reflexivity])
    | intros lo hi v Hb; try discriminate; intros [= <-];
      try pose proof (Hb _ _ _ H1); try pose proof (Hb _ _ _ H2);
      try pose proof (Hb _ _ _ H3);
      apply mean_bounds; try discriminate;
      repeat (apply Forall_cons_2; [lra|]); apply Forall_nil_2 ]).
Qed.

(** ** The helpers of the application collector *)

Lemma last10_length {A} (l : list A) :
  length (last10 l) = Nat.min 10 (length l).
Proof. unfold last10. rewrite length_drop. lia. Qed.

Lemma last10_nonempty {A} (l : list A) : l <> [] -> last10 l <> [].
Proof.
  intros Hne Hnil. apply (f_equal length) in Hnil.
  rewrite last10_length in Hnil. destruct l; [done | simpl in Hnil; lia].
Qed.

Lemma script_loop_body_unfold (env : ApplicationPerformanceMonitor.Probes) (now : Z) :
  ApplicationPerformanceMonitor._get_script_performance_metrics env now
  = (exists_ ← ApplicationPerformanceMonitor.performance_log_exists env;
     if negb exists_ then Returns []
     else collected
            (script_times ← call (ApplicationPerformanceMonitor.performance_log env);
             for_each script_times (script_loop_body now))).
Proof. reflexivity. Qed.

Lemma script_loop_body_empty (now : Z) (name : string) (ms : list PerformanceMetric) :
  script_loop_body now (name, ApplicationPerformanceMonitor.Times []) ms
  = (Returns tt, ms).
Proof. reflexivity. Qed.

Lemma script_loop_body_malformed (now : Z) (name : string) (e : PyExc)
    (ms : list PerformanceMetric) :
  script_loop_body now (name, ApplicationPerformanceMonitor.Malformed e) ms
  = (Raises e, ms).
Proof. reflexivity. Qed.

Lemma script_loop_body_sample (now : Z) (name : string) (x : Q) (times : list Q)
    (ms : list PerformanceMetric) :
  exists m,
    script_loop_body now (name, ApplicationPerformanceMonitor.Times (x :: times)) ms
    = (Returns tt, ms ++ [m]) /\
    script_sample_of m (name, x :: times).
Proof.
  unfold script_loop_body, is_nonempty, mbind, collector_bind, bind, call, append.
  change (subscript ApplicationPerformanceMonitor.thresholds "script_execution_time")
    with (Returns {| warning := 30; critical := 60 |}).
  cbn beta iota zeta.
  eexists. split; [reflexivity|].
  repeat split; cbn [metric_name value fst snd].
  - apply mean_between_min_max. by apply last10_nonempty.
  - apply mean_between_min_max. by apply last10_nonempty.
  - rewrite last10_length. lia.
Qed.

Lemma script_loop (now : Z)
    (script_times : list (string * ApplicationPerformanceMonitor.ScriptTimes))
    (ms : list PerformanceMetric) :
  exists added,
    (for_each script_times (script_loop_body now) ms).2 = ms ++ added /\
    Forall2 script_sample_of added
      (filter (fun entry => entry.2 <> []) (entries_read script_times)).
Proof.
  revert ms. induction script_times as [|[name [times|e]] l IH]; intros ms.
  - exists []. simpl. by rewrite app_nil_r.
  - cbn [for_each entries_read]. unfold bind. destruct times as [|x times].
    + rewrite script_loop_body_empty.
      destruct (IH ms) as (added & Hrun & Hrel).
      exists added. by rewrite filter_cons_False by (simpl; tauto).
    + destruct (script_loop_body_sample now name x times ms) as (m & -> & Hm).
      destruct (IH (ms ++ [m])) as (added & Hrun & Hrel).
      exists (m :: added). rewrite filter_cons_True by done.
      split; [by rewrite Hrun, <- app_assoc | by constructor].
  - cbn [for_each entries_read]. unfold bind. rewrite script_loop_body_malformed.
    exists []. simpl. split; [by rewrite app_nil_r | constructor].
Qed.

(** X11: [_get_script_performance_metrics] returns no sample when the
    performance log is missing or cannot be read.  Otherwise it returns one
    sample for each script with execution times among the entries of the log
    that come before the first entry on which the loop raises (a value that
    is no list of numbers), or among all of them when there is none: in the
    order of the log, named after the script, with as value the mean of its
    last ten times at most, which lies between the least and the greatest of
    them.  The entries from the first malformed one on give no sample. *)
Theorem script_metrics_of_log (env : ApplicationPerformanceMonitor.Probes) (now : Z) :
  (ApplicationPerformanceMonitor.performance_log_exists env = Returns false ->
   ApplicationPerformanceMonitor._get_script_performance_metrics env now = Returns []) /\
  (forall e,
     ApplicationPerformanceMonitor.performance_log_exists env = Returns true ->
     ApplicationPerformanceMonitor.performance_log env = Raises e ->
     ApplicationPerformanceMonitor._get_script_performance_metrics env now = Returns []) /\
  (forall script_times,
     ApplicationPerformanceMonitor.performance_log_exists env = Returns true ->
     ApplicationPerformanceMonitor.performance_log env = Returns script_times ->
     exists l,
       ApplicationPerformanceMonitor._get_script_performance_metrics env now = Returns l /\
       Forall2 script_sample_of l
         (filter (fun entry => entry.2 <> []) (entries_read script_times))) /\
  (forall script_times,
     Forall (fun entry => exists times,
               entry.2 = ApplicationPerformanceMonitor.Times times) script_times ->
     map fst (entries_read script_times) = map fst script_times).
Proof.
  rewrite script_loop_body_unfold.
  split; [|split; [|split]].
  - by intros ->.
  - intros e -> Hl. cbn [mbind outcome_bind negb].
    unfold collected, try_except, mbind, collector_bind, bind, call. by rewrite Hl.
  - intros script_times -> Hl. cbn [mbind outcome_bind negb].
    destruct (script_loop now script_times []) as (added & Hrun & Hrel).
    exists added. split; [|done].
    unfold collected, try_except, mbind, collector_bind, bind, call.
    rewrite Hl. simpl in Hrun.
    by destruct (for_each script_times (script_loop_body now) []) as [[[]|e] ms];
      simpl in *; subst ms.
  - induction 1 as [|[name entry] l (times & Hentry) _ IH]; [done|].
    simpl in Hentry. subst entry. simpl. by rewrite IH.
Qed.




(** ** The optimizer *)

Lemma optimization_actions_known (m : PerformanceMetric) (name : string) :
  name ∈ PerformanceOptimizer._get_optimization_actions m ->
  PerformanceOptimizer.lookup_action PerformanceOptimizer.optimization_actions name
    = Some (action_named name) /\
  forall env, PerformanceOptimizer.text_truthy (action_named name env m) = true.
Proof.
  unfold PerformanceOptimizer._get_optimization_actions.
  repeat match goal with
         | |- context [if ?c then _ else _] => destruct c
         end;
    intros Hin; apply list_elem_of_In in Hin; simpl in Hin;
    [destruct Hin as [<-|Hin]; [|done] .. | done];
    (split; [reflexivity|]); intros env;
    change (action_named "high_memory_usage") with PerformanceOptimizer._optimize_memory;
    change (action_named "high_cpu_usage") with PerformanceOptimizer._optimize_cpu;
    change (action_named "slow_api_response")
      with PerformanceOptimizer._optimize_api_calls;
    change (action_named "high_disk_usage") with PerformanceOptimizer._cleanup_disk;
    change (action_named "high_error_rate") with PerformanceOptimizer._investigate_errors.
  - unfold PerformanceOptimizer._optimize_memory.
    by destruct (PerformanceOptimizer.gc_collect env).
  - unfold PerformanceOptimizer._optimize_cpu.
    by destruct (PerformanceOptimizer.process_nice env).
  - done.
  - unfold PerformanceOptimizer._cleanup_disk.
    by destruct (PerformanceOptimizer.remove_old_files env) as [[]|].
  - done.
Qed.

(** X13: the optimizer picks at most one action for a sample, and
    [analyze_and_optimize] returns, in the order of the samples, one report
    for every action picked: the action's name, a colon, and the text the
    action of that name returned for the sample (high_memory_usage is
    [_optimize_memory], high_cpu_usage [_optimize_cpu], slow_api_response
    [_optimize_api_calls], high_disk_usage [_cleanup_disk], high_error_rate
    [_investigate_errors]).  No report is left out: every name picked is in
    the table of actions, and no action, failed or not, returns an empty
    text. *)
Theorem optimizer_reports_each_action (env : PerformanceOptimizer.Probes)
    (metrics : list PerformanceMetric) :
  Forall (fun m => (length (PerformanceOptimizer._get_optimization_actions m) <= 1)%nat)
         metrics /\
  PerformanceOptimizer.analyze_and_optimize env metrics
    = flat_map (fun m => map (action_report env m)
                           (PerformanceOptimizer._get_optimization_actions m))
               metrics /\
  Forall (fun report => PerformanceOptimizer.text_truthy (drop 2 report) = true)
         (PerformanceOptimizer.analyze_and_optimize env metrics).
Proof.
  assert (Hreports :
    PerformanceOptimizer.analyze_and_optimize env metrics
    = flat_map (fun m => map (action_report env m)
                           (PerformanceOptimizer._get_optimization_actions m))
               metrics).
  { unfold PerformanceOptimizer.analyze_and_optimize.
    induction metrics as [|m metrics IH]; [done|].
    cbn [flat_map]. f_equal; [|exact IH].
    assert (Hknown := optimization_actions_known m).
    induction (PerformanceOptimizer._get_optimization_actions m) as [|name names IHn];
      [done|].
    cbn [flat_map map].
    destruct (Hknown name) as (-> & Htruthy); [by left|].
    rewrite Htruthy. cbn [app]. f_equal.
    apply IHn. intros name' Hin. apply Hknown. by right. }
  split; [|split; [exact Hreports|]].
  - apply Forall_forall. intros m _.
    unfold PerformanceOptimizer._get_optimization_actions.
    repeat match goal with
           | |- context [if ?c then _ else _] => destruct c
           end; simpl; lia.
  - rewrite Hreports. apply Forall_forall. intros report Hin.
    apply list_elem_of_In, in_flat_map in Hin as (m & _ & Hin).
    apply in_map_iff in Hin as (name & <- & Hname).
    apply list_elem_of_In in Hname.
    destruct (optimization_actions_known m name Hname) as [_ Htruthy].
    exact (Htruthy env).
Qed.

(** X14: the optimizer acts only on samples that are at least at warning
    level: for every sample either collector returns, an action is picked
    only if the value reaches the warning or the critical threshold of the
    sample.  (The values from which the optimizer acts, 80 for memory_usage,
    75 for cpu_usage, 3000 for API response times, 85 for disk_usage and 5 for
    error_rate, are not below the warning thresholds of the collectors.) *)
Theorem optimizer_acts_on_breaching_samples_only :
  (forall env now,
     exists l, SystemPerformanceMonitor.collect_metrics env now = Returns l /\
               Forall acts_on_breach l) /\
  (forall env now now1,
     exists l, ApplicationPerformanceMonitor.collect_metrics env now now1 = Returns l /\
               Forall acts_on_breach l).
Proof.
  split.
  - intros env now.
    destruct (collected_returns
                (SystemPerformanceMonitor.cpu_metrics env now;;
                 SystemPerformanceMonitor.memory_metrics env now;;
                 SystemPerformanceMonitor.disk_metrics env now;;
                 SystemPerformanceMonitor.disk_io_metrics env now;;
                 SystemPerformanceMonitor.load_average env now;;
                 SystemPerformanceMonitor.network_latency env now)) as [l Hl].
    exists l. split; [exact Hl|].
    by apply (system_collect_as_collected env now), Forall_and in Hl as [_ Hl].
  - intros env now now1.
    destruct (collected_returns
                (ApplicationPerformanceMonitor.script_execution_times env now;;
                 ApplicationPerformanceMonitor.api_response_times env now;;
                 ApplicationPerformanceMonitor.application_memory_usage env now;;
                 ApplicationPerformanceMonitor.error_rate env now now1)) as [l Hl].
    exists l. split; [exact Hl|].
    by apply (application_collect_as_collected env now now1), Forall_and in Hl as [_ Hl].
Qed.

(** ** A monitoring cycle *)

Lemma store_and_check_operations (metrics : list PerformanceMetric)
    (am : AlertManager) (clock : nat -> Z * Z) (i : nat) :
  store_and_check am metrics clock i = perform_all am (cycle_operations metrics clock i).
Proof.
  revert am i. induction metrics as [|m metrics IH]; intros am i; [done|].
  cbn [store_and_check cycle_operations perform_all perform].
  change {| db := store_metric (db am) m; alert_cooldown := alert_cooldown am;
            recent_alerts := recent_alerts am;
            notification_handlers := notification_handlers am;
            handler_calls := handler_calls am |}
    with (with_db am (store_metric (db am) m)).
  destruct (check_metric_thresholds _ m (clock i).1 (clock i).2) as [am2 alert].
  rewrite IH. by destruct (perform_all am2 _) as [am3 alerts].
Qed.

Lemma cycle_operations_monitoring (metrics : list PerformanceMetric)
    (clock : nat -> Z * Z) (i : nat) :
  Forall is_monitoring_step (cycle_operations metrics clock i).
Proof.
  revert i. induction metrics as [|m metrics IH]; intros i; simpl; [constructor|].
  by repeat constructor.
Qed.

Lemma check_keeps_other_tables (am : AlertManager) (m : PerformanceMetric)
    (now1 now2 : Z) :
  performance_metrics (db (check_metric_thresholds am m now1 now2).1)
    = performance_metrics (db am) /\
  system_health (db (check_metric_thresholds am m now1 now2).1) = system_health (db am).
Proof.
  pose proof (check_effects am m now1 now2) as He.
  by destruct ((check_metric_thresholds am m now1 now2).2); destruct He as [-> _].
Qed.

Lemma cycle_operations_tables (metrics : list PerformanceMetric) (am : AlertManager)
    (clock : nat -> Z * Z) (i : nat) :
  performance_metrics (db (perform_all am (cycle_operations metrics clock i)).1)
    = performance_metrics (db am) ++ map metric_row metrics /\
  system_health (db (perform_all am (cycle_operations metrics clock i)).1)
    = system_health (db am).
Proof.
  revert am i. induction metrics as [|m metrics IH]; intros am i.
  - simpl. by rewrite app_nil_r.
  - cbn [cycle_operations perform_all perform].
    pose proof (check_keeps_other_tables (with_db am (store_metric (db am) m)) m
                  (clock i).1 (clock i).2) as [Hm Hh].
    destruct (check_metric_thresholds _ m (clock i).1 (clock i).2) as [am2 alert].
    destruct (IH am2 (S i)) as [IHm IHh].
    destruct (perform_all am2 _) as [am3 alerts]. simpl in *.
    rewrite IHm, IHh, Hm, Hh. by rewrite <- app_assoc.
Qed.

Lemma perform_all_settings (ops : list Operation) (am : AlertManager) :
  alert_cooldown (perform_all am ops).1 = alert_cooldown am /\
  notification_handlers (perform_all am ops).1 = notification_handlers am.
Proof.
  revert am. induction ops as [|op ops IH]; intros am; [done|]. simpl.
  pose proof (perform_preserves_settings am op) as [Hc Hn].
  destruct (perform am op) as [am1 r]. specialize (IH am1).
  destruct (perform_all am1 ops) as [am2 rs]. simpl in *.
  destruct IH as [-> ->]. by rewrite Hc, Hn.
Qed.

Lemma health_stamp_and_count (now : Z) (ms : list PerformanceMetric)
    (alerts : list PerformanceAlert) :
  health_timestamp (_calculate_system_health now ms alerts) = now /\
  active_alerts (_calculate_system_health now ms alerts) = length alerts.
Proof.
  unfold _calculate_system_health.
  destruct (fold_left health_step ms (100%Q, [])) as [s b].
  repeat match goal with
         | |- context [if ?c then _ else _] => destruct c
         end; done.
Qed.

Lemma store_and_check_each_accepted (sqlite : PerformanceMetric -> Outcome unit)
    (metrics : list PerformanceMetric) (am : AlertManager) (clock : nat -> Z * Z)
    (i : nat) (alerts : list PerformanceAlert) :
  Forall (accepted sqlite) metrics ->
  store_and_check_each sqlite am metrics clock i alerts
  = ((store_and_check am metrics clock i).1,
     Returns (alerts ++ (store_and_check am metrics clock i).2)).
Proof.
  intros Hacc. revert am i alerts.
  induction Hacc as [|m metrics Hm _ IH]; intros am i alerts.
  - simpl. by rewrite app_nil_r.
  - cbn [store_and_check_each store_and_check]. rewrite Hm.
    destruct (check_metric_thresholds _ m (clock i).1 (clock i).2) as [am2 alert].
    rewrite IH. destruct (store_and_check am2 metrics clock (S i)) as [am3 rest].
    simpl. destruct alert; by rewrite <- ?app_assoc.
Qed.

Lemma store_and_check_each_rejected (sqlite : PerformanceMetric -> Outcome unit)
    (stored : list PerformanceMetric) (m : PerformanceMetric)
    (rest : list PerformanceMetric) (e : PyExc) (am : AlertManager)
    (clock : nat -> Z * Z) (i : nat) (alerts : list PerformanceAlert) :
  Forall (accepted sqlite) stored -> sqlite m = Raises e ->
  store_and_check_each sqlite am (stored ++ m :: rest) clock i alerts
  = ((store_and_check am stored clock i).1, Raises e).
Proof.
  intros Hacc He. revert am i alerts.
  induction Hacc as [|m' stored Hm' _ IH]; intros am i alerts.
  - simpl. by rewrite He.
  - cbn [app store_and_check_each store_and_check]. rewrite Hm'.
    destruct (check_metric_thresholds _ m' (clock i).1 (clock i).2) as [am2 alert].
    rewrite IH. by destruct (store_and_check am2 stored clock (S i)) as [am3 others].
Qed.

(** X15: a monitoring cycle collects the system samples and then the
    application samples, whatever the probes answer, and then stores and
    evaluates them in order.  When sqlite3 takes every sample the cycle
    completes and is the run of these operations: each sample is stored and
    then evaluated, and one health snapshot is stored last.  It appends one
    metric row per sample, the alerts its evaluations dispatched, and exactly
    one snapshot, stamped with the time of the health calculation, whose
    active_alerts is the number of alerts dispatched in this cycle and whose
    score follows the formula for the samples and these alerts; the handlers
    are called once per dispatched alert and the cooldown setting is kept.
    When the INSERT of a sample raises, the cycle raises that exception: the
    samples before it have been stored and evaluated, the sample and those
    after it are not, and no snapshot is written. *)
Theorem monitoring_cycle_appends_rows (am : AlertManager)
    (system : SystemPerformanceMonitor.Probes)
    (application : ApplicationPerformanceMonitor.Probes)
    (optimizer : PerformanceOptimizer.Probes)
    (sqlite : PerformanceMetric -> Outcome unit) (clock : CycleClock) :
  exists system_metrics app_metrics,
    SystemPerformanceMonitor.collect_metrics system (now_system clock)
      = Returns system_metrics /\
    ApplicationPerformanceMonitor.collect_metrics application (now_application clock)
      (now_error_rate clock) = Returns app_metrics /\
    let metrics := system_metrics ++ app_metrics in
    let cycle := _collect_and_analyze_metrics am system application optimizer sqlite clock in
    (Forall (accepted sqlite) metrics ->
     let run := perform_all am (cycle_operations metrics (now_evaluation clock) 0) in
     exists row,
       cycle.2 = Returns tt /\
       cycle.1 = (perform_all run.1
                    [StoreHealth (_calculate_system_health (now_health clock) metrics
                                    run.2)]).1 /\
       performance_metrics (db cycle.1)
         = performance_metrics (db am) ++ map metric_row metrics /\
       performance_alerts (db cycle.1) = performance_alerts (db am) ++ run.2 /\
       system_health (db cycle.1) = system_health (db am) ++ [row] /\
       hrow_timestamp row = now_health clock /\
       hrow_active_alerts row = length run.2 /\
       (hrow_health_score row == score_formula reaches metrics run.2)%Q /\
       handler_calls cycle.1
         = handler_calls am ++ notifications (notification_handlers am) run.2 /\
       alert_cooldown cycle.1 = alert_cooldown am) /\
    (forall stored m rest e,
       metrics = stored ++ m :: rest ->
       Forall (accepted sqlite) stored -> sqlite m = Raises e ->
       let run := perform_all am (cycle_operations stored (now_evaluation clock) 0) in
       cycle = (run.1, Raises e) /\
       performance_metrics (db cycle.1)
         = performance_metrics (db am) ++ map metric_row stored /\
       performance_alerts (db cycle.1) = performance_alerts (db am) ++ run.2 /\
       system_health (db cycle.1) = system_health (db am)).
Proof.
  destruct (collected_returns
              (SystemPerformanceMonitor.cpu_metrics system (now_system clock);;
               SystemPerformanceMonitor.memory_metrics system (now_system clock);;
               SystemPerformanceMonitor.disk_metrics system (now_system clock);;
               SystemPerformanceMonitor.disk_io_metrics system (now_system clock);;
               SystemPerformanceMonitor.load_average system (now_system clock);;
               SystemPerformanceMonitor.network_latency system (now_system clock)))
    as [sys Hsys].
  destruct (collected_returns
              (ApplicationPerformanceMonitor.script_execution_times application
                 (now_application clock);;
               ApplicationPerformanceMonitor.api_response_times application
                 (now_application clock);;
               ApplicationPerformanceMonitor.application_memory_usage application
                 (now_application clock);;
               ApplicationPerformanceMonitor.error_rate application
                 (now_application clock) (now_error_rate clock)))
    as [apps Happ].
  change (SystemPerformanceMonitor.collect_metrics system (now_system clock)
          = Returns sys) in Hsys.
  change (ApplicationPerformanceMonitor.collect_metrics application
            (now_application clock) (now_error_rate clock) = Returns apps) in Happ.
  exists sys, apps. split; [exact Hsys|]. split; [exact Happ|].
  cbn zeta. unfold _collect_and_analyze_metrics. rewrite Hsys, Happ.
  set (metrics := sys ++ apps). split.
  - intros Hacc.
    rewrite (store_and_check_each_accepted sqlite metrics am _ 0 [] Hacc).
    rewrite (store_and_check_operations metrics am (now_evaluation clock) 0).
    pose proof (cycle_operations_tables metrics am (now_evaluation clock) 0) as [Hm Hh].
    pose proof (perform_all_effects (cycle_operations metrics (now_evaluation clock) 0)
                  am (cycle_operations_monitoring _ _ _)) as [Ha Hc].
    pose proof (perform_all_settings (cycle_operations metrics (now_evaluation clock) 0)
                  am) as [Hcool _].
    destruct (perform_all am (cycle_operations metrics (now_evaluation clock) 0))
      as [am1 alerts] eqn:Hrun.
    simpl in Hm, Hh, Ha, Hc, Hcool.
    pose proof (health_stamp_and_count (now_health clock) metrics alerts)
      as [Hstamp Hcount].
    pose proof (health_score_formula (now_health clock) metrics alerts) as Hscore.
    eexists. split; [reflexivity|]. split; [reflexivity|].
    cbn [fst snd app perform_all perform with_db db store_health_snapshot
      performance_metrics performance_alerts system_health handler_calls
      alert_cooldown].
    rewrite Hm, Ha, Hh, Hc, Hcool. repeat split; try reflexivity; assumption.
  - intros stored m rest e Hsplit Hacc He. rewrite Hsplit.
    rewrite (store_and_check_each_rejected sqlite stored m rest e am _ 0 [] Hacc He).
    rewrite (store_and_check_operations stored am (now_evaluation clock) 0).
    pose proof (cycle_operations_tables stored am (now_evaluation clock) 0) as [Hm Hh].
    pose proof (perform_all_effects (cycle_operations stored (now_evaluation clock) 0)
                  am (cycle_operations_monitoring _ _ _)) as [Ha _].
    by destruct (perform_all am (cycle_operations stored (now_evaluation clock) 0))
      as [am1 alerts].
Qed.

Lemma classify_same_alerts (am am' : AlertManager) (m : PerformanceMetric) :
  performance_alerts (db am') = performance_alerts (db am) ->
  classify am' m = classify am m.
Proof.
  intros Ha. unfold classify, _get_recent_alerts_for_metric, get_active_alerts.
  by rewrite Ha.
Qed.

Lemma suppressed_same_entries (am am' : AlertManager) (a : PerformanceAlert) (now : Z) :
  recent_alerts am' = recent_alerts am -> alert_cooldown am' = alert_cooldown am ->
  suppressed am a now -> suppressed am' a now.
Proof. intros Hr Hc. unfold suppressed. by rewrite Hr, Hc. Qed.

Lemma quiet_loop (metrics : list PerformanceMetric) (am am' : AlertManager)
    (clock : nat -> Z * Z) (i : nat) :
  recent_alerts am' = recent_alerts am -> alert_cooldown am' = alert_cooldown am ->
  performance_alerts (db am') = performance_alerts (db am) ->
  all_suppressed am metrics clock i ->
  (store_and_check am' metrics clock i).2 = [] /\
  recent_alerts (store_and_check am' metrics clock i).1 = recent_alerts am /\
  performance_alerts (db (store_and_check am' metrics clock i).1)
    = performance_alerts (db am) /\
  handler_calls (store_and_check am' metrics clock i).1 = handler_calls am'.
Proof.
  revert am' i. induction metrics as [|m metrics IH]; intros am' i Hr Hc Ha Hq; [done|].
  destruct Hq as [Hm Hq]. cbn [store_and_check].
  set (am1 := {| db := store_metric (db am') m; alert_cooldown := alert_cooldown am';
                 recent_alerts := recent_alerts am';
                 notification_handlers := notification_handlers am';
                 handler_calls := handler_calls am' |}).
  assert (Hcheck : check_metric_thresholds am1 m (clock i).1 (clock i).2 = (am1, None)).
  { rewrite <- (classify_same_alerts am am1 m Ha) in Hm.
    destruct (classify am1 m) as [a|] eqn:Hcl.
    - apply (check_suppressed am1 m a); [done|].
      by apply (suppressed_same_entries am am1).
    - by apply check_no_alert. }
  rewrite Hcheck. specialize (IH am1 (S i) Hr Hc Ha Hq).
  by destruct (store_and_check am1 metrics clock (S i)) as [am3 alerts].
Qed.

(** X16: alerts in cooldown do not count against the health of a cycle.  When
    every sample of the batch either yields no alert or one whose key is in
    cooldown, the loop of the cycle returns no alert, writes no alert row,
    calls no handler and leaves the cooldown entries as they were; the
    snapshot then reports no active alert and its score loses only the
    deductions for the samples' thresholds, however many of the samples are
    breaching. *)
Theorem suppressed_alerts_leave_the_score (am : AlertManager)
    (metrics : list PerformanceMetric) (clock : nat -> Z * Z) (i : nat) (now : Z) :
  all_suppressed am metrics clock i ->
  let run := store_and_check am metrics clock i in
  let health := _calculate_system_health now metrics run.2 in
  run.2 = [] /\
  performance_alerts (db run.1) = performance_alerts (db am) /\
  handler_calls run.1 = handler_calls am /\
  recent_alerts run.1 = recent_alerts am /\
  active_alerts health = 0%nat /\
  (health_score health == score_formula reaches metrics [])%Q.
Proof.
  intros Hq run health.
  destruct (quiet_loop metrics am am clock i eq_refl eq_refl eq_refl Hq)
    as (Hnone & Hr & Ha & Hh).
  fold run in Hnone, Hr, Ha, Hh. repeat split; try done.
  - subst health. rewrite Hnone.
    by destruct (health_stamp_and_count now metrics []) as [_ ->].
  - subst health. rewrite Hnone. apply health_score_formula.
Qed.

Lemma suppressed_alerts_leave_the_score_witness :
  let run := store_and_check alerted_manager [cpu92_later] five_minutes_later 0 in
  let health := _calculate_system_health (5 * minute) [cpu92_later] run.2 in
  run.2 = [] /\
  performance_alerts (db run.1) = performance_alerts (db alerted_manager) /\
  handler_calls run.1 = handler_calls alerted_manager /\
  recent_alerts run.1 = recent_alerts alerted_manager /\
  active_alerts health = 0%nat /\
  (health_score health == score_formula reaches [cpu92_later] [])%Q.
Proof.
  apply (suppressed_alerts_leave_the_score alerted_manager [cpu92_later]
           five_minutes_later 0 (5 * minute)).
  split; [|exact I].
  change (classify alerted_manager cpu92_later)
    with (Some (critical_alert cpu92_later 85)).
  exists 0. split; [reflexivity|]. vm_compute. reflexivity.
Defined.

(** ** The performance report *)

Lemma summary_entries {B} (g : string -> option B) (names : list string)
    (name : string) (s : B) :
  (name, s) ∈ flat_map (fun n => match g n with
                                  | Some s => [(n, s)]
                                  | None => []
                                  end) names
  <-> name ∈ names /\ g name = Some s.
Proof.
  rewrite list_elem_of_In, in_flat_map. split.
  - intros (n & Hn & Hin). apply list_elem_of_In in Hn.
    destruct (g n) as [s'|] eqn:Hg; simpl in Hin; [|done].
    destruct Hin as [[= <- <-]|[]]. by split.
  - intros [Hn Hg]. exists name. split; [by apply list_elem_of_In|].
    rewrite Hg. by left.
Qed.

Lemma summary_names {B} (g : string -> option B) (names : list string) :
  map fst (flat_map (fun n => match g n with
                              | Some s => [(n, s)]
                              | None => []
                              end) names) `sublist_of` names.
Proof.
  induction names as [|n names IH]; [done|]. cbn [flat_map]. rewrite map_app.
  destruct (g n); simpl; by constructor.
Qed.

Lemma last_map_value (l : list PerformanceMetric) :
  last (map value l) = value <$> last l.
Proof. exact (fmap_last value l). Qed.

Lemma summarize_samples (m : PerformanceMetric) (rest : list PerformanceMetric) :
  exists s,
    summarize (m :: rest) = Some s /\
    summary_data_points s = S (length rest) /\
    summary_current s = value m /\
    (summary_min s <= summary_average s <= summary_max s)%Q /\
    (summary_min s <= summary_current s <= summary_max s)%Q /\
    (summary_trend s = "improving" <->
     exists oldest, last rest = Some oldest /\ (value m < value oldest)%Q) /\
    (summary_trend s = "improving" \/ summary_trend s = "stable").
Proof.
  eexists. split; [reflexivity|]. cbn [summary_data_points summary_current
    summary_average summary_min summary_max summary_trend].
  split; [by rewrite length_map|]. split; [done|]. split; [|split; [|split]].
  - by apply mean_between_min_max.
  - pose proof (list_min_max_bounds 0 (map value (m :: rest))) as Hb.
    by apply Forall_cons in Hb as [Hb _].
  - destruct rest as [|r rest].
    { simpl. split; [done|]. by intros (oldest & [=] & _). }
    rewrite length_map.
    change (map value (m :: r :: rest)) with (value m :: map value (r :: rest)).
    change (last (value m :: map value (r :: rest))) with (last (map value (r :: rest))).
    rewrite last_map_value. cbn [length Nat.ltb Nat.leb andb head default].
    destruct (last (r :: rest)) as [oldest|] eqn:Hlast.
    2:{ by apply last_None in Hlast. }
    cbn [fmap option_fmap option_map default]. unfold id.
    destruct (py_lt (value m) (value oldest)) eqn:Hlt.
    + split; [|done]. intros _. exists oldest. split; [done|]. by apply py_lt_true.
    + split; [done|]. intros (o & [= <-] & Ho). apply py_lt_true in Ho. congruence.
  - destruct (_ && _); [by left | by right].
Qed.

Lemma report_entries (am : AlertManager) (hours now : Z) (now_of : string -> Z)
    (name : string) (s : MetricSummary) :
  (name, s) ∈ metrics_summary (get_performance_report am hours now now_of)
  <-> name ∈ key_metrics /\
      summarize (get_recent_metrics (db am) name hours (now_of name)) = Some s.
Proof.
  exact (summary_entries
           (fun n => summarize (get_recent_metrics (db am) n hours (now_of n)))
           key_metrics name s).
Qed.

(** X17: the metrics summary of the report has entries for key metrics only,
    in the order of the key metrics, and one for a key metric exactly when
    the store has a sample of that name in the period (read at the clock of
    its own query).  The entry counts those samples, its current value is
    that of the newest one, minimum, average and maximum are ordered and
    enclose the current value, and the trend is improving exactly when
    there is more than one sample and the newest value is below the oldest,
    stable otherwise. *)
Theorem report_summarizes_key_metrics (am : AlertManager) (hours now : Z)
    (now_of : string -> Z) :
  let report := get_performance_report am hours now now_of in
  map fst (metrics_summary report) `sublist_of` key_metrics /\
  forall name,
    name ∈ key_metrics ->
    let recent := get_recent_metrics (db am) name hours (now_of name) in
    (recent = [] -> name ∉ map fst (metrics_summary report)) /\
    (forall m rest,
       recent = m :: rest ->
       exists s,
         (forall s', (name, s') ∈ metrics_summary report <-> s' = s) /\
         summary_data_points s = S (length rest) /\
         summary_current s = value m /\
         (summary_min s <= summary_average s <= summary_max s)%Q /\
         (summary_min s <= summary_current s <= summary_max s)%Q /\
         (summary_trend s = "improving" <->
          exists oldest, last rest = Some oldest /\ (value m < value oldest)%Q) /\
         (summary_trend s = "improving" \/ summary_trend s = "stable")).
Proof.
  intros report. split; [apply summary_names|].
  intros name Hname recent. split.
  - intros Hnone Hin.
    apply list_elem_of_fmap in Hin as [[n s] [Heq Hin]]. simpl in Heq. subst n.
    apply report_entries in Hin as [_ Hs].
    fold recent in Hs. by rewrite Hnone in Hs.
  - intros m rest Hrecent.
    destruct (summarize_samples m rest) as (s & Hs & Hrest). exists s.
    split; [|exact Hrest]. intros s'. unfold report.
    rewrite report_entries. fold recent. rewrite Hrecent, Hs. split.
    + by intros [_ [= <-]].
    + by intros ->.
Qed.

Lemma head_newest {A} (key : A -> Z) (rows : list A) (row : A) :
  Forall (fun r => key r <= key row) rows ->
  head (order_by_desc key (reverse (rows ++ [row]))) = Some row.
Proof.
  intros Hold. rewrite reverse_app. simpl. unfold order_by_desc. simpl.
  fold (order_by_desc key (reverse rows)).
  pose proof (order_by_desc_Permutation key (reverse rows)) as Hperm.
  destruct (order_by_desc key (reverse rows)) as [|x s]; [done|]. simpl.
  assert (Hx : x ∈ rows).
  { apply elem_of_reverse. rewrite <- Hperm. by left. }
  rewrite Forall_forall in Hold. specialize (Hold x Hx).
  by destruct (decide (key x <= key row)).
Qed.

(** X18: the report reads the stored snapshots back.  It has no system health
    exactly when no snapshot is stored; and right after a snapshot is stored
    whose timestamp is at least that of every stored one, the report shows
    the score, status, grade, bottlenecks and recommendations of that
    snapshot, empty lists included. *)
Theorem report_shows_latest_snapshot (am : AlertManager) (health : SystemHealth)
    (hours now : Z) (now_of : string -> Z) :
  Forall (fun row => hrow_timestamp row <= health_timestamp health)
         (system_health (db am)) ->
  (report_system_health (get_performance_report am hours now now_of) = None
   <-> system_health (db am) = []) /\
  report_system_health
    (get_performance_report
       {| db := store_health_snapshot (db am) health;
          alert_cooldown := alert_cooldown am;
          recent_alerts := recent_alerts am;
          notification_handlers := notification_handlers am;
          handler_calls := handler_calls am |} hours now now_of)
    = Some (health_summary_of health).
Proof.
  intros Hold. split.
  - unfold get_performance_report, latest_health_row. cbn [report_system_health].
    pose proof (order_by_desc_Permutation hrow_timestamp
                  (reverse (system_health (db am)))) as Hperm.
    destruct (order_by_desc hrow_timestamp (reverse (system_health (db am))))
      as [|x s].
    + apply Permutation_nil_l in Hperm. split; [intros _|done].
      apply (f_equal reverse) in Hperm. by rewrite reverse_involutive in Hperm.
    + simpl. split; [done|]. intros Hnil. rewrite Hnil in Hperm.
      by apply Permutation_nil_r in Hperm.
  - unfold get_performance_report, latest_health_row, store_health_snapshot.
    cbn [report_system_health db system_health].
    rewrite head_newest by exact Hold. reflexivity.
Qed.

Lemma report_shows_latest_snapshot_witness :
  system_health (db reported_manager) <> [] /\
  (report_system_health (get_performance_report reported_manager 24 (5 * minute)
                           (fun _ => 5 * minute)) = None
   <-> system_health (db reported_manager) = []) /\
  report_system_health
    (get_performance_report
       {| db := store_health_snapshot (db reported_manager) later_health;
          alert_cooldown := alert_cooldown reported_manager;
          recent_alerts := recent_alerts reported_manager;
          notification_handlers := notification_handlers reported_manager;
          handler_calls := handler_calls reported_manager |} 24 (5 * minute)
       (fun _ => 5 * minute))
    = Some (health_summary_of later_health).
Proof.
  split; [discriminate|].
  apply (report_shows_latest_snapshot reported_manager later_health 24 (5 * minute)
           (fun _ => 5 * minute)).
  repeat constructor. by vm_compute.
Defined.

Lemma returned_alerts_well_formed (ops : list Operation) (am : AlertManager) :
  Forall well_formed_alert (perform_all am ops).2.
Proof.
  revert am. induction ops as [|op ops IH]; intros am; simpl; [constructor|].
  assert (Hop : forall a, (perform am op).2 = Some a -> well_formed_alert a).
  { destruct op as [m0|a0|h0|m now1 now2]; simpl; try done.
    intros a Ha. apply (classify_well_formed am m).
    by apply (check_returns_classification am m now1 now2). }
  destruct (perform am op) as [am1 r]. specialize (IH am1).
  destruct (perform_all am1 ops) as [am2 rs]. simpl in *.
  destruct r as [a|]; [|done]. constructor; [by apply Hop | done].
Qed.

Lemma unresolved_are_breach_alerts (alerts : list PerformanceAlert) :
  Forall well_formed_alert alerts ->
  filter (fun a => resolved a = false) alerts = breach_alerts alerts.
Proof.
  unfold breach_alerts. induction 1 as [|a alerts Ha _ IH]; [done|].
  destruct Ha as [(Ht & _ & Hr & _)|[(Ht & _ & Hr & _)|(Ht & _ & Hr & _)]].
  - rewrite !filter_cons_True, IH; [done|by rewrite Ht|done].
  - rewrite !filter_cons_True, IH; [done|by rewrite Ht|done].
  - rewrite !filter_cons_False, IH; [done|by rewrite Ht; intros []|by rewrite Hr].
Qed.

(** X19: alerts are never resolved.  The active_alerts figure of the report
    is the number of unresolved rows of the alerts table, and over any run of
    monitoring operations it grows by exactly the number of critical and
    warning alerts the evaluations dispatched: a recovery alert is stored
    resolved and resolves nothing, so the figure never goes down. *)
Theorem report_active_alerts_accumulate (am : AlertManager) (ops : list Operation)
    (hours now hours' now' : Z) (now_of now_of' : string -> Z) :
  Forall is_monitoring_step ops ->
  report_active_alerts (get_performance_report (perform_all am ops).1 hours' now' now_of')
  = (report_active_alerts (get_performance_report am hours now now_of)
     + length (breach_alerts (perform_all am ops).2))%nat.
Proof.
  intros Hm. cbn [get_performance_report report_active_alerts].
  destruct (perform_all_effects ops am Hm) as [Ha _].
  unfold get_active_alerts.
  rewrite !(Permutation_length (order_by_desc_Permutation _ _)), !length_reverse, Ha.
  rewrite filter_app, length_app. f_equal. f_equal.
  apply unresolved_are_breach_alerts, returned_alerts_well_formed.
Qed.

Lemma report_active_alerts_accumulate_witness :
  report_active_alerts
    (get_performance_report (perform_all fresh_manager two_cycles).1 24 (5 * minute)
       (fun _ => 5 * minute))
  = (report_active_alerts (get_performance_report fresh_manager 24 0 (fun _ => 0%Z))
     + length (breach_alerts (perform_all fresh_manager two_cycles).2))%nat.
Proof.
  apply (report_active_alerts_accumulate fresh_manager two_cycles).
  repeat constructor.
Defined.

Lemma active_alert_persists (am : AlertManager) (ops : list Operation) (name : string) :
  has_active_alert am name -> has_active_alert (perform_all am ops).1 name.
Proof.
  intros (a & Hin & Hr & Hn). destruct (perform_all_appends ops am) as [added Hadd].
  exists a. split; [|done]. rewrite Hadd. apply elem_of_app. by left.
Qed.

(** X20: a recovery ends nothing.  Once the store holds an unresolved alert
    of a metric it does so after any run of operations, dispatched recovery
    alerts included; so every later sample of that metric in its normal range
    is again classified as a recovery, and is dispatched as one whenever its
    key is not in cooldown, after which the metric still has its unresolved
    alert. *)
Theorem recovery_repeats (am : AlertManager) (m : PerformanceMetric)
    (ops : list Operation) (now1 now2 : Z) :
  has_active_alert am (metric_name m) -> in_range m ->
  let am' := (perform_all am ops).1 in
  has_active_alert am' (metric_name m) /\
  classify am' m = Some (recovery_alert m) /\
  (~ suppressed am' (recovery_alert m) now1 ->
   (check_metric_thresholds am' m now1 now2).2 = Some (recovery_alert m) /\
   has_active_alert (check_metric_thresholds am' m now1 now2).1 (metric_name m)).
Proof.
  intros Ha Hr am'.
  assert (Ha' : has_active_alert am' (metric_name m)) by by apply active_alert_persists.
  assert (Hc : classify am' m = Some (recovery_alert m)) by by apply classify_recovery.
  split; [exact Ha'|]. split; [exact Hc|]. intros Hs.
  rewrite (check_dispatched am' m (recovery_alert m) now1 now2 Hc Hs).
  split; [done|].
  destruct Ha' as (a & Hin & Hres & Hn). exists a. split; [|done].
  simpl. apply elem_of_app. by left.
Qed.

Lemma recovery_repeats_witness :
  let am' := (perform_all alerted_manager recovery_cycle).1 in
  has_active_alert am' "cpu_usage" /\
  classify am' cpu40 = Some (recovery_alert cpu40) /\
  (~ suppressed am' (recovery_alert cpu40) (40 * minute) ->
   (check_metric_thresholds am' cpu40 (40 * minute) (40 * minute)).2
     = Some (recovery_alert cpu40) /\
   has_active_alert (check_metric_thresholds am' cpu40 (40 * minute) (40 * minute)).1
     "cpu_usage").
Proof.
  apply (recovery_repeats alerted_manager cpu40 recovery_cycle
           (40 * minute) (40 * minute)).
  - exists (critical_alert cpu92 85). split; [|done]. vm_compute. by left.
  - split; intros q [= <-]; by compute.
Defined.
